(** * ShieldCLI: rule engine, proxy mode policy and efficacy analyser

    A shallow embedding of the Go sources
      - pkg/waf/rule.go      (Rule, Compile, Match, calculateEntropy,
                              detectSQLi, detectXSS)
      - pkg/waf/engine.go    (Engine, addDefaultRules, AddRule, Check,
                              checkRule)
      - pkg/proxy            (InterceptRequest, NewProxy, handleRequest,
                              askUser, responseWriter)
      - pkg/analysis         (AnalyzeRules, calculateRuleMetrics,
                              generateRecommendations)
    together with the properties the specification states about them.

    Conventions.  A Go [string] is a sequence of bytes: [String.string],
    whose characters are 8-bit.  A Go [int]/[int64] that is only stored,
    compared or counted up to a slice length is a [Z].  A [float64] is a
    primitive binary64 float ([PrimFloat.float]), so that float
    expressions evaluate exactly as they do in Go.  A Go [map] is a
    [gmap]; ranging over it is modelled by [map_to_list], whose order is
    as unspecified to the proofs as Go's is to the program. *)

From Stdlib Require Import ZArith String Ascii List Bool Lia DecimalString.
From Stdlib Require Import Floats.
From stdpp Require Import base gmap strings list.

Local Open Scope string_scope.
Local Open Scope list_scope.
Local Open Scope Z_scope.

(** ** Results of fallible calls *)

Inductive result (A : Type) : Type :=
  | Ok (a : A)
  | Err (msg : string).
Arguments Ok {A} a.
Arguments Err {A} msg.

(** ** The Go standard library functions the program calls into

    These are not code of the repository.  The embedding takes them as an
    interface; every theorem below holds for each implementation of it. *)

Class GoRuntime := {
  (** [regexp.Compile]: the compiled expression is represented by its
      [MatchString] method. *)
  regexp_Compile : string -> result (string -> bool);
  (** [unicode.ToUpper] and [unicode.ToLower], on code points. *)
  unicode_ToUpper : Z -> Z;
  unicode_ToLower : Z -> Z;
  (** [math.Log2]. *)
  math_Log2 : float -> float;
  (** [textproto.CanonicalMIMEHeaderKey], used by [http.Header.Get]. *)
  textproto_CanonicalMIMEHeaderKey : string -> string
}.

(** ** Package strings *)

Module GoStrings.

Definition byte_val (c : ascii) : N := N_of_ascii c.

(** [c >= utf8.RuneSelf] is the negation of this. *)
Definition isASCIIbyte (c : ascii) : bool := (byte_val c <? 128)%N.

Fixpoint isASCII (s : string) : bool :=
  match s with
  | EmptyString => true
  | String c s' => isASCIIbyte c && isASCII s'
  end.

Definition upper_byte (c : ascii) : ascii :=
  if ((97 <=? byte_val c) && (byte_val c <=? 122))%N
  then ascii_of_N (byte_val c - 32) else c.

Definition lower_byte (c : ascii) : ascii :=
  if ((65 <=? byte_val c) && (byte_val c <=? 90))%N
  then ascii_of_N (byte_val c + 32) else c.

(** Every byte value, in order. *)
Definition allBytes : list ascii := map ascii_of_nat (seq 0 256).

Fixpoint map_bytes (f : ascii -> ascii) (s : string) : string :=
  match s with
  | EmptyString => EmptyString
  | String c s' => String (f c) (map_bytes f s')
  end.

(** The string without its first [n] bytes, [s[n:]]. *)
Fixpoint drop_bytes (n : nat) (s : string) : string :=
  match n, s with
  | O, _ => s
  | S n', String _ s' => drop_bytes n' s'
  | S _, EmptyString => EmptyString
  end.

(** *** Package unicode/utf8

    [for _, r := range s] yields the code points of [s]; a byte that does
    not start a well-formed sequence yields U+FFFD and advances by one. *)

Definition RuneError : Z := 65533.

Definition bz (c : ascii) : Z := Z.of_N (byte_val c).

Definition in_range (lo hi b : Z) : bool := (lo <=? b) && (b <=? hi).

Definition cont (b : Z) : Z := Z.land b 63.

Definition decodeRune (s : string) : Z * nat :=
  match s with
  | EmptyString => (RuneError, 0%nat)
  | String c0 s1 =>
    let b0 := bz c0 in
    if b0 <? 128 then (b0, 1%nat)
    else if in_range 194 223 b0 then
      match s1 with
      | String c1 _ =>
        if in_range 128 191 (bz c1)
        then (Z.lor (Z.shiftl (Z.land b0 31) 6) (cont (bz c1)), 2%nat)
        else (RuneError, 1%nat)
      | _ => (RuneError, 1%nat)
      end
    else if in_range 224 239 b0 then
      match s1 with
      | String c1 (String c2 _) =>
        let lo := if b0 =? 224 then 160 else 128 in
        let hi := if b0 =? 237 then 159 else 191 in
        if in_range lo hi (bz c1) && in_range 128 191 (bz c2)
        then (Z.lor (Z.shiftl (Z.land b0 15) 12)
                (Z.lor (Z.shiftl (cont (bz c1)) 6) (cont (bz c2))), 3%nat)
        else (RuneError, 1%nat)
      | _ => (RuneError, 1%nat)
      end
    else if in_range 240 244 b0 then
      match s1 with
      | String c1 (String c2 (String c3 _)) =>
        let lo := if b0 =? 240 then 144 else 128 in
        let hi := if b0 =? 244 then 143 else 191 in
        if in_range lo hi (bz c1) && in_range 128 191 (bz c2)
           && in_range 128 191 (bz c3)
        then (Z.lor (Z.shiftl (Z.land b0 7) 18)
                (Z.lor (Z.shiftl (cont (bz c1)) 12)
                   (Z.lor (Z.shiftl (cont (bz c2)) 6) (cont (bz c3)))), 4%nat)
        else (RuneError, 1%nat)
      | _ => (RuneError, 1%nat)
      end
    else (RuneError, 1%nat)
  end.


(** The runes of [s]; every step consumes a byte, so [fuel] = [len(s)]
    is enough. *)
Fixpoint runes_from (fuel : nat) (s : string) : list Z :=
  match fuel, s with
  | O, _ => []
  | _, EmptyString => []
  | S fuel', _ =>
    let '(r, w) := decodeRune s in r :: runes_from fuel' (drop_bytes w s)
  end.

Definition runes (s : string) : list Z := runes_from (String.length s) s.

(** [utf8.AppendRune]: the bytes of a code point; a surrogate or a value
    out of range is written as U+FFFD. *)
Definition byte_of (z : Z) : ascii := ascii_of_N (Z.to_N z).

Definition encodeRune (r : Z) : string :=
  if (0 <=? r) && (r <=? 127) then String (byte_of r) EmptyString
  else if (0 <=? r) && (r <=? 2047) then
    String (byte_of (Z.lor 192 (Z.shiftr r 6)))
      (String (byte_of (Z.lor 128 (cont r))) EmptyString)
  else if (r <? 0) || (1114111 <? r) || in_range 55296 57343 r then
    String (byte_of 239) (String (byte_of 191) (String (byte_of 189) EmptyString))
  else if r <=? 65535 then
    String (byte_of (Z.lor 224 (Z.shiftr r 12)))
      (String (byte_of (Z.lor 128 (cont (Z.shiftr r 6))))
         (String (byte_of (Z.lor 128 (cont r))) EmptyString))
  else
    String (byte_of (Z.lor 240 (Z.shiftr r 18)))
      (String (byte_of (Z.lor 128 (cont (Z.shiftr r 12))))
         (String (byte_of (Z.lor 128 (cont (Z.shiftr r 6))))
            (String (byte_of (Z.lor 128 (cont r))) EmptyString))).

(** *** Case mapping *)

(** [strings.Map(mapping, s)]: the code points of [s], each replaced by
    its image, or dropped when the image is negative.  A byte that is not
    part of a well-formed sequence is read as U+FFFD.  [skip] counts the
    bytes of the current code point that are still to be passed over. *)
Fixpoint mapFrom (mapping : Z -> Z) (skip : nat) (s : string) : string :=
  match s with
  | EmptyString => EmptyString
  | String _ s' =>
    match skip with
    | S skip' => mapFrom mapping skip' s'
    | O =>
      let '(c, width) := decodeRune s in
      let r := mapping c in
      (if r <? 0 then EmptyString else encodeRune r)
      +:+ mapFrom mapping (width - 1) s'
    end
  end.

Definition Map (mapping : Z -> Z) (s : string) : string := mapFrom mapping 0 s.

(** [strings.ToUpper]: byte-wise on an ASCII-only string, code point by
    code point otherwise. *)
Definition ToUpper `{GoRuntime} (s : string) : string :=
  if isASCII s then map_bytes upper_byte s else Map unicode_ToUpper s.

Definition ToLower `{GoRuntime} (s : string) : string :=
  if isASCII s then map_bytes lower_byte s else Map unicode_ToLower s.


(** [strings.HasPrefix(s, prefix)] *)
Definition HasPrefix (s p : string) : bool := String.prefix p s.

(** [strings.TrimPrefix(s, prefix)] *)
Definition TrimPrefix (s p : string) : string :=
  if HasPrefix s p then drop_bytes (String.length p) s else s.

(** [strings.HasSuffix(s, suffix)] *)
Definition HasSuffix (s p : string) : bool :=
  (String.length p <=? String.length s)%nat &&
  String.eqb (drop_bytes (String.length s - String.length p) s) p.

(** [strings.Contains(s, substr)]: [substr] starts at some offset of [s]. *)
Fixpoint Contains (s sub : string) : bool :=
  String.prefix sub s ||
  match s with
  | EmptyString => false
  | String _ s' => Contains s' sub
  end.

End GoStrings.

(** ** Package fmt: scanning a word *)

Module GoFmt.
Import GoStrings.

(** The white space of package fmt, as ranges of code points. *)
Definition space : list (Z * Z) :=
  [ (9, 13); (32, 32); (133, 133); (160, 160); (5760, 5760); (8192, 8202);
    (8232, 8233); (8239, 8239); (8287, 8287); (12288, 12288) ].

Definition isSpace (r : Z) : bool :=
  existsb (fun rng => in_range (fst rng) (snd rng) r) space.

(** [SkipSpace] in a [Scanln] call: the input behind the leading white
    space, or [None] when a newline comes first, where the call gives up
    with the error [unexpected newline]. *)
Fixpoint skipSpace (fuel : nat) (s : string) : option string :=
  match fuel, s with
  | S fuel', String _ _ =>
    let '(r, w) := decodeRune s in
    if r =? 10 then None
    else if isSpace r then skipSpace fuel' (drop_bytes w s)
    else Some s
  | _, _ => Some s
  end.

(** The runes up to the next white space or the end of the input. *)
Fixpoint token (fuel : nat) (s : string) : string :=
  match fuel, s with
  | S fuel', String _ _ =>
    let '(r, w) := decodeRune s in
    if isSpace r then EmptyString
    else encodeRune r +:+ token fuel' (drop_bytes w s)
  | _, _ => EmptyString
  end.

(** [var response string; fmt.Scanln(&response)] on the standard input
    [input]: the value of [response] afterwards.  It is the first word of
    the line; it is empty when the line is empty or the input is at its
    end.  What follows the word on the line makes the call return the
    error [expected newline], after the word has been stored. *)
Definition Scanln (input : string) : string :=
  match skipSpace (String.length input) input with
  | Some rest => token (String.length rest) rest
  | None => EmptyString
  end.

End GoFmt.

(** ** The part of net/http the program reads *)

Module Http.

(** A request body, when not [nil]: a reader that delivers [data] and
    then ends, or one that delivers [data] and then fails with [err], as
    when the connection breaks in the middle of the body. *)
Inductive BodyReader :=
  | Reader (data : string)
  | FailingReader (data err : string).

(** [io.ReadAll]: the bytes read and the error if any, and the reader
    afterwards, which has delivered all it had. *)
Definition io_ReadAll (rd : BodyReader) : string * option string * BodyReader :=
  match rd with
  | Reader data => (data, None, Reader EmptyString)
  | FailingReader data err => (data, Some err, FailingReader EmptyString err)
  end.

(** [http.Request].  [Header] has canonical keys, as net/http stores them.
    [URLQuery] is the value of [r.URL.Query()] and [URLScheme] that of
    [r.URL.Scheme], which is empty when the request line names a path and
    not a full URL. *)
Record Request := {
  Method : string;
  RequestURI : string;
  RemoteAddr : string;
  Header : gmap string (list string);
  URLQuery : gmap string (list string);
  URLScheme : string;
  Body : option BodyReader;
  ContentLength : Z
}.

(** [http.Response]: the status code and the body, in the pieces in which
    a reader gets it. *)
Record Response := {
  StatusCode : Z;
  BodyChunks : list string
}.

(** [http.Header.Get]: the first value stored under the canonical form of
    [key], or the empty string. *)
Definition Header_Get `{GoRuntime} (h : gmap string (list string)) (key : string) : string :=
  match h !! textproto_CanonicalMIMEHeaderKey key with
  | Some (v :: _) => v
  | _ => EmptyString
  end.

Definition StatusOK : Z := 200.
Definition StatusForbidden : Z := 403.
Definition StatusBadGateway : Z := 502.

End Http.

(** ** Package waf: the rule model (rule.go) *)

Module Waf.
Import GoStrings Http.

(** [RuleAction], [RulePhase] and [RuleOperator] are Go string types: a
    rule may carry any string in these fields (the [rules add] command
    converts its flags unchecked). *)
Definition RuleAction := string.
Definition ActionBlock : RuleAction := "block".
Definition ActionLog : RuleAction := "log".
Definition ActionPass : RuleAction := "pass".

Definition RulePhase := string.
Definition PhaseRequestHeaders : RulePhase := "request_headers".
Definition PhaseRequestURI : RulePhase := "request_uri".
Definition PhaseRequestBody : RulePhase := "request_body".
Definition PhaseResponseHeaders : RulePhase := "response_headers".
Definition PhaseResponseBody : RulePhase := "response_body".

Definition RuleOperator := string.
Definition OpContains : RuleOperator := "contains".
Definition OpRegex : RuleOperator := "regex".
Definition OpStartsWith : RuleOperator := "startswith".
Definition OpEndsWith : RuleOperator := "endswith".
Definition OpEquals : RuleOperator := "equals".
Definition OpNotContains : RuleOperator := "notcontains".
Definition OpNotRegex : RuleOperator := "notregex".
Definition OpHighEntropy : RuleOperator := "high_entropy".
Definition OpSQLi : RuleOperator := "sqli".
Definition OpXSS : RuleOperator := "xss".

(** [regex] is [None] for Go's nil pointer. *)
Record Rule := {
  ID : Z;
  Name : string;
  Description : string;
  Phase : RulePhase;
  Operator : RuleOperator;
  Pattern : string;
  Target : string;
  Action : RuleAction;
  Severity : string;
  Enabled : bool;
  regex : option (string -> bool)
}.

Definition with_regex (r : Rule) (re : string -> bool) : Rule :=
  {| ID := ID r; Name := Name r; Description := Description r;
     Phase := Phase r; Operator := Operator r; Pattern := Pattern r;
     Target := Target r; Action := Action r; Severity := Severity r;
     Enabled := Enabled r; regex := Some re |}.

Section Rules.
Context `{GoRuntime}.

(** [Compile] sets [r.regex] through the pointer and returns an error;
    here it returns the rule as it is after the call. *)
Definition Compile (r : Rule) : result Rule :=
  if (String.eqb (Operator r) OpRegex) || (String.eqb (Operator r) OpNotRegex) then
    match regexp_Compile (Pattern r) with
    | Err msg => Err msg
    | Ok re => Ok (with_regex r re)
    end
  else Ok r.

(** [float64(n)] for a length or a counter. *)
Definition float_of_len (n : Z) : float := PrimFloat.of_uint63 (Uint63.of_Z n).

(** [freq[r]++] on a [map[rune]float64]; a missing key reads as 0. *)
Definition bump (freq : gmap Z float) (r : Z) : gmap Z float :=
  <[r := PrimFloat.add (default PrimFloat.zero (freq !! r)) PrimFloat.one]> freq.

Definition rune_freq (s : string) : gmap Z float :=
  foldl bump ∅ (runes s).

(** [calculateEntropy]: runes are counted, and each count is divided by
    the length of [s] in bytes. *)
Definition calculateEntropy (s : string) : float :=
  if (String.length s =? 0)%nat then PrimFloat.zero
  else
    foldl (fun entropy kf =>
             let p := PrimFloat.div (snd kf) (float_of_len (Z.of_nat (String.length s))) in
             PrimFloat.sub entropy (PrimFloat.mul p (math_Log2 p)))
          PrimFloat.zero (map_to_list (rune_freq s)).

Definition sqlPatterns : list string :=
  [ "' OR '1'='1"; "' OR 1=1"; "'; DROP TABLE"; "UNION SELECT";
    "' OR 'a'='a"; "admin' --"; "' /*"; "*/ OR /*"; "xp_"; "sp_" ].

(** [detectSQLi]: the loop returns at the first pattern found. *)
Definition detectSQLi (data : string) : bool :=
  let upperData := ToUpper data in
  existsb (fun pattern => Contains upperData (ToUpper pattern)) sqlPatterns.

Definition xssPatterns : list string :=
  [ "<script"; "javascript:"; "onerror="; "onload="; "onclick=";
    "onmouseover="; "<iframe"; "<object"; "<embed"; "<img"; "<svg" ].

Definition detectXSS (data : string) : bool :=
  let lowerData := ToLower data in
  existsb (fun pattern => Contains lowerData pattern) xssPatterns.

(** [Rule.Match] *)
Definition Match (r : Rule) (data : string) : bool :=
  if negb (Enabled r) then false
  else if String.eqb (Operator r) OpContains then Contains data (Pattern r)
  else if String.eqb (Operator r) OpNotContains then negb (Contains data (Pattern r))
  else if String.eqb (Operator r) OpRegex then
    match regex r with
    | None => false
    | Some re => re data
    end
  else if String.eqb (Operator r) OpNotRegex then
    match regex r with
    | None => false
    | Some re => negb (re data)
    end
  else if String.eqb (Operator r) OpStartsWith then HasPrefix data (Pattern r)
  else if String.eqb (Operator r) OpEndsWith then HasSuffix data (Pattern r)
  else if String.eqb (Operator r) OpEquals then String.eqb data (Pattern r)
  else if String.eqb (Operator r) OpHighEntropy then
    PrimFloat.ltb 4%float (calculateEntropy data)
  else if String.eqb (Operator r) OpSQLi then detectSQLi data
  else if String.eqb (Operator r) OpXSS then detectXSS data
  else false.

(** ** Package waf: the engine (engine.go) *)

Inductive Decision := DecisionAllow | DecisionBlock | DecisionLog.

(** The engine's [config] and [logger] fields are not read by the
    functions below except to print log lines, which are left out. *)
Record Engine := { rules : list Rule }.

Definition mkRule (id : Z) (name descr : string) (phase : RulePhase)
    (op : RuleOperator) (pattern target : string) (action : RuleAction)
    (severity : string) : Rule :=
  {| ID := id; Name := name; Description := descr; Phase := phase;
     Operator := op; Pattern := pattern; Target := target; Action := action;
     Severity := severity; Enabled := true; regex := None |}.

(** The two regular expressions of the default rules, byte for byte. *)
Definition bs : string := String (ascii_of_nat 92) EmptyString.
Definition pathTraversalPattern : string :=
  bs +:+ "." +:+ bs +:+ ".[/" +:+ bs +:+ bs +:+ "]|" +:+ bs +:+ "." +:+ bs
     +:+ "..%2[fF]".
Definition commandInjectionPattern : string :=
  "[;&|" +:+ bs +:+ "n][" +:+ bs
     +:+ "s]*(cat|ls|rm|wget|curl|bash|sh|cmd|powershell)".

Definition defaultRules : list Rule :=
  [ mkRule 1001 "SQL Injection - Common Patterns"
      "Detects common SQL injection patterns"
      PhaseRequestBody OpSQLi EmptyString "REQUEST_BODY" ActionBlock "critical";
    mkRule 1002 "Cross-Site Scripting (XSS)" "Detects common XSS patterns"
      PhaseRequestBody OpXSS EmptyString "REQUEST_BODY" ActionBlock "critical";
    mkRule 1003 "Path Traversal" "Detects path traversal attempts"
      PhaseRequestURI OpRegex pathTraversalPattern "REQUEST_URI" ActionBlock
      "high";
    mkRule 1004 "Command Injection" "Detects command injection patterns"
      PhaseRequestBody OpRegex commandInjectionPattern "REQUEST_BODY"
      ActionBlock "critical";
    mkRule 1005 "Suspicious User-Agent"
      "Blocks requests from suspicious user agents"
      PhaseRequestHeaders OpContains "BadBot" "REQUEST_HEADERS:User-Agent"
      ActionBlock "medium";
    mkRule 1006 "High Entropy Payload"
      "Detects high entropy payloads (potential encoding/obfuscation)"
      PhaseRequestBody OpHighEntropy EmptyString "REQUEST_BODY" ActionLog
      "medium" ].

(** One turn of the loop of [addDefaultRules]: a rule that does not
    compile is reported and left out. *)
Definition admitDefault (rs : list Rule) (rule : Rule) : list Rule :=
  match Compile rule with
  | Err _ => rs
  | Ok rule' => rs ++ [rule']
  end.

Definition addDefaultRules (e : Engine) : Engine :=
  {| rules := foldl admitDefault (rules e) defaultRules |}.

Definition NewEngine : Engine := addDefaultRules {| rules := [] |}.

(** [AddRule]: the engine after the call, and the error if any. *)
Definition AddRule (e : Engine) (rule : Rule) : Engine * option string :=
  match Compile rule with
  | Err msg => (e, Some ("failed to compile rule: " +:+ msg))
  | Ok rule' => ({| rules := rules e ++ [rule'] |}, None)
  end.

Definition GetRules (e : Engine) : list Rule := rules e.

(** The two nested loops over a [map[string][]string]: does any value
    match? *)
Definition anyValueMatches (rule : Rule) (m : gmap string (list string)) : bool :=
  existsb (fun kv => existsb (Match rule) (snd kv)) (map_to_list m).

(** The tail of [checkRule]: [data] is not empty and [rule.Match(data)]. *)
Definition matchNonEmpty (rule : Rule) (data : string) : bool :=
  negb (String.eqb data EmptyString) && Match rule data.

Definition checkRule (rule : Rule) (r : Request) : bool :=
  if negb (Enabled rule) then false
  else if String.eqb (Target rule) "REQUEST_URI" then
    matchNonEmpty rule (RequestURI r)
  else if String.eqb (Target rule) "REQUEST_BODY" then
    false
  else if HasPrefix (Target rule) "REQUEST_HEADERS:" then
    let headerName := TrimPrefix (Target rule) "REQUEST_HEADERS:" in
    matchNonEmpty rule (Header_Get (Header r) headerName)
  else if String.eqb (Target rule) "REQUEST_HEADERS" then
    anyValueMatches rule (Header r)
  else if String.eqb (Target rule) "ARGS" then
    anyValueMatches rule (URLQuery r)
  else false.

(** [strconv]'s decimal rendering of an int, as [%d] prints it. *)
Definition itoa (n : Z) : string := NilZero.string_of_int (Z.to_int n).

(** [fmt.Sprintf("Rule %d: %s", rule.ID, rule.Name)] *)
Definition blockReason (rule : Rule) : string :=
  "Rule " +:+ itoa (ID rule) +:+ ": " +:+ Name rule.

(** One of the three loops of [Check], for the phase it keeps: [Some] is
    the [return] inside the loop, [None] is falling out of it. *)
Fixpoint checkPhase (phase : RulePhase) (rs : list Rule) (r : Request)
    : option (Decision * string) :=
  match rs with
  | [] => None
  | rule :: rest =>
    if negb (String.eqb (Phase rule) phase) then checkPhase phase rest r
    else if checkRule rule r then
      if String.eqb (Action rule) ActionBlock
      then Some (DecisionBlock, blockReason rule)
      else checkPhase phase rest r
    else checkPhase phase rest r
  end.

Definition Check (e : Engine) (r : Request) : Decision * string :=
  match checkPhase PhaseRequestHeaders (rules e) r with
  | Some d => d
  | None =>
    match checkPhase PhaseRequestURI (rules e) r with
    | Some d => d
    | None =>
      match checkPhase PhaseRequestBody (rules e) r with
      | Some d => d
      | None => (DecisionAllow, EmptyString)
      end
    end
  end.

End Rules.
End Waf.

(** ** Package config *)

Module Config.

Record Config := {
  ProxyTo : string;
  Port : Z;
  Timeout : Z;
  CRSPath : string;
  WAFAction : string;
  AnomalyThreshold : Z;
  LogFile : string;
  LogFormat : string;
  LogLevel : string;
  GeminiKey : string;
  GeminiModel : string;
  DryRun : bool;
  Interactive : bool
}.

Definition NewConfig : Config :=
  {| ProxyTo := EmptyString; Port := 8080; Timeout := 30;
     CRSPath := EmptyString; WAFAction := "block"; AnomalyThreshold := 5;
     LogFile := EmptyString; LogFormat := "json"; LogLevel := "info";
     GeminiKey := EmptyString; GeminiModel := "gemini-2.5-flash";
     DryRun := false; Interactive := false |}.

End Config.

(** ** Package proxy *)

Module Proxy.
Import GoStrings Http Waf Config.

(** What a request handler does to the outside world, in order.  Debug
    log lines are left out.  [ServeUpstream r] is the call of the reverse
    proxy on [r]. *)
Inductive effect :=
  | LogError (msg : string)
  | LogBlock (msg : string)
  | Prompt (reason : string)
  | WriteHeader (statusCode : Z)
  | Write (body : string)
  | ServeUpstream (r : Request).

(** A computation that performs effects and returns a value. *)
Definition IO (A : Type) : Type := list effect * A.
Definition emit (e : effect) : IO unit := ([e], tt).
Definition trace {A} (c : IO A) : list effect := fst c.

#[export] Instance io_ret : MRet IO := fun A a => ([], a).
#[export] Instance io_bind : MBind IO := fun A B k c =>
  let '(t1, a) := c in let '(t2, b) := k a in (t1 ++ t2, b).

Record RequestInterceptor := { originalBody : string }.

Definition withBody (r : Request) (b : option BodyReader) : Request :=
  {| Method := Method r; RequestURI := RequestURI r;
     RemoteAddr := RemoteAddr r; Header := Header r; URLQuery := URLQuery r;
     URLScheme := URLScheme r; Body := b; ContentLength := ContentLength r |}.

(** [InterceptRequest]: the interceptor and the request after the call,
    and the error of [io.ReadAll] if any.  When the read fails the
    function returns before it resets [r.Body]: the bytes that were read
    are neither kept nor left in the request. *)
Definition InterceptRequest (ri : RequestInterceptor) (r : Request)
    : RequestInterceptor * Request * option string :=
  match Body r with
  | Some rd =>
    if ContentLength r >? 0 then
      let '(body, err, rd') := io_ReadAll rd in
      match err with
      | Some err => (ri, withBody r (Some rd'), Some err)
      | None =>
        ({| originalBody := body |}, withBody r (Some (Reader body)), None)
      end
    else (ri, r, None)
  | None => (ri, r, None)
  end.

Definition GetBody (ri : RequestInterceptor) : string := originalBody ri.

(** [responseWriter]: the status code and body it has captured, and
    whether the header went out.  The wrapped [http.ResponseWriter]
    receives the effects [WriteHeader] and [Write]. *)
Record responseWriter := {
  statusCode : Z;
  body : string;
  written : bool
}.

(** The wrapper as [handleRequest] creates it. *)
Definition newResponseWriter : responseWriter :=
  {| statusCode := StatusOK; body := EmptyString; written := false |}.

Definition responseWriter_WriteHeader (rw : responseWriter) (code : Z)
    : IO responseWriter :=
  if negb (written rw) then
    emit (WriteHeader code) ;;
    mret {| statusCode := code; body := body rw; written := true |}
  else mret rw.

Definition responseWriter_Write (rw : responseWriter) (b : string)
    : IO responseWriter :=
  rw ← (if negb (written rw) then responseWriter_WriteHeader rw StatusOK
        else mret rw);
  emit (Write b) ;;
  mret {| statusCode := statusCode rw; body := body rw +:+ b;
          written := written rw |}.

(** [http.Header.Add]: append under the canonical key. *)
Definition Header_Add `{GoRuntime} (h : gmap string (list string))
    (key value : string) : gmap string (list string) :=
  let k := textproto_CanonicalMIMEHeaderKey key in
  <[k := default [] (h !! k) ++ [value]]> h.

Definition withHeader (r : Request) (h : gmap string (list string)) : Request :=
  {| Method := Method r; RequestURI := RequestURI r;
     RemoteAddr := RemoteAddr r; Header := h; URLQuery := URLQuery r;
     URLScheme := URLScheme r; Body := Body r;
     ContentLength := ContentLength r |}.

(** The director [NewProxy] installs.  It adds three headers and leaves
    the URL of the request as it is. *)
Definition Director `{GoRuntime} (req : Request) : Request :=
  let req := withHeader req (Header_Add (Header req) "X-Forwarded-For" (RemoteAddr req)) in
  let req := withHeader req (Header_Add (Header req) "X-Forwarded-Proto" "http") in
  withHeader req
    (Header_Add (Header req) "X-Forwarded-Host" (Header_Get (Header req) "Host")).

(** The error handler [NewProxy] installs. *)
Definition ErrorHandler (w : responseWriter) (r : Request) (err : string)
    : IO responseWriter :=
  emit (LogError ("Proxy error: " +:+ err)) ;;
  w ← responseWriter_WriteHeader w StatusBadGateway;
  responseWriter_Write w "Bad Gateway".

(** [httputil.ReverseProxy]: the two fields the program sets. *)
Module ReverseProxy.
Record t := {
  Director : Request -> Request;
  ErrorHandler : responseWriter -> Request -> string -> IO responseWriter
}.
End ReverseProxy.

(** What the library does with the request the director returns: its own
    edits of the headers and the round trip of [http.DefaultTransport],
    which gives the response of the origin or an error. *)
Class GoTransport := {
  http_RoundTrip : Request -> result Response
}.

(** The transport refuses a URL whose scheme is neither [http] nor
    [https], before it opens a connection. *)
Definition refusesOtherSchemes `{GoTransport} : Prop :=
  forall outreq : Request,
    URLScheme outreq <> "http" -> URLScheme outreq <> "https" ->
    exists err, http_RoundTrip outreq = Err err.

(** [io.Copy] of the response body to the writer. *)
Fixpoint copyBody (rw : responseWriter) (chunks : list string) : IO responseWriter :=
  match chunks with
  | [] => mret rw
  | chunk :: rest => rw ← responseWriter_Write rw chunk; copyBody rw rest
  end.

(** [httputil.ReverseProxy.ServeHTTP]: the director runs on a copy of
    the request, which has no body when the declared length is 0; an
    error goes to the error handler, a response is copied to the writer,
    status first. *)
Definition outgoing (rp : ReverseProxy.t) (req : Request) : Request :=
  ReverseProxy.Director rp
    (if ContentLength req =? 0 then withBody req None else req).

Definition ServeHTTP `{GoTransport} (rp : ReverseProxy.t) (rw : responseWriter)
    (req : Request) : IO responseWriter :=
  let outreq := outgoing rp req in
  match http_RoundTrip outreq with
  | Err err => ReverseProxy.ErrorHandler rp rw outreq err
  | Ok res =>
    rw ← responseWriter_WriteHeader rw (StatusCode res);
    copyBody rw (BodyChunks res)
  end.

Record Proxy := {
  config : Config;
  wafEngine : Engine;
  reverseProxy : ReverseProxy.t
}.

Section Handler.
Context `{GoRuntime}.

(** [NewProxy].  The director that [NewSingleHostReverseProxy] sets up,
    which points the URL of a request to the target, is replaced by the
    program's own. *)
Definition NewProxy (cfg : Config) : Proxy :=
  {| config := cfg; wafEngine := NewEngine;
     reverseProxy := {| ReverseProxy.Director := Director;
                        ReverseProxy.ErrorHandler := ErrorHandler |} |}.

(** [askUser]: [stdin] is what the operator has typed on the standard
    input when the prompt is printed. *)
Definition askUser (reason stdin : string) : IO bool :=
  emit (Prompt reason) ;;
  let response := GoFmt.Scanln stdin in
  mret (String.eqb response "a" || String.eqb response "A").

Definition forbid : IO unit :=
  emit (WriteHeader StatusForbidden) ;; emit (Write "Forbidden").

(** [handleRequest]; [stdin] is the operator's input, read only when the
    prompt is reached.  [ServeUpstream r] stands for the call
    [p.reverseProxy.ServeHTTP(wrappedWriter, r)]; what that call does is
    [forward] below. *)
Definition handleRequest (p : Proxy) (r : Request) (stdin : string) : IO unit :=
  let '(_, r, err) := InterceptRequest {| originalBody := EmptyString |} r in
  match err with
   | Some msg => emit (LogError ("Failed to intercept request: " +:+ msg))
   | None => mret tt
   end ;;
  let '(decision, reason) := Check (wafEngine p) r in
  match decision with
  | DecisionBlock =>
    emit (LogBlock ("Request blocked: " +:+ reason)) ;;
    if Interactive (config p) then
      approved ← askUser reason stdin;
      if negb approved then forbid
      else emit (ServeUpstream r)
    else if negb (DryRun (config p)) then forbid
    else emit (ServeUpstream r)
  | _ => emit (ServeUpstream r)
  end.

(** The call [p.reverseProxy.ServeHTTP(wrappedWriter, r)] at the end of
    [handleRequest], on the wrapper created for it. *)
Definition forward `{GoTransport} (p : Proxy) (r : Request) : IO responseWriter :=
  ServeHTTP (reverseProxy p) newResponseWriter r.

(** A trace with every call of the reverse proxy replaced by what the
    call does: the log lines and what the client is sent. *)
Definition delivered `{GoTransport} (p : Proxy) (t : list effect) : list effect :=
  flat_map (fun e => match e with
                     | ServeUpstream r => trace (forward p r)
                     | _ => [e]
                     end) t.

End Handler.
End Proxy.

(** ** Package analysis (efficacy.go) *)

Module Analysis.

(** A value of type [interface{}] as the JSON decoder produces it. *)
Inductive value :=
  | VNull
  | VBool (b : bool)
  | VNumber (f : float)
  | VString (s : string)
  | VOther.

(** An event is a property bag, [map[string]interface{}]. *)
Abbreviation Event := (gmap string value).

(** The sentences of [generateRecommendations], each with the number that
    is printed into it. *)
Inductive Recommendation :=
  | HighFalsePositiveRate (percent : float)
  | LowRecall (percent : float)
  | HighLatency (ms : float)
  | LowBlockRate
  | VeryHighBlockRate.

(** [RuleMetrics].  The top-ten tables of source addresses and URLs and
    the two time stamps are left out: no metric below reads them. *)
Record RuleMetrics := {
  RuleID : string;
  RuleName : string;
  TotalTriggers : Z;
  TruePositives : Z;
  FalsePositives : Z;
  TrueNegatives : Z;
  FalseNegatives : Z;
  Precision : float;
  Recall : float;
  F1Score : float;
  Specificity : float;
  Accuracy : float;
  AvgLatencyMs : float;
  MaxLatencyMs : float;
  MinLatencyMs : float;
  BlockRate : float;
  AttackPatterns : list string;
  Recommendations : list Recommendation
}.

Record EfficacyAnalyzer := {
  ruleMetrics : gmap string RuleMetrics;
  events : list Event;
  totalRequests : Z;
  totalBlocked : Z;
  falsePositiveThresh : float
}.

(** The decimal constants of the source, as the binary64 values the Go
    compiler rounds them to. *)
Definition c0_1 : float := 0x1.999999999999ap-4%float.
Definition c0_7 : float := 0x1.6666666666666p-1%float.
Definition c0_8 : float := 0x1.999999999999ap-1%float.

Definition NewEfficacyAnalyzer : EfficacyAnalyzer :=
  {| ruleMetrics := ∅; events := []; totalRequests := 0; totalBlocked := 0;
     falsePositiveThresh := c0_1 |}.

(** [v, ok := event[key].(bool); ok && v] *)
Definition isTrue (event : Event) (key : string) : bool :=
  match event !! key with
  | Some (VBool b) => b
  | _ => false
  end.

(** [event[key].(string)] *)
Definition asString (event : Event) (key : string) : option string :=
  match event !! key with
  | Some (VString s) => Some s
  | _ => None
  end.

(** [event[key].(float64)] *)
Definition asFloat (event : Event) (key : string) : option float :=
  match event !! key with
  | Some (VNumber f) => Some f
  | _ => None
  end.

Definition AddEvent (ea : EfficacyAnalyzer) (event : Event) : EfficacyAnalyzer :=
  {| ruleMetrics := ruleMetrics ea;
     events := events ea ++ [event];
     totalRequests := totalRequests ea + 1;
     totalBlocked := if isTrue event "blocked" then totalBlocked ea + 1
                     else totalBlocked ea;
     falsePositiveThresh := falsePositiveThresh ea |}.

(** [float64(n)] for a counter [0 <= n < 2^63]. *)
Definition float_of_int64 (n : Z) : float := PrimFloat.of_uint63 (Uint63.of_Z n).

Definition MaxFloat64 : float := 0x1.fffffffffffffp+1023%float.

(** The variables the loop of [calculateRuleMetrics] updates. *)
Record Tally := {
  tp : Z;
  fp : Z;
  totalLatency : float;
  minLatency : float;
  maxLatency : float;
  patternMap : gset string;
  ruleName : string
}.

Definition tally0 : Tally :=
  {| tp := 0; fp := 0; totalLatency := 0%float; minLatency := MaxFloat64;
     maxLatency := 0%float; patternMap := ∅; ruleName := EmptyString |}.

(** One turn of the loop over the events of a rule. *)
Definition tallyEvent (t : Tally) (event : Event) : Tally :=
  let blocked := isTrue event "blocked" in
  let lat := asFloat event "response_time_ms" in
  {| tp := if blocked then tp t + 1 else tp t;
     fp := if blocked then fp t else fp t + 1;
     totalLatency :=
       match lat with
       | Some latency => PrimFloat.add (totalLatency t) latency
       | None => totalLatency t
       end;
     minLatency :=
       match lat with
       | Some latency =>
         if PrimFloat.ltb latency (minLatency t) then latency else minLatency t
       | None => minLatency t
       end;
     maxLatency :=
       match lat with
       | Some latency =>
         if PrimFloat.ltb (maxLatency t) latency then latency else maxLatency t
       | None => maxLatency t
       end;
     patternMap :=
       match asString event "reason" with
       | Some reason =>
         if String.eqb reason EmptyString then patternMap t
         else {[ reason ]} ∪ patternMap t
       | None => patternMap t
       end;
     ruleName :=
       match asString event "rule_name" with
       | Some name => name
       | None => ruleName t
       end |}.

(** [calculateRuleMetrics], before the recommendations are attached. *)
Definition calculateRuleMetrics (ruleID : string) (evs : list Event) : RuleMetrics :=
  let n := Z.of_nat (length evs) in
  let t := foldl tallyEvent tally0 evs in
  let precision :=
    if tp t + fp t >? 0
    then PrimFloat.div (float_of_int64 (tp t)) (float_of_int64 (tp t + fp t))
    else 0%float in
  let falseNegatives := 0 in
  let recall :=
    if tp t + falseNegatives >? 0
    then PrimFloat.div (float_of_int64 (tp t))
           (float_of_int64 (tp t + falseNegatives))
    else 0%float in
  {| RuleID := ruleID;
     RuleName := ruleName t;
     TotalTriggers := n;
     TruePositives := tp t;
     FalsePositives := fp t;
     TrueNegatives := 0;
     FalseNegatives := falseNegatives;
     Precision := precision;
     Recall := recall;
     F1Score :=
       if PrimFloat.ltb 0%float (PrimFloat.add precision recall)
       then PrimFloat.div
              (PrimFloat.mul 2%float (PrimFloat.mul precision recall))
              (PrimFloat.add precision recall)
       else 0%float;
     Specificity := 0%float;
     Accuracy := 0%float;
     AvgLatencyMs :=
       if n >? 0 then PrimFloat.div (totalLatency t) (float_of_int64 n)
       else 0%float;
     MaxLatencyMs := if n >? 0 then maxLatency t else 0%float;
     MinLatencyMs :=
       if (n >? 0) && negb (PrimFloat.eqb (minLatency t) MaxFloat64)
       then minLatency t else 0%float;
     BlockRate :=
       if n >? 0
       then PrimFloat.mul
              (PrimFloat.div (float_of_int64 (tp t)) (float_of_int64 n))
              100%float
       else 0%float;
     AttackPatterns := elements (patternMap t);
     Recommendations := [] |}.

(** [if cond { recommendations = append(recommendations, r) }] *)
Definition appendIf (cond : bool) (r : Recommendation)
    (recs : list Recommendation) : list Recommendation :=
  if cond then recs ++ [r] else recs.

Definition generateRecommendations (m : RuleMetrics) : list Recommendation :=
  let recs := [] in
  let recs :=
    appendIf ((FalsePositives m >? 0) && PrimFloat.ltb (Precision m) c0_8)
      (HighFalsePositiveRate
         (PrimFloat.mul (PrimFloat.sub 1%float (Precision m)) 100%float))
      recs in
  let recs :=
    appendIf (PrimFloat.ltb (Recall m) c0_7
              && PrimFloat.ltb 0%float (Recall m))
      (LowRecall (PrimFloat.mul (Recall m) 100%float)) recs in
  let recs :=
    appendIf (PrimFloat.ltb 5%float (AvgLatencyMs m))
      (HighLatency (AvgLatencyMs m)) recs in
  let recs :=
    appendIf (PrimFloat.ltb (BlockRate m) 50%float && (TotalTriggers m >? 100))
      LowBlockRate recs in
  let recs :=
    appendIf (PrimFloat.ltb 95%float (BlockRate m) && (TotalTriggers m >? 100))
      VeryHighBlockRate recs in
  recs.

Definition withRecommendations (m : RuleMetrics) (recs : list Recommendation)
    : RuleMetrics :=
  {| RuleID := RuleID m; RuleName := RuleName m;
     TotalTriggers := TotalTriggers m; TruePositives := TruePositives m;
     FalsePositives := FalsePositives m; TrueNegatives := TrueNegatives m;
     FalseNegatives := FalseNegatives m; Precision := Precision m;
     Recall := Recall m; F1Score := F1Score m; Specificity := Specificity m;
     Accuracy := Accuracy m; AvgLatencyMs := AvgLatencyMs m;
     MaxLatencyMs := MaxLatencyMs m; MinLatencyMs := MinLatencyMs m;
     BlockRate := BlockRate m; AttackPatterns := AttackPatterns m;
     Recommendations := recs |}.

(** The first loop of [AnalyzeRules]: an event joins the group of its
    [rule_id] when that is a non-empty string. *)
Definition groupEvent (groups : gmap string (list Event)) (event : Event)
    : gmap string (list Event) :=
  match asString event "rule_id" with
  | Some ruleID =>
    if String.eqb ruleID EmptyString then groups
    else <[ruleID := default [] (groups !! ruleID) ++ [event]]> groups
  | None => groups
  end.

Definition groupByRule (evs : list Event) : gmap string (list Event) :=
  foldl groupEvent ∅ evs.

(** The second loop: the metrics of each group replace the entry of its
    rule. *)
Definition analyzeGroup (rm : gmap string RuleMetrics)
    (g : string * list Event) : gmap string RuleMetrics :=
  let metrics := calculateRuleMetrics (fst g) (snd g) in
  <[fst g := withRecommendations metrics (generateRecommendations metrics)]> rm.

Definition AnalyzeRules (ea : EfficacyAnalyzer) : EfficacyAnalyzer :=
  {| ruleMetrics :=
       foldl analyzeGroup (ruleMetrics ea) (map_to_list (groupByRule (events ea)));
     events := events ea;
     totalRequests := totalRequests ea;
     totalBlocked := totalBlocked ea;
     falsePositiveThresh := falsePositiveThresh ea |}.

Definition GetRuleMetrics (ea : EfficacyAnalyzer) (ruleID : string)
    : option RuleMetrics :=
  ruleMetrics ea !! ruleID.

End Analysis.

(** ** A runtime to run the examples on

    A small implementation of the library interface.  Regular expressions
    are given as syntax trees and matched by derivatives; the two
    patterns of the default rules are translated by hand and every other
    pattern is refused.  The case mappings are those of package unicode
    for the code points up to U+017F, the header key is canonicalised as
    net/textproto does for well-formed keys, and the logarithm is
    computed as package math computes it in Go. *)

Module RefRuntime.
Import GoStrings.

Inductive re :=
  | Nothing
  | Eps
  | Sym (p : ascii -> bool)
  | Cat (a b : re)
  | Alt (a b : re)
  | Star (a : re).

Fixpoint nullable (r : re) : bool :=
  match r with
  | Nothing => false
  | Eps => true
  | Sym _ => false
  | Cat a b => nullable a && nullable b
  | Alt a b => nullable a || nullable b
  | Star _ => true
  end.

Fixpoint deriv (c : ascii) (r : re) : re :=
  match r with
  | Nothing => Nothing
  | Eps => Nothing
  | Sym p => if p c then Eps else Nothing
  | Cat a b =>
    if nullable a then Alt (Cat (deriv c a) b) (deriv c b)
    else Cat (deriv c a) b
  | Alt a b => Alt (deriv c a) (deriv c b)
  | Star a => Cat (deriv c a) (Star a)
  end.

Fixpoint accepts (r : re) (s : string) : bool :=
  match s with
  | EmptyString => nullable r
  | String c s' => accepts (deriv c r) s'
  end.

Definition anyByte : re := Sym (fun _ => true).

(** [MatchString]: the expression matches somewhere in [s]. *)
Definition matchString (r : re) (s : string) : bool :=
  accepts (Cat (Star anyByte) (Cat r (Star anyByte))) s.

Definition chr (n : nat) : re := Sym (fun c => Ascii.eqb c (ascii_of_nat n)).
Definition oneOf (l : list nat) : re :=
  Sym (fun c => existsb (fun n => Ascii.eqb c (ascii_of_nat n)) l).
Definition byteIn (lo hi : Z) : re := Sym (fun c => in_range lo hi (bz c)).
Definition seqOf (l : list re) : re := fold_right Cat Eps l.
(** [.] matches one code point other than a newline: a byte, which may
    be a byte that belongs to no well-formed sequence, or a well-formed
    sequence of two to four bytes. *)
Definition dot : re :=
  fold_right Alt Nothing
    [ Sym (fun c => negb (Ascii.eqb c (ascii_of_nat 10)));
      seqOf [byteIn 194 223; byteIn 128 191];
      seqOf [byteIn 224 224; byteIn 160 191; byteIn 128 191];
      seqOf [byteIn 225 236; byteIn 128 191; byteIn 128 191];
      seqOf [byteIn 237 237; byteIn 128 159; byteIn 128 191];
      seqOf [byteIn 238 239; byteIn 128 191; byteIn 128 191];
      seqOf [byteIn 240 240; byteIn 144 191; byteIn 128 191; byteIn 128 191];
      seqOf [byteIn 241 243; byteIn 128 191; byteIn 128 191; byteIn 128 191];
      seqOf [byteIn 244 244; byteIn 128 143; byteIn 128 191; byteIn 128 191] ].

Fixpoint lit (s : string) : re :=
  match s with
  | EmptyString => Eps
  | String c s' => Cat (Sym (Ascii.eqb c)) (lit s')
  end.

Definition alts (l : list re) : re := fold_right Alt Nothing l.

(** The path traversal expression: two dots and a slash or backslash, or
    two dots, any character, [%2] and [f] or [F]. *)
Definition pathTraversalRe : re :=
  Alt (Cat (lit "..") (oneOf [47; 92]%nat))
      (Cat (lit "..") (Cat dot (Cat (lit "%2") (oneOf [102; 70]%nat)))).

(** The command injection expression: one of [;&|] or a newline, white
    space, and a command name. *)
Definition commandInjectionRe : re :=
  Cat (oneOf [59; 38; 124; 10]%nat)
    (Cat (Star (oneOf [9; 10; 12; 13; 32]%nat))
       (alts (map lit ["cat"; "ls"; "rm"; "wget"; "curl"; "bash"; "sh";
                       "cmd"; "powershell"]))).

Definition compile (pattern : string) : result (string -> bool) :=
  if String.eqb pattern Waf.pathTraversalPattern
  then Ok (matchString pathTraversalRe)
  else if String.eqb pattern Waf.commandInjectionPattern
  then Ok (matchString commandInjectionRe)
  else Err "unsupported pattern".

Definition tokenByte (c : ascii) : bool :=
  let n := byte_val c in
  ((48 <=? n) && (n <=? 57) || (65 <=? n) && (n <=? 90)
   || (97 <=? n) && (n <=? 122)
   || existsb (N.eqb n) [33; 35; 36; 37; 38; 39; 42; 43; 45; 46; 94; 95; 96;
                         124; 126])%N.

Fixpoint allBytes (p : ascii -> bool) (s : string) : bool :=
  match s with
  | EmptyString => true
  | String c s' => p c && allBytes p s'
  end.

Fixpoint canon (upper : bool) (s : string) : string :=
  match s with
  | EmptyString => EmptyString
  | String c s' =>
    let c' := if upper then upper_byte c else lower_byte c in
    String c' (canon (Ascii.eqb c' "-") s')
  end.

Definition canonicalKey (s : string) : string :=
  if allBytes tokenByte s then canon true s else s.

Definition float_of_Z (z : Z) : float :=
  if z <? 0 then PrimFloat.opp (PrimFloat.of_uint63 (Uint63.of_Z (- z)))
  else PrimFloat.of_uint63 (Uint63.of_Z z).

(** [math.Log] as log.go computes it, every operation rounded to
    binary64: the argument is reduced to [2^k * (1+f)] and the logarithm
    of [1+f] comes from a polynomial in [s = f/(2+f)]. *)
Definition Ln2Hi : float := 0x1.62e42fee00000p-1.
Definition Ln2Lo : float := 0x1.a39ef35793c76p-33.
Definition L1 : float := 0x1.5555555555593p-1.
Definition L2 : float := 0x1.999999997fa04p-2.
Definition L3 : float := 0x1.2492494229359p-2.
Definition L4 : float := 0x1.c71c51d8e78afp-3.
Definition L5 : float := 0x1.7466496cb03dep-3.
Definition L6 : float := 0x1.39a09d078c69fp-3.
Definition L7 : float := 0x1.2f112df3e5244p-3.
(** [Sqrt2/2] and [1/Ln2], constants of the library, as binary64. *)
Definition halfSqrt2 : float := 0x1.6a09e667f3bcdp-1.
Definition invLn2 : float := 0x1.71547652b82fep+0.

Definition log (x : float) : float :=
  if PrimFloat.is_nan x || PrimFloat.eqb x PrimFloat.infinity then x
  else if PrimFloat.ltb x 0%float then PrimFloat.nan
  else if PrimFloat.eqb x 0%float then PrimFloat.neg_infinity
  else
    let '(f1, ki) := Z.frexp x in
    let '(f1, ki) :=
      if PrimFloat.ltb f1 halfSqrt2 then (PrimFloat.mul f1 2%float, ki - 1)
      else (f1, ki) in
    let f := PrimFloat.sub f1 1%float in
    let k := float_of_Z ki in
    let s := PrimFloat.div f (PrimFloat.add 2%float f) in
    let s2 := PrimFloat.mul s s in
    let s4 := PrimFloat.mul s2 s2 in
    let t1 :=
      PrimFloat.mul s2
        (PrimFloat.add L1 (PrimFloat.mul s4
           (PrimFloat.add L3 (PrimFloat.mul s4
              (PrimFloat.add L5 (PrimFloat.mul s4 L7)))))) in
    let t2 :=
      PrimFloat.mul s4
        (PrimFloat.add L2 (PrimFloat.mul s4
           (PrimFloat.add L4 (PrimFloat.mul s4 L6)))) in
    let R := PrimFloat.add t1 t2 in
    let hfsq := PrimFloat.mul (PrimFloat.mul 0.5%float f) f in
    PrimFloat.sub (PrimFloat.mul k Ln2Hi)
      (PrimFloat.sub
         (PrimFloat.sub hfsq
            (PrimFloat.add (PrimFloat.mul s (PrimFloat.add hfsq R))
               (PrimFloat.mul k Ln2Lo)))
         f).

(** [math.Log2] as log10.go computes it: exact on the powers of two. *)
Definition log2 (x : float) : float :=
  let '(frac, e) := Z.frexp x in
  if PrimFloat.eqb frac 0.5%float then float_of_Z (e - 1)
  else PrimFloat.add (PrimFloat.mul (log frac) invLn2) (float_of_Z e).

(** The case ranges of package unicode for the code points up to U+017F
    and for the Kelvin and Angstrom signs: first and last code point, and
    the distances to the upper and to the lower case, or [None] for a
    range in which upper and lower case alternate, the first being upper.
    Code points beyond, which no example uses, are left as they are. *)
Definition caseRanges : list (Z * Z * option (Z * Z)) :=
  [ (65, 90, Some (0, 32)); (97, 122, Some (-32, 0));
    (181, 181, Some (743, 0)); (192, 214, Some (0, 32));
    (216, 222, Some (0, 32)); (224, 246, Some (-32, 0));
    (248, 254, Some (-32, 0)); (255, 255, Some (121, 0));
    (256, 303, None); (304, 304, Some (0, -199)); (305, 305, Some (-232, 0));
    (306, 311, None); (313, 328, None); (330, 375, None);
    (376, 376, Some (0, -121)); (377, 382, None); (383, 383, Some (-300, 0));
    (8490, 8490, Some (0, -8383)); (8491, 8491, Some (0, -8262)) ].

(** [unicode.To]: the range of [r] decides. *)
Definition unicodeTo (upper : bool) (r : Z) : Z :=
  match List.find (fun cr => in_range (fst (fst cr)) (snd (fst cr)) r) caseRanges with
  | Some (lo, _, Some (toUpper, toLower)) =>
    r + (if upper then toUpper else toLower)
  | Some (lo, _, None) =>
    lo + Z.lor (Z.land (r - lo) (-2)) (if upper then 0 else 1)
  | None => r
  end.

Definition runtime : GoRuntime :=
  {| regexp_Compile := compile;
     unicode_ToUpper := unicodeTo true;
     unicode_ToLower := unicodeTo false;
     math_Log2 := log2;
     textproto_CanonicalMIMEHeaderKey := canonicalKey |}.

End RefRuntime.

(** ** The specification's wording, as definitions

    These follow the sentences of the specification, not the code; the
    theorems below compare them with the code. *)

Module Spec.
Import GoStrings Http Waf.

Section Engine.
Context `{GoRuntime}.

(** The three passes, in their fixed order. *)
Definition phaseOrder : list RulePhase :=
  [PhaseRequestHeaders; PhaseRequestURI; PhaseRequestBody].

Definition phaseRank (ph : RulePhase) : nat :=
  if String.eqb ph PhaseRequestHeaders then 0
  else if String.eqb ph PhaseRequestURI then 1
  else if String.eqb ph PhaseRequestBody then 2
  else 3.

Definition inPhase (ph : RulePhase) (rule : Rule) : bool :=
  String.eqb (Phase rule) ph.

Definition nonEmpty (s : string) : list string :=
  if String.eqb s EmptyString then [] else [s].

(** Every value of a multi-valued map, in iteration order. *)
Definition values (m : gmap string (list string)) : list string :=
  flat_map snd (map_to_list m).

(** The buffered request body: the bytes of the body when the declared
    length is positive and the body can be read to its end, the empty
    string otherwise. *)
Definition bufferedBody (r : Request) : string :=
  match Body r with
  | Some (Reader data) => if ContentLength r >? 0 then data else EmptyString
  | _ => EmptyString
  end.

(** The same request with no body. *)
Definition withoutBody (r : Request) : Request := Proxy.withBody r None.

(** The data a target selector yields: the request URI, the named header
    or the buffered body when not empty, every header value, every query
    value. *)
Definition targetData (r : Request) (target : string) : list string :=
  if String.eqb target "REQUEST_URI" then nonEmpty (RequestURI r)
  else if String.eqb target "REQUEST_BODY" then nonEmpty (bufferedBody r)
  else if HasPrefix target "REQUEST_HEADERS:" then
    nonEmpty (Header_Get (Header r) (TrimPrefix target "REQUEST_HEADERS:"))
  else if String.eqb target "REQUEST_HEADERS" then values (Header r)
  else if String.eqb target "ARGS" then values (URLQuery r)
  else [].

(** A rule blocks a request when its target yields data that its matcher
    matches, and its action is block. *)
Definition blocksRequest (r : Request) (rule : Rule) : bool :=
  existsb (Match rule) (targetData r (Target rule))
  && String.eqb (Action rule) ActionBlock.

(** The rules in the order they are evaluated: phase by phase, and in
    insertion order within a phase. *)
Definition evaluationOrder (rs : list Rule) : list Rule :=
  flat_map (fun ph => List.filter (inPhase ph) rs) phaseOrder.

Definition firstBlock (rs : list Rule) (r : Request) : option Rule :=
  List.find (blocksRequest r) (evaluationOrder rs).

(** The rule is accepted by [Compile]. *)
Definition compiles (rule : Rule) : bool :=
  match Compile rule with
  | Ok _ => true
  | Err _ => false
  end.

(** A sequence of admissions via [AddRule]. *)
Definition admitAll (e : Engine) (l : list Rule) : Engine :=
  foldl (fun e rule => fst (AddRule e rule)) e l.

Definition Check_spec (e : Engine) (r : Request) : Decision * string :=
  match firstBlock (rules e) r with
  | Some rule =>
    (DecisionBlock, "Rule " +:+ itoa (ID rule) +:+ ": " +:+ Name rule)
  | None => (DecisionAllow, EmptyString)
  end.

End Engine.

(** [u] and [t] are the same up to the case of ASCII letters. *)
Definition equalFold (u t : string) : Prop :=
  map_bytes lower_byte u = map_bytes lower_byte t.

(** [s] contains [t] case-insensitively: a substring of [s] equals [t]
    up to letter case. *)
Definition containsFold (s t : string) : Prop :=
  exists pre u post, s = pre +:+ u +:+ post /\ equalFold u t.



(** The code units of a string are its bytes; its alphabet is the list
    of the distinct ones. *)
Definition alphabet (s : string) : list ascii :=
  nodup ascii_dec (list_ascii_of_string s).

(** No two rules of the list carry the same identifier. *)
Definition uniqueIDs (rs : list Rule) : Prop := NoDup (map ID rs).

(** The request as the engine and the forwarder see it, after the body
    has been buffered, and what the handler logs while buffering. *)
Definition intercepted (r : Request) : Request :=
  snd (fst (Proxy.InterceptRequest {| Proxy.originalBody := EmptyString |} r)).

Definition interceptLog (r : Request) : list Proxy.effect :=
  match snd (Proxy.InterceptRequest {| Proxy.originalBody := EmptyString |} r) with
  | Some msg => [Proxy.LogError ("Failed to intercept request: " +:+ msg)]
  | None => []
  end.

(** The refusal response. *)
Definition refusal : list Proxy.effect :=
  [Proxy.WriteHeader 403; Proxy.Write "Forbidden"].

(** The operator admits the request. *)
Definition admits (response : string) : bool :=
  String.eqb response "a" || String.eqb response "A".

End Spec.

Module SpecAnalysis.
Import Analysis.

(** An event is attributed to rule [ruleID] when it carries that string
    as its rule identifier. *)
Definition attributedTo (ruleID : string) (event : Event) : bool :=
  match asString event "rule_id" with
  | Some id => String.eqb id ruleID
  | None => false
  end.

(** The batch of a rule: its events, in the order they were added. *)
Definition batch (ruleID : string) (evs : list Event) : list Event :=
  List.filter (attributedTo ruleID) evs.

Definition blocked (event : Event) : bool := isTrue event "blocked".

Definition count (f : Event -> bool) (evs : list Event) : Z :=
  Z.of_nat (length (List.filter f evs)).

(** TP / (TP + FP), and 0 when the denominator is 0. *)
Definition ratio (num den : Z) : float :=
  if den >? 0 then PrimFloat.div (float_of_int64 num) (float_of_int64 den)
  else 0%float.

(** The high false positive rate sentence is among the recommendations. *)
Definition warnsFalsePositives (recs : list Recommendation) : Prop :=
  exists percent, In (HighFalsePositiveRate percent) recs.

End SpecAnalysis.

(** ** Requests and rules used in the examples *)

Module Examples.
Import GoStrings Http Waf Config Proxy.

(** [GET /?id=1' OR '1'='1], as curl sends it. *)
Definition sqliInQuery : Request :=
  {| Method := "GET"; RequestURI := "/?id=1' OR '1'='1";
     RemoteAddr := "127.0.0.1:40000";
     Header := {[ "User-Agent" := ["curl/8.5.0"] ]};
     URLQuery := {[ "id" := ["1' OR '1'='1"] ]}; URLScheme := EmptyString;
     Body := None; ContentLength := 0 |}.

Definition sqliBody : string := "username=admin' OR 1=1--&password=anything".

(** [POST /api/data] with an injection in the form body. *)
Definition sqliInBody : Request :=
  {| Method := "POST"; RequestURI := "/api/data";
     RemoteAddr := "127.0.0.1:40000";
     Header := {[ "User-Agent" := ["curl/8.5.0"];
                  "Content-Type" := ["application/x-www-form-urlencoded"] ]};
     URLQuery := ∅; URLScheme := EmptyString;
     Body := Some (Reader sqliBody); ContentLength := 42 |}.

(** A request of a client that calls itself BadBot, for a path with a
    traversal. *)
Definition badBotTraversal : Request :=
  {| Method := "GET"; RequestURI := "/static/../etc/passwd";
     RemoteAddr := "10.0.0.9:1234";
     Header := {[ "User-Agent" := ["BadBot/1.0"] ]};
     URLQuery := ∅; URLScheme := EmptyString;
     Body := None; ContentLength := 0 |}.


(** The three bytes C3 C3 BF: a lead byte with no continuation, then
    U+00FF in its two bytes.  Two distinct bytes, and two runes in three
    bytes. *)
Definition strayLead : string :=
  String (ascii_of_nat 195)
    (String (ascii_of_nat 195) (String (ascii_of_nat 191) EmptyString)).

(** [1.0 / float64(3)], the frequency [calculateEntropy] gives a rune
    that occurs once in three bytes. *)
Definition third : float := PrimFloat.div 1%float (float_of_len 3).

(** The binary64 numbers within four units in the last place of the
    logarithm to base 2 of [third], which is -1.58496250072115626...;
    [math.Log2] is accurate to less than one unit. *)
Definition nearLog2Third : list float :=
  [ (-0x1.95c01a39fbd6dp+0)%float; (-0x1.95c01a39fbd6cp+0)%float;
    (-0x1.95c01a39fbd6bp+0)%float; (-0x1.95c01a39fbd6ap+0)%float;
    (-0x1.95c01a39fbd69p+0)%float; (-0x1.95c01a39fbd68p+0)%float;
    (-0x1.95c01a39fbd67p+0)%float; (-0x1.95c01a39fbd66p+0)%float;
    (-0x1.95c01a39fbd65p+0)%float ].



(** The letter e with an acute accent, U+00E9, in its two bytes. *)
Definition eAcute : string :=
  String (ascii_of_nat 195) (String (ascii_of_nat 169) EmptyString).



Definition rule1001 : Rule :=
  mkRule 1001 "SQL Injection - Common Patterns"
    "Detects common SQL injection patterns"
    PhaseRequestBody OpSQLi EmptyString "REQUEST_BODY" ActionBlock "critical".

(** A custom rule that reuses the identifier of a default rule. *)
Definition customRule1001 : Rule :=
  mkRule 1001 "Block admin area" EmptyString PhaseRequestURI OpContains
    "/admin" "REQUEST_URI" ActionBlock "high".

Definition enforce : Config := NewConfig.

(** What the operator types, with the newline that ends it. *)
Definition line (s : string) : string :=
  s +:+ String (ascii_of_nat 10) EmptyString.

(** [s] between double quotes, as [%q] prints a string of plain letters. *)
Definition quoted (s : string) : string :=
  String (ascii_of_nat 34) (s +:+ String (ascii_of_nat 34) EmptyString).

(** A transport in front of an origin that answers every request that
    reaches it with 200 and [hello]. *)
Definition helloOrigin : GoTransport :=
  {| http_RoundTrip := fun outreq =>
       if String.eqb (URLScheme outreq) "http"
          || String.eqb (URLScheme outreq) "https"
       then Ok {| StatusCode := 200; BodyChunks := ["hello"] |}
       else Err ("unsupported protocol scheme " +:+ quoted (URLScheme outreq)) |}.

(** The runtime the examples run on. *)
Definition rt : GoRuntime := RefRuntime.runtime.

(** The analyser after it was fed [evs] and asked to analyse. *)
Definition fed (evs : list Analysis.Event) : Analysis.EfficacyAnalyzer :=
  Analysis.AnalyzeRules
    (foldl Analysis.AddEvent Analysis.NewEfficacyAnalyzer evs).

(** An event of rule 1001, as the analyser reads it from a log. *)
Definition event1001 (blocked : bool) : Analysis.Event :=
  {[ "rule_id" := Analysis.VString "1001";
     "blocked" := Analysis.VBool blocked ]}.

(** Four blocked events and one that was let through. *)
Definition fiveEvents : list Analysis.Event :=
  [event1001 true; event1001 true; event1001 false; event1001 true;
   event1001 true].

(** The same, each with a response time of 10 ms. *)
Definition slowEvent1001 (blocked : bool) : Analysis.Event :=
  <["response_time_ms" := Analysis.VNumber 10%float]> (event1001 blocked).

Definition fiveSlowEvents : list Analysis.Event :=
  [slowEvent1001 true; slowEvent1001 true; slowEvent1001 false;
   slowEvent1001 true; slowEvent1001 true].


End Examples.

(** ** Notions used to state further properties of the engine *)

Module EngineNotions.
Import GoStrings Http Waf Spec.

Definition inRequestPhase (rule : Rule) : bool :=
  inPhase PhaseRequestHeaders rule || inPhase PhaseRequestURI rule
  || inPhase PhaseRequestBody rule.

(** A rule that can decide a request: enabled, with action block, in one
    of the three request phases. *)
Definition decisive (rule : Rule) : bool :=
  Enabled rule && String.eqb (Action rule) ActionBlock && inRequestPhase rule.

(** The engine without the rules that cannot decide a request. *)
Definition prune (e : Engine) : Engine :=
  {| rules := List.filter decisive (rules e) |}.

(** The same rule with another operator. *)
Definition withOperator (rule : Rule) (op : RuleOperator) : Rule :=
  {| ID := ID rule; Name := Name rule; Description := Description rule;
     Phase := Phase rule; Operator := op; Pattern := Pattern rule;
     Target := Target rule; Action := Action rule; Severity := Severity rule;
     Enabled := Enabled rule; regex := regex rule |}.

(** A request with a header whose value is empty. *)
Definition emptyHeaderRequest : Request :=
  {| Method := "GET"; RequestURI := "/"; RemoteAddr := "10.0.0.1:999";
     Header := {[ "X-Token" := [EmptyString] ]};
     URLQuery := ∅; URLScheme := EmptyString;
     Body := None; ContentLength := 0 |}.

(** A rule that asks every header value not to contain [secret]. *)
Definition noSecretRule (target : string) : Rule :=
  mkRule 9100 "No secret" EmptyString PhaseRequestHeaders OpNotContains
    "secret" target ActionBlock "low".

(** A custom rule on the request URI. *)
Definition adminRule : Rule :=
  mkRule 9200 "Block admin area" EmptyString PhaseRequestURI OpContains
    "/admin" "REQUEST_URI" ActionBlock "high".

(** A rule with an expression that has an unclosed bracket, which no
    regexp library compiles. *)
Definition unclosedRule : Rule :=
  mkRule 9400 "Unclosed class" EmptyString PhaseRequestURI OpRegex
    "[a-" "REQUEST_URI" ActionBlock "low".

(** A rule with the path traversal expression as a not-regex rule. *)
Definition notTraversalRule : Rule :=
  mkRule 9300 "Not a traversal" EmptyString PhaseRequestURI OpNotRegex
    pathTraversalPattern "REQUEST_URI" ActionLog "low".

End EngineNotions.

(** ** Notions and requests used to state properties of the proxy *)

Module ProxyWriter.
Import GoStrings Http Waf Config Proxy.

(** What a handler calls on the wrapper. *)
Inductive call :=
  | CallWriteHeader (code : Z)
  | CallWrite (b : string).

Definition perform (rw : responseWriter) (c : call) : IO responseWriter :=
  match c with
  | CallWriteHeader code => responseWriter_WriteHeader rw code
  | CallWrite b => responseWriter_Write rw b
  end.

Fixpoint performAll (rw : responseWriter) (calls : list call) : IO responseWriter :=
  match calls with
  | [] => mret rw
  | c :: rest => rw' ← perform rw c; performAll rw' rest
  end.

(** The chunks written, in order. *)
Definition chunks (calls : list call) : list string :=
  flat_map (fun c => match c with CallWrite b => [b] | _ => [] end) calls.

Definition joined (l : list string) : string :=
  fold_right String.append EmptyString l.

(** The status the first call decides. *)
Definition firstStatus (calls : list call) : Z :=
  match calls with
  | CallWriteHeader code :: _ => code
  | _ => StatusOK
  end.

(** An effect that is a line of the log or the prompt, not a response. *)
Definition isLogEffect (e : effect) : bool :=
  match e with
  | LogError _ | LogBlock _ | Prompt _ => true
  | _ => false
  end.

(** Whether [handleRequest] refuses: the decision is block and the mode
    says so. *)
Definition refuses `{GoRuntime} (p : Proxy) (r : Request) (stdin : string) : bool :=
  match fst (Check (wafEngine p) r) with
  | DecisionBlock =>
    if Interactive (config p) then negb (Spec.admits (GoFmt.Scanln stdin))
    else negb (DryRun (config p))
  | _ => false
  end.

(** A request that already carries forwarding headers. *)
Definition forwardedOnce : Request :=
  {| Method := "GET"; RequestURI := "/"; RemoteAddr := "10.0.0.7:5555";
     Header := {[ "X-Forwarded-For" := ["203.0.113.9"];
                  "Host" := ["shop.example"] ]};
     URLQuery := ∅; URLScheme := EmptyString;
     Body := None; ContentLength := 0 |}.

(** A chunked upload: the length is not known in advance. *)
Definition chunkedUpload : Request :=
  {| Method := "POST"; RequestURI := "/upload"; RemoteAddr := "10.0.0.7:5555";
     Header := {[ "Transfer-Encoding" := ["chunked"] ]};
     URLQuery := ∅; URLScheme := EmptyString;
     Body := Some (Reader "payload"); ContentLength := -1 |}.

(** An upload whose connection breaks after eight of its 42 bytes. *)
Definition brokenUpload : Request :=
  {| Method := "POST"; RequestURI := "/api/data"; RemoteAddr := "10.0.0.7:5555";
     Header := {[ "Content-Type" := ["application/x-www-form-urlencoded"] ]};
     URLQuery := ∅; URLScheme := EmptyString;
     Body := Some (FailingReader "username" "unexpected EOF");
     ContentLength := 42 |}.

(** A request as a client sends it to a forward proxy: the request line
    names a full URL. *)
Definition absoluteForm : Request :=
  {| Method := "GET"; RequestURI := "http://intranet.example/admin";
     RemoteAddr := "10.0.0.7:5555";
     Header := {[ "Host" := ["intranet.example"] ]};
     URLQuery := ∅; URLScheme := "http"; Body := None; ContentLength := 0 |}.

End ProxyWriter.

(** ** Package analysis: the queries on the metrics *)

(** [sort.Slice] of the Go library: it reorders a slice by a comparison;
    which of two elements that compare equal comes first is not
    specified. *)
Class GoSort := {
  sort_Slice : forall A : Type, (A -> A -> bool) -> list A -> list A
}.
Arguments sort_Slice {_ A} less l.

(** What the library promises of it here: the result holds the same
    elements. *)
Definition sortPermutes `{GoSort} : Prop :=
  forall (A : Type) (less : A -> A -> bool) (l : list A),
    sort_Slice less l ≡ₚ l.

Module AnalysisQueries.
Import Analysis SpecAnalysis.

Section Queries.
Context `{GoSort}.

(** The metrics held, in the order a range over the map gives them. *)
Definition allMetrics (ea : EfficacyAnalyzer) : list RuleMetrics :=
  (map_to_list (ruleMetrics ea)).*2.

(** [GetTopRules]; [None] is the run-time panic of the slice expression
    [rules[:n]] for a negative [n]. *)
Definition GetTopRules (ea : EfficacyAnalyzer) (n : Z) : option (list RuleMetrics) :=
  let rules :=
    sort_Slice (fun a b => PrimFloat.ltb (F1Score b) (F1Score a)) (allMetrics ea) in
  if Z.of_nat (length rules) >? n then
    if n <? 0 then None else Some (take (Z.to_nat n) rules)
  else Some rules.

Definition isProblematic (m : RuleMetrics) : bool :=
  (FalsePositives m >? 0) && PrimFloat.ltb (Precision m) c0_8.

Definition GetProblematicRules (ea : EfficacyAnalyzer) : list RuleMetrics :=
  sort_Slice (fun a b => FalsePositives a >? FalsePositives b)
    (List.filter isProblematic (allMetrics ea)).

End Queries.

(** The rule identifier an event is filed under, if any: a non-empty
    string. *)
Definition filedUnder (event : Event) : option string :=
  match asString event "rule_id" with
  | Some id => if String.eqb id EmptyString then None else Some id
  | None => None
  end.

Definition isFiled (event : Event) : bool :=
  match filedUnder event with Some _ => true | None => false end.

(** The sum of the values of a map of numbers. *)
Definition sumValues (m : gmap string Z) : Z :=
  foldr Z.add 0 (map_to_list m).*2.

(** The sum of [w] over a list of events. *)
Definition weight (w : Event -> Z) (evs : list Event) : Z :=
  foldr Z.add 0 (w <$> evs).

Definition one (ev : Event) : Z := 1.
Definition oneIfBlocked (ev : Event) : Z := if blocked ev then 1 else 0.
Definition oneIfAllowed (ev : Event) : Z := if blocked ev then 0 else 1.

(** Every stored record is filed under its own identifier and carries
    the recommendations that follow from its numbers. *)
Definition consistent (ea : EfficacyAnalyzer) : Prop :=
  forall id m, ruleMetrics ea !! id = Some m ->
    RuleID m = id /\ Recommendations m = generateRecommendations m.

(** The analyser after the events [evs] were added. *)
Definition addAll (ea : EfficacyAnalyzer) (evs : list Event) : EfficacyAnalyzer :=
  foldl AddEvent ea evs.

(** The response times the events carry, in order. *)
Definition latencies (evs : list Event) : list float :=
  omap (fun ev => asFloat ev "response_time_ms") evs.

(** The non-empty reasons the events carry. *)
Definition reasons (evs : list Event) : list string :=
  omap (fun ev => match asString ev "reason" with
                  | Some reason =>
                    if String.eqb reason EmptyString then None else Some reason
                  | None => None
                  end) evs.

(** Insertion sort, a sort that [sort.Slice] may be. *)
Fixpoint insertSorted {A} (less : A -> A -> bool) (x : A) (l : list A) : list A :=
  match l with
  | [] => [x]
  | y :: l' => if less y x then y :: insertSorted less x l' else x :: l
  end.

Definition insertionSort {A} (less : A -> A -> bool) (l : list A) : list A :=
  foldr (insertSorted less) [] l.

Definition refSort : GoSort := {| sort_Slice := @insertionSort |}.

(** Events for the examples. *)
Definition logged (ruleID : string) (blocked : bool) : Event :=
  {[ "rule_id" := VString ruleID; "blocked" := VBool blocked ]}.

Definition timed (ms : float) : Event :=
  <["response_time_ms" := VNumber ms]> (logged "2001" true).

Definition reasoned (reason name : string) : Event :=
  <["reason" := VString reason]>
    (<["rule_name" := VString name]> (logged "2001" true)).

(** Three allowed events of rule 2001 and one blocked event of 2002. *)
Definition mixedEvents : list Event :=
  [logged "2001" false; logged "2002" true; logged "2001" false;
   logged EmptyString true; logged "2001" true].

End AnalysisQueries.

(** ** Records for the examples of the analysis queries *)

Module QueryExamples.
Import Analysis AnalysisQueries.

(** The events of rule 2001 among [mixedEvents]. *)
Definition events2001 : list Event :=
  [logged "2001" false; logged "2001" false; logged "2001" true].

(** The record an analysis stores for them. *)
Definition metrics2001 : RuleMetrics :=
  let m := calculateRuleMetrics "2001" events2001 in
  withRecommendations m (generateRecommendations m).

End QueryExamples.

(** ** Package replay: the traffic recorder and the replayer

    A time is a count of nanoseconds, a [time.Duration] likewise.  The
    readings of the clock and what the network returns are inputs of the
    functions that ask for them. *)

Module Replay.
Import Http.

Module RecordedRequest.
Record t := {
  ID : string;
  Timestamp : Z;
  Method : string;
  URL : string;
  Headers : gmap string string;
  Body : string;
  RemoteAddr : string;
  ContentType : string
}.
End RecordedRequest.

Module RecordedResponse.
Record t := {
  StatusCode : Z;
  Headers : gmap string string;
  Body : string;
  Timestamp : Z
}.
End RecordedResponse.

Module TrafficRecord.
Record t := {
  Request : RecordedRequest.t;
  Response : RecordedResponse.t;
  Blocked : bool;
  Reason : string
}.
End TrafficRecord.

Record Recorder := {
  records : list TrafficRecord.t;
  filePath : string;
  maxRecords : Z
}.

Definition NewRecorder (filePath : string) (maxRecords : Z) : Recorder :=
  {| records := []; filePath := filePath; maxRecords := maxRecords |}.

(** The three readings of the clock [RecordTraffic] takes. *)
Record Clock := { idTime : Z; requestTime : Z; responseTime : Z }.

(** [io.ReadAll(req.Body)] when the body is not nil: what the record
    keeps of it (the empty string when the read fails) and the reader
    afterwards, which has nothing left to deliver. *)
Definition readAll (b : option BodyReader) : string * option BodyReader :=
  match b with
  | Some rd =>
    let '(body, err, rd') := io_ReadAll rd in
    (match err with None => body | Some _ => EmptyString end, Some rd')
  | None => (EmptyString, None)
  end.

(** The loop over [req.Header]: the first value of every header that has
    one. *)
Definition firstValue (headers : gmap string string)
    (kv : string * list string) : gmap string string :=
  match snd kv with
  | v :: _ => <[fst kv := v]> headers
  | [] => headers
  end.

Definition extractHeaders (h : gmap string (list string)) : gmap string string :=
  foldl firstValue ∅ (map_to_list h).

Section Recording.
Context `{GoRuntime}.

(** The record [RecordTraffic] creates. *)
Definition makeRecord (clock : Clock) (req : Request) (statusCode : Z)
    (responseBody : string) (blocked : bool) (reason : string)
    : TrafficRecord.t :=
  {| TrafficRecord.Request :=
       {| RecordedRequest.ID := Waf.itoa (idTime clock);
          RecordedRequest.Timestamp := requestTime clock;
          RecordedRequest.Method := Method req;
          RecordedRequest.URL := RequestURI req;
          RecordedRequest.Headers := extractHeaders (Header req);
          RecordedRequest.Body := fst (readAll (Body req));
          RecordedRequest.RemoteAddr := RemoteAddr req;
          RecordedRequest.ContentType := Header_Get (Header req) "Content-Type" |};
     TrafficRecord.Response :=
       {| RecordedResponse.StatusCode := statusCode;
          RecordedResponse.Headers := ∅;
          RecordedResponse.Body := responseBody;
          RecordedResponse.Timestamp := responseTime clock |};
     TrafficRecord.Blocked := blocked;
     TrafficRecord.Reason := reason |}.

(** [RecordTraffic]: the recorder afterwards, and the request, whose body
    has been read.  The error returned is always nil. *)
Definition RecordTraffic (r : Recorder) (clock : Clock) (req : Request)
    (statusCode : Z) (responseBody : string) (blocked : bool) (reason : string)
    : Recorder * Request :=
  let record := makeRecord clock req statusCode responseBody blocked reason in
  let records := records r ++ [record] in
  let records :=
    if Z.of_nat (length records) >? maxRecords r then drop 1 records
    else records in
  ({| records := records; filePath := filePath r; maxRecords := maxRecords r |},
   Proxy.withBody req (snd (readAll (Body req)))).

End Recording.

Definition GetRecords (r : Recorder) : list TrafficRecord.t := records r.

Definition GetRecordCount (r : Recorder) : Z := Z.of_nat (length (records r)).

Definition ClearRecords (r : Recorder) : Recorder :=
  {| records := []; filePath := filePath r; maxRecords := maxRecords r |}.

Definition FilterRecordsByMethod (r : Recorder) (method : string)
    : list TrafficRecord.t :=
  List.filter
    (fun record =>
       String.eqb (RecordedRequest.Method (TrafficRecord.Request record)) method)
    (records r).

Definition FilterRecordsByBlocked (r : Recorder) (blocked : bool)
    : list TrafficRecord.t :=
  List.filter (fun record => Bool.eqb (TrafficRecord.Blocked record) blocked)
    (records r).

(** *** The replayer *)

Module ReplayedResponse.
Record t := {
  StatusCode : Z;
  Body : string;
  Duration : Z;
  Error : string
}.
End ReplayedResponse.

(** [ReplayResult]; its time stamp is left out, nothing reads it. *)
Module ReplayResult.
Record t := {
  OriginalRequest : RecordedRequest.t;
  OriginalResponse : RecordedResponse.t;
  ReplayedResponse : ReplayedResponse.t;
  Success : bool;
  Error : string;
  StatusMatch : bool;
  BodyMatch : bool
}.
End ReplayResult.

(** [Replayer]; its HTTP client is the network below. *)
Record Replayer := {
  targetURL : string;
  replayRecords : list TrafficRecord.t;
  results : list ReplayResult.t
}.

Definition NewReplayer (targetURL : string) : Replayer :=
  {| targetURL := targetURL; replayRecords := []; results := [] |}.

Definition LoadRecords (r : Replayer) (records : list TrafficRecord.t) : Replayer :=
  {| targetURL := targetURL r; replayRecords := records; results := results r |}.

(** The request [ReplayRequest] sends. *)
Record Outgoing := {
  outMethod : string;
  outURL : string;
  outHeader : gmap string (list string);
  outBody : string
}.

(** What [client.Do] and the read of the response body give. *)
Inductive Outcome :=
  | TransportError (err : string)
  | Response (statusCode : Z) (body : result string).

(** The network and the library calls of [ReplayRequest]: [url.Parse]
    followed by [URL.String], [http.NewRequest] (its error, if any, for a
    method and a URL), and [client.Do] on a world that the call may
    change, together with the time [time.Since] measures. *)
Class Network (World : Type) := {
  url_Parse : string -> result string;
  http_NewRequest : string -> string -> option string;
  client_Do : World -> Outgoing -> World * Outcome * Z
}.

Section Replaying.
Context `{GoRuntime} {World : Type} `{Network World}.

(** [req.Header.Set(key, value)] *)
Definition Header_Set (h : gmap string (list string)) (kv : string * string)
    : gmap string (list string) :=
  <[textproto_CanonicalMIMEHeaderKey (fst kv) := [snd kv]]> h.

Definition replayedResponse (outcome : Outcome) (duration : Z) : ReplayedResponse.t :=
  match outcome with
  | TransportError err =>
    {| ReplayedResponse.StatusCode := 0; ReplayedResponse.Body := EmptyString;
       ReplayedResponse.Duration := duration; ReplayedResponse.Error := err |}
  | Response statusCode body =>
    {| ReplayedResponse.StatusCode := statusCode;
       ReplayedResponse.Body :=
         match body with Ok b => b | Err _ => EmptyString end;
       ReplayedResponse.Duration := duration;
       ReplayedResponse.Error := EmptyString |}
  end.

(** The result [ReplayRequest] appends for an outcome. *)
Definition replayResult (record : TrafficRecord.t) (outcome : Outcome)
    (duration : Z) : ReplayResult.t :=
  let replayedResp := replayedResponse outcome duration in
  {| ReplayResult.OriginalRequest := TrafficRecord.Request record;
     ReplayResult.OriginalResponse := TrafficRecord.Response record;
     ReplayResult.ReplayedResponse := replayedResp;
     ReplayResult.Success :=
       match outcome with TransportError _ => false | Response _ _ => true end;
     ReplayResult.Error := ReplayedResponse.Error replayedResp;
     ReplayResult.StatusMatch :=
       ReplayedResponse.StatusCode replayedResp
       =? RecordedResponse.StatusCode (TrafficRecord.Response record);
     ReplayResult.BodyMatch :=
       String.eqb (ReplayedResponse.Body replayedResp)
         (RecordedResponse.Body (TrafficRecord.Response record)) |}.

(** The request built from a record, for the URL as parsed. *)
Definition outgoing (record : TrafficRecord.t) (url : string) : Outgoing :=
  let request := TrafficRecord.Request record in
  {| outMethod := RecordedRequest.Method request;
     outURL := url;
     outHeader :=
       foldl Header_Set ∅ (map_to_list (RecordedRequest.Headers request));
     outBody := RecordedRequest.Body request |}.

(** [ReplayRequest]: the world and the replayer afterwards, and the error
    returned, if any. *)
Definition ReplayRequest (w : World) (r : Replayer) (record : TrafficRecord.t)
    : World * Replayer * option string :=
  let request := TrafficRecord.Request record in
  match url_Parse (targetURL r +:+ RecordedRequest.URL request) with
  | Err err => (w, r, Some ("failed to parse URL: " +:+ err))
  | Ok url =>
    match http_NewRequest (RecordedRequest.Method request) url with
    | Some err => (w, r, Some ("failed to create request: " +:+ err))
    | None =>
      let '(w', outcome, duration) := client_Do w (outgoing record url) in
      (w',
       {| targetURL := targetURL r; replayRecords := replayRecords r;
          results := results r ++ [replayResult record outcome duration] |},
       None)
    end
  end.

(** The loop of [ReplayAll] over the records still to replay. *)
Fixpoint replayEach (w : World) (r : Replayer) (records : list TrafficRecord.t)
    : World * Replayer * option string :=
  match records with
  | [] => (w, r, None)
  | record :: rest =>
    match ReplayRequest w r record with
    | (w', r', Some err) => (w', r', Some err)
    | (w', r', None) => replayEach w' r' rest
    end
  end.

Definition ReplayAll (w : World) (r : Replayer) : World * Replayer * option string :=
  replayEach w r (replayRecords r).

End Replaying.

Definition GetResults (r : Replayer) : list ReplayResult.t := results r.

(** [int64] arithmetic wraps around. *)
Definition wrap64 (z : Z) : Z := (z + 2 ^ 63) mod 2 ^ 64 - 2 ^ 63.

(** [GetResultSummary]; the two durations are given as numbers, the
    source renders them with [String]. *)
Record Summary := {
  total_requests : Z;
  successful_requests : Z;
  status_matches : Z;
  body_matches : Z;
  total_duration : Z;
  average_duration : Z;
  success_rate : float
}.

(** The counters of the loop of [GetResultSummary]. *)
Record Counters := {
  successfulRequests : Z;
  statusMatches : Z;
  bodyMatches : Z;
  totalDuration : Z
}.

Definition countResult (c : Counters) (result : ReplayResult.t) : Counters :=
  {| successfulRequests :=
       if ReplayResult.Success result then successfulRequests c + 1
       else successfulRequests c;
     statusMatches :=
       if ReplayResult.StatusMatch result then statusMatches c + 1
       else statusMatches c;
     bodyMatches :=
       if ReplayResult.BodyMatch result then bodyMatches c + 1
       else bodyMatches c;
     totalDuration :=
       wrap64 (totalDuration c
               + ReplayedResponse.Duration (ReplayResult.ReplayedResponse result)) |}.

Definition GetResultSummary (r : Replayer) : Summary :=
  let totalRequests := Z.of_nat (length (results r)) in
  let c := foldl countResult
             {| successfulRequests := 0; statusMatches := 0; bodyMatches := 0;
                totalDuration := 0 |} (results r) in
  let avgDuration :=
    if totalRequests >? 0 then Z.quot (totalDuration c) totalRequests else 0 in
  {| total_requests := totalRequests;
     successful_requests := successfulRequests c;
     status_matches := statusMatches c;
     body_matches := bodyMatches c;
     total_duration := totalDuration c;
     average_duration := avgDuration;
     success_rate :=
       PrimFloat.mul
         (PrimFloat.div (Analysis.float_of_int64 (successfulRequests c))
            (Analysis.float_of_int64 totalRequests))
         100%float |}.

Definition ClearResults (r : Replayer) : Replayer :=
  {| targetURL := targetURL r; replayRecords := replayRecords r; results := [] |}.

Definition FilterResultsByStatus (r : Replayer) (statusCode : Z)
    : list ReplayResult.t :=
  List.filter
    (fun result =>
       ReplayedResponse.StatusCode (ReplayResult.ReplayedResponse result)
       =? statusCode)
    (results r).

Definition FilterResultsByMatch (r : Replayer) (statusMatch bodyMatch : bool)
    : list ReplayResult.t :=
  List.filter
    (fun result =>
       Bool.eqb (ReplayResult.StatusMatch result) statusMatch
       && Bool.eqb (ReplayResult.BodyMatch result) bodyMatch)
    (results r).

(** The duration measured for a result. *)
Definition durationOf (result : ReplayResult.t) : Z :=
  ReplayedResponse.Duration (ReplayResult.ReplayedResponse result).

(** The last [n] elements of a list. *)
Definition lastn {A} (n : nat) (l : list A) : list A := drop (length l - n) l.

(** A call of [RecordTraffic]. *)
Record Recording := {
  clock : Clock;
  req : Request;
  statusCode : Z;
  responseBody : string;
  blocked : bool;
  reason : string
}.

Section RecordingAll.
Context `{GoRuntime}.

Definition recordOf (c : Recording) : TrafficRecord.t :=
  makeRecord (clock c) (req c) (statusCode c) (responseBody c) (blocked c)
    (reason c).

Definition recordAll (r : Recorder) (calls : list Recording) : Recorder :=
  foldl (fun r c =>
           fst (RecordTraffic r (clock c) (req c) (statusCode c)
                  (responseBody c) (blocked c) (reason c))) r calls.

End RecordingAll.

(** Whether [ReplayRequest] can send a record: its URL parses and the
    request can be created. *)
Definition sendable {World} `{Network World} (target : string)
    (record : TrafficRecord.t) : bool :=
  match url_Parse (target +:+ RecordedRequest.URL (TrafficRecord.Request record)) with
  | Ok url =>
    match http_NewRequest
            (RecordedRequest.Method (TrafficRecord.Request record)) url with
    | None => true
    | Some _ => false
    end
  | Err _ => false
  end.

(** The records up to the first one that cannot be sent. *)
Fixpoint sendablePrefix {World} `{Network World} (target : string)
    (records : list TrafficRecord.t) : list TrafficRecord.t :=
  match records with
  | [] => []
  | record :: rest =>
    if sendable target record then record :: sendablePrefix target rest else []
  end.

End Replay.

(** ** Examples for the recorder and the replayer *)

Module ReplayExamples.
Import Http Replay.

Definition isHex (c : ascii) : bool :=
  let n := GoStrings.byte_val c in
  ((48 <=? n) && (n <=? 57) || (65 <=? n) && (n <=? 70)
   || (97 <=? n) && (n <=? 102))%N.

(** A percent sign that is not followed by two hexadecimal digits. *)
Fixpoint badEscape (s : string) : bool :=
  match s with
  | EmptyString => false
  | String c s' =>
    (Ascii.eqb c "%" &&
     negb match s' with
          | String h1 (String h2 _) => isHex h1 && isHex h2
          | _ => false
          end)
    || badEscape s'
  end.

(** A network whose server refuses every connection; a URL with a
    percent sign that starts no escape does not parse. *)
Definition downNetwork : Network nat :=
  {| url_Parse := fun raw =>
       if badEscape raw then Err "invalid URL escape" else Ok raw;
     http_NewRequest := fun _ _ => None;
     client_Do := fun served _ =>
       (S served, TransportError "connection refused", 1000) |}.

Definition target : string := "http://localhost:3000".

(** A recorded exchange that was answered 204 with an empty body. *)
Definition noContent (url : string) : TrafficRecord.t :=
  {| TrafficRecord.Request :=
       {| RecordedRequest.ID := "1"; RecordedRequest.Timestamp := 0;
          RecordedRequest.Method := "DELETE"; RecordedRequest.URL := url;
          RecordedRequest.Headers := ∅; RecordedRequest.Body := EmptyString;
          RecordedRequest.RemoteAddr := "10.0.0.7:5555";
          RecordedRequest.ContentType := EmptyString |};
     TrafficRecord.Response :=
       {| RecordedResponse.StatusCode := 204; RecordedResponse.Headers := ∅;
          RecordedResponse.Body := EmptyString;
          RecordedResponse.Timestamp := 0 |};
     TrafficRecord.Blocked := false; TrafficRecord.Reason := EmptyString |}.

(** Three records, the second with a bad escape in its URL. *)
Definition threeRecords : list TrafficRecord.t :=
  [noContent "/items/1"; noContent "/items/%zz"; noContent "/items/3"].

Definition loaded : Replayer := LoadRecords (NewReplayer target) threeRecords.

(** A request with two cookies and a body. *)
Definition twoCookies : Request :=
  {| Method := "POST"; RequestURI := "/login"; RemoteAddr := "10.0.0.7:5555";
     Header := {[ "Cookie" := ["a=1"; "b=2"] ]};
     URLQuery := ∅; URLScheme := EmptyString;
     Body := Some (Reader "user=x"); ContentLength := 6 |}.

Definition recording (blocked : bool) : Recording :=
  {| clock := {| idTime := 1; requestTime := 1; responseTime := 2 |};
     req := twoCookies; statusCode := 200; responseBody := "ok";
     blocked := blocked; reason := EmptyString |}.

(** A result with the given duration. *)
Definition took (ns : Z) : ReplayResult.t :=
  {| ReplayResult.OriginalRequest := TrafficRecord.Request (noContent "/");
     ReplayResult.OriginalResponse := TrafficRecord.Response (noContent "/");
     ReplayResult.ReplayedResponse :=
       {| ReplayedResponse.StatusCode := 204;
          ReplayedResponse.Body := EmptyString;
          ReplayedResponse.Duration := ns;
          ReplayedResponse.Error := EmptyString |};
     ReplayResult.Success := true; ReplayResult.Error := EmptyString;
     ReplayResult.StatusMatch := true; ReplayResult.BodyMatch := true |}.

Definition replayed : Replayer :=
  {| targetURL := target; replayRecords := [];
     results := [took 1000; took 2001] |}.

End ReplayExamples.

(** ** Package logging: the structured logger

    A time is the count of nanoseconds since the zero time, which
    [time.Now] never returns. *)

(** [time.Time.Format(time.RFC3339)] of the Go library. *)
Class GoTime := {
  formatRFC3339 : Z -> string
}.

Module StructuredLogging.
Import Replay.

(** [StructuredEvent], with the fields that the logger itself reads; the
    others are read by [json.Marshal] only. *)
Record StructuredEvent := {
  Timestamp : Z;
  EventID : string;
  EventType : string;
  Severity : string;
  SourceIP : string;
  Method : string;
  URL : string;
  StatusCode : Z;
  RuleID : string;
  RuleName : string;
  Blocked : bool;
  Reason : string
}.

(** [events]: the events in memory.  [jsonFile], [csvFile]: whether the
    file is open, that is, the pointer is not nil. *)
Record StructuredLogger := {
  jsonFile : bool;
  csvFile : bool;
  events : list StructuredEvent;
  maxEvents : Z;
  enableJSON : bool;
  enableCSV : bool;
  enableStdout : bool
}.

(** What the logger writes: a line of the JSON file (the event as
    [json.Marshal] renders it), a line of the CSV file, a line on
    standard output (the event as [printEvent] renders it). *)
Inductive output :=
  | JSONLine (event : StructuredEvent)
  | CSVLine (line : string)
  | Stdout (event : StructuredEvent).

(** The file system as [NewStructuredLogger] meets it: whether a path can
    be opened for appending, and whether the file is empty then. *)
Record Files := {
  canOpen : string -> bool;
  isEmpty : string -> bool
}.

Definition newline : string := String (ascii_of_nat 10) EmptyString.

Definition csvHeader : string :=
  "Timestamp,EventID,EventType,Severity,SourceIP,Method,URL,StatusCode,Blocked,RuleID,RuleName,Reason"
  +:+ newline.

Definition nonEmpty (s : string) : bool := negb (String.eqb s EmptyString).

Definition NewStructuredLogger (fs : Files) (jsonPath csvPath : string)
    (maxEvents : Z) : result (list output * StructuredLogger) :=
  if nonEmpty jsonPath && negb (canOpen fs jsonPath) then
    Err "failed to open JSON log file"
  else if nonEmpty csvPath && negb (canOpen fs csvPath) then
    Err "failed to open CSV log file"
  else
    Ok (if nonEmpty csvPath && isEmpty fs csvPath then [CSVLine csvHeader] else [],
        {| jsonFile := nonEmpty jsonPath;
           csvFile := nonEmpty csvPath;
           events := [];
           maxEvents := maxEvents;
           enableJSON := nonEmpty jsonPath;
           enableCSV := nonEmpty csvPath;
           enableStdout := true |}).

(** [%v] of a bool. *)
Definition showBool (b : bool) : string := if b then "true" else "false".

Section Lines.
Context `{GoTime}.

(** The twelve fields of a CSV line, as [Sprintf] prints them. *)
Definition csvFields (event : StructuredEvent) : list string :=
  [formatRFC3339 (Timestamp event); EventID event; EventType event;
   Severity event; SourceIP event; Method event; URL event;
   Waf.itoa (StatusCode event); showBool (Blocked event); RuleID event;
   RuleName event; Reason event].

(** [strings.Join]-like: the fields with a separator between them. *)
Fixpoint joinWith (sep : string) (fields : list string) : string :=
  match fields with
  | [] => EmptyString
  | [f] => f
  | f :: rest => f +:+ sep +:+ joinWith sep rest
  end.

(** [fmt.Sprintf("%s,%s,%s,%s,%s,%s,%s,%d,%v,%s,%s,%s\n", ...)] *)
Definition csvLine (event : StructuredEvent) : string :=
  joinWith "," (csvFields event) +:+ newline.

Definition withTimestamp (event : StructuredEvent) (t : Z) : StructuredEvent :=
  {| Timestamp := t; EventID := EventID event; EventType := EventType event;
     Severity := Severity event; SourceIP := SourceIP event;
     Method := Method event; URL := URL event; StatusCode := StatusCode event;
     RuleID := RuleID event; RuleName := RuleName event;
     Blocked := Blocked event; Reason := Reason event |}.

(** The event as [LogEvent] stores and writes it: with the time of the
    call when it came with the zero time. *)
Definition stamped (now : Z) (event : StructuredEvent) : StructuredEvent :=
  if Timestamp event =? 0 then withTimestamp event now else event.

(** [LogEvent]: what is written, and the logger afterwards.  The error
    returned is always nil. *)
Definition LogEvent (sl : StructuredLogger) (now : Z) (event : StructuredEvent)
    : list output * StructuredLogger :=
  let event := stamped now event in
  let events := events sl ++ [event] in
  let events :=
    if Z.of_nat (length events) >? maxEvents sl then drop 1 events
    else events in
  ((if enableJSON sl && jsonFile sl then [JSONLine event] else [])
   ++ (if enableCSV sl && csvFile sl then [CSVLine (csvLine event)] else [])
   ++ (if enableStdout sl then [Stdout event] else []),
   {| jsonFile := jsonFile sl; csvFile := csvFile sl; events := events;
      maxEvents := maxEvents sl; enableJSON := enableJSON sl;
      enableCSV := enableCSV sl; enableStdout := enableStdout sl |}).

(** [ExportCSV]: the content of the file it creates. *)
Definition ExportCSV (sl : StructuredLogger) : list string :=
  csvHeader :: map csvLine (events sl).

(** Logging a sequence of events, each with the time of its call. *)
Fixpoint logAll (sl : StructuredLogger) (calls : list (Z * StructuredEvent))
    : list output * StructuredLogger :=
  match calls with
  | [] => ([], sl)
  | (now, event) :: rest =>
    let '(out, sl') := LogEvent sl now event in
    let '(out', sl'') := logAll sl' rest in
    (out ++ out', sl'')
  end.

(** The CSV lines among what was written. *)
Definition csvLines (out : list output) : list string :=
  flat_map (fun o => match o with CSVLine line => [line] | _ => [] end) out.

End Lines.

Definition GetEvents (sl : StructuredLogger) : list StructuredEvent := events sl.

Definition GetEventsBySeverity (sl : StructuredLogger) (severity : string)
    : list StructuredEvent :=
  List.filter (fun event => String.eqb (Severity event) severity) (events sl).

Definition GetBlockedEvents (sl : StructuredLogger) : list StructuredEvent :=
  List.filter Blocked (events sl).

Definition GetEventsByRule (sl : StructuredLogger) (ruleID : string)
    : list StructuredEvent :=
  List.filter (fun event => String.eqb (RuleID event) ruleID) (events sl).

(** [m[key]++] on a [map[string]int]. *)
Definition increment (m : gmap string Z) (key : string) : gmap string Z :=
  <[key := default 0 (m !! key) + 1]> m.

(** The result of [GetStatistics]. *)
Record Statistics := {
  total_events : Z;
  blocked_events : Z;
  allowed_events : Z;
  block_rate : float;
  severity_count : gmap string Z;
  rule_count : gmap string Z
}.

(** The variables of the loop of [GetStatistics]. *)
Record Counts := {
  blockedCount : Z;
  allowedCount : Z;
  severityCount : gmap string Z;
  ruleCount : gmap string Z
}.

Definition countEvent (c : Counts) (event : StructuredEvent) : Counts :=
  {| blockedCount := if Blocked event then blockedCount c + 1 else blockedCount c;
     allowedCount := if Blocked event then allowedCount c else allowedCount c + 1;
     severityCount := increment (severityCount c) (Severity event);
     ruleCount :=
       if nonEmpty (RuleID event) then increment (ruleCount c) (RuleID event)
       else ruleCount c |}.

Definition GetStatistics (sl : StructuredLogger) : Statistics :=
  let totalEvents := Z.of_nat (length (events sl)) in
  let c := foldl countEvent
             {| blockedCount := 0; allowedCount := 0; severityCount := ∅;
                ruleCount := ∅ |} (events sl) in
  {| total_events := totalEvents;
     blocked_events := blockedCount c;
     allowed_events := allowedCount c;
     block_rate :=
       PrimFloat.mul
         (PrimFloat.div (Analysis.float_of_int64 (blockedCount c))
            (Analysis.float_of_int64 totalEvents))
         100%float;
     severity_count := severityCount c;
     rule_count := ruleCount c |}.

(** A count as a map of counters holds it: no entry for zero. *)
Definition counted (n : nat) : option Z :=
  match n with O => None | _ => Some (Z.of_nat n) end.

(** A counter after [n] more increments. *)
Definition after (old : option Z) (n : nat) : option Z :=
  match n with O => old | _ => Some (default 0 old + Z.of_nat n) end.

(** How often a byte occurs in a string. *)
Fixpoint occurrences (c : ascii) (s : string) : Z :=
  match s with
  | EmptyString => 0
  | String c' s' => (if Ascii.eqb c c' then 1 else 0) + occurrences c s'
  end.

End StructuredLogging.

(** ** Examples for the structured logger *)

Module LoggingExamples.
Import StructuredLogging.

(** A file system where every file can be opened and is new. *)
Definition newFiles : Files :=
  {| canOpen := fun _ => true; isEmpty := fun _ => true |}.

(** A stand-in for the library's time format in the examples: the count
    of nanoseconds in decimal digits. *)
Definition plainTime : GoTime := {| formatRFC3339 := Waf.itoa |}.

(** An allowed request, not attributed to any rule. *)
Definition visit (url : string) : StructuredEvent :=
  {| Timestamp := 0; EventID := "evt"; EventType := "request";
     Severity := "low"; SourceIP := "192.168.1.100"; Method := "GET";
     URL := url; StatusCode := 200; RuleID := EmptyString;
     RuleName := EmptyString; Blocked := false; Reason := EmptyString |}.

(** A request blocked by rule 1003. *)
Definition blockedVisit (url : string) : StructuredEvent :=
  {| Timestamp := 0; EventID := "evt"; EventType := "blocked";
     Severity := "high"; SourceIP := "192.168.1.100"; Method := "GET";
     URL := url; StatusCode := 403; RuleID := "1003";
     RuleName := "Path Traversal"; Blocked := true;
     Reason := "Rule 1003: Path Traversal" |}.

(** The logger [NewStructuredLogger] makes for a CSV file only. *)
Definition csvOnly (max : Z) : StructuredLogger :=
  {| jsonFile := false; csvFile := true; events := []; maxEvents := max;
     enableJSON := false; enableCSV := true; enableStdout := true |}.

Definition threeVisits : list (Z * StructuredEvent) :=
  [(100, visit "/a"); (200, blockedVisit "/../b"); (300, visit "/c")].

End LoggingExamples.

(** ** Package anomaly: the anomaly detector

    A time is a count of nanoseconds; the readings of the clock are
    inputs of the functions that take them. *)

Module Anomaly.
Import StructuredLogging.

(** [RequestStatistics]; the fields [RequestsPerSecond],
    [AveragePayloadSize] and [PayloadSizeStdDev] are never written and
    are left out. *)
Record RequestStatistics := {
  TotalRequests : Z;
  PayloadSizes : list Z;
  RequestTimestamps : list Z;
  UniqueUserAgents : gmap string Z;
  UniqueIPs : gmap string Z
}.

(** [PayloadStatistics]; [AverageEntropy], [EntropyStdDev] and
    [SuspiciousPatterns] are never written and are left out. *)
Record PayloadStatistics := {
  EntropyValues : list float;
  LargePayloads : Z;
  EncodedPayloads : Z
}.

(** The sentences of [detectAnomalies], each with what is printed into
    it. *)
Inductive description :=
  | HighRequestRate (rps : float)
  | LargePayload (bytes : Z)
  | HighEntropy (entropy : float)
  | SuspiciousUserAgent (userAgent : string)
  | HighVolume (ip : string) (requests : Z).

(** [Anomaly]; its time stamp and its request identifier, which is never
    set, are left out. *)
Record Anomaly := {
  Type_ : string;
  Severity : string;
  Value : float;
  Threshold : float;
  Description : description
}.

Record AnomalyDetector := {
  requestStats : RequestStatistics;
  payloadStats : PayloadStatistics;
  timeWindowSize : Z;
  requestRateThreshold : float;
  payloadSizeThreshold : float;
  entropyThreshold : float;
  anomalies : list Anomaly
}.

Definition NewAnomalyDetector (timeWindowSize : Z) : AnomalyDetector :=
  {| requestStats :=
       {| TotalRequests := 0; PayloadSizes := []; RequestTimestamps := [];
          UniqueUserAgents := ∅; UniqueIPs := ∅ |};
     payloadStats :=
       {| EntropyValues := []; LargePayloads := 0; EncodedPayloads := 0 |};
     timeWindowSize := timeWindowSize;
     requestRateThreshold := 1000%float;
     payloadSizeThreshold := 10485760%float;
     entropyThreshold := 4.5%float;
     anomalies := [] |}.

(** [int64(f)] for a float within the range of [int64]: the fraction is
    dropped. *)
Definition int64_of_float (f : float) : Z :=
  match Prim2SF f with
  | S754_zero _ => 0
  | S754_finite s m e =>
    let v := if 0 <=? e then Z.pos m * 2 ^ e else Z.pos m / 2 ^ (- e) in
    if s then - v else v
  | _ => - 2 ^ 63
  end.

Definition second : Z := 1000000000.

(** [calculateRequestsPerSecond], at the time [now]. *)
Definition calculateRequestsPerSecond (ad : AnomalyDetector) (now : Z) : float :=
  let timestamps := RequestTimestamps (requestStats ad) in
  if Z.of_nat (length timestamps) <? 2 then 0%float
  else
    Analysis.float_of_int64
      (Z.of_nat (length (List.filter (fun ts => ts >? now - second) timestamps))).

Definition suspiciousAgents : list string :=
  ["BadBot"; "SQLMap"; "Nikto"; "Nmap"; "Masscan"; "Nessus";
   "OpenVAS"; "Metasploit"; "Burp"; "Zaproxy"; "curl"; "wget"].

Definition isAnomalousUserAgent (userAgent : string) : bool :=
  existsb (fun agent => String.eqb agent userAgent) suspiciousAgents.

Definition addAnomaly (ad : AnomalyDetector) (a : Anomaly) : AnomalyDetector :=
  {| requestStats := requestStats ad; payloadStats := payloadStats ad;
     timeWindowSize := timeWindowSize ad;
     requestRateThreshold := requestRateThreshold ad;
     payloadSizeThreshold := payloadSizeThreshold ad;
     entropyThreshold := entropyThreshold ad;
     anomalies := anomalies ad ++ [a] |}.

Definition withPayloadStats (ad : AnomalyDetector) (ps : PayloadStatistics)
    : AnomalyDetector :=
  {| requestStats := requestStats ad; payloadStats := ps;
     timeWindowSize := timeWindowSize ad;
     requestRateThreshold := requestRateThreshold ad;
     payloadSizeThreshold := payloadSizeThreshold ad;
     entropyThreshold := entropyThreshold ad;
     anomalies := anomalies ad |}.

(** [m[key]] on a [map[string]int64]: zero when there is no entry. *)
Definition counter (m : gmap string Z) (key : string) : Z := default 0 (m !! key).

(** The five checks of [detectAnomalies], in their order. *)
Definition checkRequestRate (ad : AnomalyDetector) (now : Z) : AnomalyDetector :=
  if Z.of_nat (length (RequestTimestamps (requestStats ad))) >? 1 then
    let rps := calculateRequestsPerSecond ad now in
    if PrimFloat.ltb (requestRateThreshold ad) rps then
      addAnomaly ad
        {| Type_ := "request_rate"; Severity := "high"; Value := rps;
           Threshold := requestRateThreshold ad;
           Description := HighRequestRate rps |}
    else ad
  else ad.

Definition checkPayloadSize (ad : AnomalyDetector) (payloadSize : Z)
    : AnomalyDetector :=
  if payloadSize >? int64_of_float (payloadSizeThreshold ad) then
    let ad := addAnomaly ad
      {| Type_ := "payload_size"; Severity := "medium";
         Value := Analysis.float_of_int64 payloadSize;
         Threshold := payloadSizeThreshold ad;
         Description := LargePayload payloadSize |} in
    withPayloadStats ad
      {| EntropyValues := EntropyValues (payloadStats ad);
         LargePayloads := LargePayloads (payloadStats ad) + 1;
         EncodedPayloads := EncodedPayloads (payloadStats ad) |}
  else ad.

Definition checkEntropy (ad : AnomalyDetector) (entropy : float) : AnomalyDetector :=
  if PrimFloat.ltb (entropyThreshold ad) entropy then
    let ad := addAnomaly ad
      {| Type_ := "entropy"; Severity := "medium"; Value := entropy;
         Threshold := entropyThreshold ad;
         Description := HighEntropy entropy |} in
    withPayloadStats ad
      {| EntropyValues := EntropyValues (payloadStats ad);
         LargePayloads := LargePayloads (payloadStats ad);
         EncodedPayloads := EncodedPayloads (payloadStats ad) + 1 |}
  else ad.

Definition checkUserAgent (ad : AnomalyDetector) (userAgent : string)
    : AnomalyDetector :=
  if isAnomalousUserAgent userAgent then
    addAnomaly ad
      {| Type_ := "user_agent"; Severity := "low"; Value := 0%float;
         Threshold := 0%float; Description := SuspiciousUserAgent userAgent |}
  else ad.

Definition checkIP (ad : AnomalyDetector) (ip : string) : AnomalyDetector :=
  let requests := counter (UniqueIPs (requestStats ad)) ip in
  if requests >? 100 then
    addAnomaly ad
      {| Type_ := "ip_address"; Severity := "medium";
         Value := Analysis.float_of_int64 requests;
         Threshold := 0%float; Description := HighVolume ip requests |}
  else ad.

Definition detectAnomalies (ad : AnomalyDetector) (now : Z) (ip userAgent : string)
    (payloadSize : Z) (entropy : float) : AnomalyDetector :=
  let ad := checkRequestRate ad now in
  let ad := checkPayloadSize ad payloadSize in
  let ad := checkEntropy ad entropy in
  let ad := checkUserAgent ad userAgent in
  checkIP ad ip.

(** A call of [RecordRequest], with the two readings of the clock that
    matter: the one stored with the request and the one the request rate
    is computed at. *)
Record Call := {
  arrival : Z;
  checked : Z;
  ip : string;
  userAgent : string;
  payloadSize : Z;
  entropy : float
}.

Definition RecordRequest (ad : AnomalyDetector) (c : Call) : AnomalyDetector :=
  let rs := requestStats ad in
  let ps := payloadStats ad in
  let ad :=
    {| requestStats :=
         {| TotalRequests := TotalRequests rs + 1;
            PayloadSizes := PayloadSizes rs ++ [payloadSize c];
            RequestTimestamps := RequestTimestamps rs ++ [arrival c];
            UniqueUserAgents := increment (UniqueUserAgents rs) (userAgent c);
            UniqueIPs := increment (UniqueIPs rs) (ip c) |};
       payloadStats :=
         {| EntropyValues := EntropyValues ps ++ [entropy c];
            LargePayloads := LargePayloads ps;
            EncodedPayloads := EncodedPayloads ps |};
       timeWindowSize := timeWindowSize ad;
       requestRateThreshold := requestRateThreshold ad;
       payloadSizeThreshold := payloadSizeThreshold ad;
       entropyThreshold := entropyThreshold ad;
       anomalies := anomalies ad |} in
  detectAnomalies ad (checked c) (ip c) (userAgent c) (payloadSize c) (entropy c).

(** [GetStatistics]; the two averages are left out. *)
Record Statistics := {
  total_requests : Z;
  unique_ips : Z;
  unique_user_agents : Z;
  large_payloads : Z;
  encoded_payloads : Z;
  total_anomalies : Z
}.

Definition GetStatistics (ad : AnomalyDetector) : Statistics :=
  {| total_requests := TotalRequests (requestStats ad);
     unique_ips := Z.of_nat (size (UniqueIPs (requestStats ad)));
     unique_user_agents := Z.of_nat (size (UniqueUserAgents (requestStats ad)));
     large_payloads := LargePayloads (payloadStats ad);
     encoded_payloads := EncodedPayloads (payloadStats ad);
     total_anomalies := Z.of_nat (length (anomalies ad)) |}.

Definition GetAnomalies (ad : AnomalyDetector) : list Anomaly := anomalies ad.

Definition GetAnomaliesBySeverity (ad : AnomalyDetector) (severity : string)
    : list Anomaly :=
  List.filter (fun a => String.eqb (Severity a) severity) (anomalies ad).

Definition ClearAnomalies (ad : AnomalyDetector) : AnomalyDetector :=
  {| requestStats := requestStats ad; payloadStats := payloadStats ad;
     timeWindowSize := timeWindowSize ad;
     requestRateThreshold := requestRateThreshold ad;
     payloadSizeThreshold := payloadSizeThreshold ad;
     entropyThreshold := entropyThreshold ad;
     anomalies := [] |}.

(** The detector after the calls were recorded. *)
Definition recordAll (ad : AnomalyDetector) (calls : list Call) : AnomalyDetector :=
  foldl RecordRequest ad calls.

(** The anomalies of one type. *)
Definition ofType (type : string) (l : list Anomaly) : list Anomaly :=
  List.filter (fun a => String.eqb (Type_ a) type) l.

(** How many of the calls came from an address. *)
Definition requestsFrom (address : string) (calls : list Call) : nat :=
  length (List.filter (fun c => String.eqb (ip c) address) calls).

(** The anomalies a step has added. *)
Definition added (before after : AnomalyDetector) : list Anomaly :=
  drop (length (anomalies before)) (anomalies after).

(** A step from [before] to [after] that appends one anomaly for each
    listed type whose condition holds, in the order of the list. *)
Definition appends (before after : AnomalyDetector)
    (checks : list (string * bool)) : Prop :=
  exists new,
    anomalies after = anomalies before ++ new /\
    length new = length (List.filter snd checks) /\
    forall type,
      length (ofType type new)
      = length (List.filter
                  (fun check => snd check && String.eqb (fst check) type) checks).

(** A step that leaves the request statistics, the entropy values and
    the settings alone. *)
Definition keeps (before after : AnomalyDetector) : Prop :=
  requestStats after = requestStats before /\
  EntropyValues (payloadStats after) = EntropyValues (payloadStats before) /\
  requestRateThreshold after = requestRateThreshold before /\
  payloadSizeThreshold after = payloadSizeThreshold before /\
  entropyThreshold after = entropyThreshold before /\
  timeWindowSize after = timeWindowSize before.

(** The condition of the request rate check. *)
Definition rateExceeded (ad : AnomalyDetector) (now : Z) : bool :=
  (Z.of_nat (length (RequestTimestamps (requestStats ad))) >? 1)
  && PrimFloat.ltb (requestRateThreshold ad) (calculateRequestsPerSecond ad now).

(** A browser's request of a small page. *)
Definition browsing (address agent : string) (t : Z) : Call :=
  {| arrival := t; checked := t; ip := address; userAgent := agent;
     payloadSize := 1024; entropy := 3.5%float |}.

(** A hundred requests of one address at time 0, and one more a day
    later. *)
Definition hundred : list Call :=
  replicate 100 (browsing "203.0.113.9" "Mozilla/5.0" 0).

Definition aDayLater : Call :=
  browsing "203.0.113.9" "Mozilla/5.0" 86400000000000.

(** Three requests from two addresses. *)
Definition threeCalls : list Call :=
  [browsing "203.0.113.9" "Mozilla/5.0" 1; browsing "198.51.100.7" "curl" 2;
   browsing "203.0.113.9" "Mozilla/5.0" 3].

End Anomaly.

(** * Properties *)

Section WafProperties.
Import GoStrings Http Waf Spec.
Context `{GoRuntime}.

(** ** The loops of [Check] *)

(** A disabled rule matches nothing. *)
Lemma Match_disabled (rule : Rule) (data : string) :
  Enabled rule = false -> Match rule data = false.
Proof. intros Hd. unfold Match. rewrite Hd. reflexivity. Qed.

Lemma existsb_flat_map {A B} (f : B -> bool) (g : A -> list B) (l : list A) :
  existsb f (flat_map g l) = existsb (fun a => existsb f (g a)) l.
Proof.
  induction l as [|a l IH]; simpl; [reflexivity|].
  rewrite existsb_app, IH. reflexivity.
Qed.

(** [checkRule] is true exactly when the matcher accepts one of the data
    the rule's target yields on the request without its body. *)
Lemma checkRule_targetData (rule : Rule) (r : Request) :
  checkRule rule r
  = existsb (Match rule) (targetData (withoutBody r) (Target rule)).
Proof.
  unfold checkRule. destruct (Enabled rule) eqn:Hen; simpl.
  - unfold targetData, matchNonEmpty, anyValueMatches, values, nonEmpty,
      bufferedBody, withoutBody, Proxy.withBody.
    cbn [Body RequestURI Header URLQuery].
    repeat match goal with
    | |- context [if ?c then _ else _] => destruct c; simpl
    end; rewrite ?existsb_flat_map, ?orb_false_r; reflexivity.
  - symmetry. apply not_true_is_false. intros Hex.
    apply existsb_exists in Hex as (data & _ & HM).
    rewrite (Match_disabled rule data Hen) in HM. discriminate.
Qed.

Lemma checkPhase_find (ph : RulePhase) (rs : list Rule) (r : Request) :
  checkPhase ph rs r =
  option_map (fun rule => (DecisionBlock, blockReason rule))
    (List.find (blocksRequest (withoutBody r)) (List.filter (inPhase ph) rs)).
Proof.
  induction rs as [|rule rest IH]; simpl; [reflexivity|].
  unfold inPhase at 1. destruct (String.eqb (Phase rule) ph); simpl; [|exact IH].
  unfold blocksRequest at 1. rewrite <- checkRule_targetData.
  destruct (checkRule rule r); simpl; [|exact IH].
  destruct (String.eqb (Action rule) ActionBlock); simpl; [reflexivity|exact IH].
Qed.

Lemma find_app_split {A} (f : A -> bool) (l1 l2 : list A) :
  List.find f (l1 ++ l2) =
  match List.find f l1 with Some x => Some x | None => List.find f l2 end.
Proof.
  induction l1 as [|a l1 IH]; simpl; [reflexivity|].
  destruct (f a); [reflexivity|exact IH].
Qed.

Lemma Check_eq_spec (e : Engine) (r : Request) :
  Check e r = Check_spec e (withoutBody r).
Proof.
  unfold Check, Check_spec, firstBlock, evaluationOrder, phaseOrder. simpl.
  rewrite !checkPhase_find, app_nil_r, !find_app_split.
  destruct (List.find _ (List.filter (inPhase PhaseRequestHeaders) _)); simpl;
    [reflexivity|].
  destruct (List.find _ (List.filter (inPhase PhaseRequestURI) _)); simpl;
    [reflexivity|].
  destruct (List.find _ (List.filter (inPhase PhaseRequestBody) _)); simpl;
    reflexivity.
Qed.

Lemma find_pointwise {A} (f g : A -> bool) (l : list A) :
  (forall a, f a = g a) -> List.find f l = List.find g l.
Proof.
  intros Hfg. induction l as [|a l IH]; simpl; [reflexivity|].
  rewrite Hfg, IH. reflexivity.
Qed.

(** Without a buffered body the selectors yield what they yield on the
    request without its body. *)
Lemma targetData_withoutBody (r : Request) (target : string) :
  bufferedBody r = EmptyString ->
  targetData (withoutBody r) target = targetData r target.
Proof.
  intros Hb. unfold targetData. rewrite Hb. reflexivity.
Qed.

Lemma Check_spec_withoutBody (e : Engine) (r : Request) :
  bufferedBody r = EmptyString ->
  Check_spec e (withoutBody r) = Check_spec e r.
Proof.
  intros Hb. unfold Check_spec, firstBlock.
  rewrite (find_pointwise (blocksRequest (withoutBody r)) (blocksRequest r));
    [reflexivity|].
  intros rule. unfold blocksRequest.
  rewrite (targetData_withoutBody r _ Hb). reflexivity.
Qed.

Lemma phaseRank_of_phaseOrder (ph : RulePhase) :
  In ph phaseOrder ->
  (ph = PhaseRequestHeaders /\ phaseRank ph = 0%nat) \/
  (ph = PhaseRequestURI /\ phaseRank ph = 1%nat) \/
  (ph = PhaseRequestBody /\ phaseRank ph = 2%nat).
Proof.
  intros [<-|[<-|[<-|[]]]]; [left|right; left|right; right];
    split; reflexivity.
Qed.

Lemma find_none_filter (ph : RulePhase) (rs : list Rule) (r : Request) (q : Rule) :
  List.find (blocksRequest r) (List.filter (inPhase ph) rs) = None ->
  In q rs -> Phase q = ph -> blocksRequest r q = false.
Proof.
  intros Hnone Hin Hph.
  apply (find_none _ _ Hnone). apply filter_In. split; [exact Hin|].
  unfold inPhase. rewrite Hph. apply String.eqb_refl.
Qed.

Lemma find_some_filter (ph : RulePhase) (rs : list Rule) (r : Request) (w : Rule) :
  List.find (blocksRequest r) (List.filter (inPhase ph) rs) = Some w ->
  In w rs /\ Phase w = ph /\ blocksRequest r w = true.
Proof.
  intros Hsome. apply find_some in Hsome as [Hin Hb].
  apply filter_In in Hin as [Hin Hph].
  unfold inPhase in Hph. apply String.eqb_eq in Hph. auto.
Qed.

(** The first rule that blocks a request, in the phase order headers,
    URI, body and in insertion order within a phase, is in a phase no
    later than that of any rule that blocks the request. *)
Lemma firstBlock_ordered (e : Engine) (r : Request) :
  (forall w, firstBlock (rules e) r = Some w ->
     Check_spec e r = (DecisionBlock, blockReason w) /\
     In w (rules e) /\ blocksRequest r w = true /\
     forall q, In q (rules e) -> blocksRequest r q = true ->
       In (Phase q) phaseOrder ->
       (phaseRank (Phase w) <= phaseRank (Phase q))%nat) /\
  (firstBlock (rules e) r = None ->
     Check_spec e r = (DecisionAllow, EmptyString) /\
     forall q, In q (rules e) -> In (Phase q) phaseOrder ->
       blocksRequest r q = false).
Proof.
  unfold Check_spec.
  unfold firstBlock, evaluationOrder, phaseOrder. simpl.
  rewrite app_nil_r, !find_app_split.
  destruct (List.find _ (List.filter (inPhase PhaseRequestHeaders) _)) as [w1|] eqn:E1.
  { split; [|discriminate]. intros w [= <-].
    apply find_some_filter in E1 as (Hin & Hph & Hb).
    repeat split; auto. intros q _ _ _. rewrite Hph. apply Nat.le_0_l. }
  destruct (List.find _ (List.filter (inPhase PhaseRequestURI) _)) as [w2|] eqn:E2.
  { split; [|discriminate]. intros w [= <-].
    apply find_some_filter in E2 as (Hin & Hph & Hb).
    repeat split; auto. intros q Hq Hbq Hphq. rewrite Hph.
    destruct (phaseRank_of_phaseOrder _ Hphq) as [[Hp ->]|[[Hp ->]|[Hp ->]]];
      [|cbn; lia|cbn; lia].
    rewrite (find_none_filter _ _ _ q E1 Hq Hp) in Hbq. discriminate. }
  destruct (List.find _ (List.filter (inPhase PhaseRequestBody) _)) as [w3|] eqn:E3.
  { split; [|discriminate]. intros w [= <-].
    apply find_some_filter in E3 as (Hin & Hph & Hb).
    repeat split; auto. intros q Hq Hbq Hphq. rewrite Hph.
    destruct (phaseRank_of_phaseOrder _ Hphq) as [[Hp ->]|[[Hp ->]|[Hp ->]]];
      [| |cbn; lia].
    - rewrite (find_none_filter _ _ _ q E1 Hq Hp) in Hbq. discriminate.
    - rewrite (find_none_filter _ _ _ q E2 Hq Hp) in Hbq. discriminate. }
  split; [discriminate|]. intros _. split; [reflexivity|].
  intros q Hq Hphq.
  destruct (phaseRank_of_phaseOrder _ Hphq) as [[Hp _]|[[Hp _]|[Hp _]]];
    eauto using find_none_filter.
Qed.

(** C10. A rule whose operator is regex or not-regex and whose compiled
    expression is absent matches no input; in particular a not-regex rule
    in this state never matches. *)
Theorem Match_regex_absent (r : Rule) (data : string) :
  Operator r = OpRegex \/ Operator r = OpNotRegex ->
  regex r = None ->
  Match r data = false.
Proof.
  intros Hop Hre. unfold Match. rewrite Hre.
  destruct (Enabled r); simpl; [|reflexivity].
  destruct Hop as [-> | ->]; reflexivity.
Qed.

End WafProperties.

Section ProxyProperties.
Import GoStrings Http Waf Config Proxy Spec.
Context `{GoRuntime}.

(** The engine does not read the body of the request. *)
Lemma checkRule_withBody (rule : Rule) (r : Request) (b : option BodyReader) :
  checkRule rule (withBody r b) = checkRule rule r.
Proof. reflexivity. Qed.

Lemma checkPhase_withBody ph rs (r : Request) (b : option BodyReader) :
  checkPhase ph rs (withBody r b) = checkPhase ph rs r.
Proof.
  induction rs as [|rule rest IH]; simpl; [reflexivity|].
  rewrite IH, checkRule_withBody. reflexivity.
Qed.

Lemma Check_intercepted (e : Engine) (r : Request) :
  Check e (intercepted r) = Check e r.
Proof.
  unfold intercepted, InterceptRequest.
  destruct (Body r) as [[body|data err]|]; simpl; try reflexivity;
    destruct (ContentLength r >? 0); simpl; try reflexivity;
    unfold Check; rewrite !checkPhase_withBody; reflexivity.
Qed.

Lemma handleRequest_trace (p : Proxy) (r : Request) (stdin : string) :
  trace (handleRequest p r stdin) =
  interceptLog r ++
  match Check (wafEngine p) r with
  | (DecisionBlock, reason) =>
    LogBlock ("Request blocked: " +:+ reason) ::
    (if Interactive (config p) then
       Prompt reason ::
       (if admits (GoFmt.Scanln stdin) then [ServeUpstream (intercepted r)]
        else refusal)
     else if DryRun (config p) then [ServeUpstream (intercepted r)]
     else refusal)
  | _ => [ServeUpstream (intercepted r)]
  end.
Proof.
  rewrite <- (Check_intercepted (wafEngine p) r).
  unfold handleRequest, interceptLog, intercepted, askUser.
  destruct (InterceptRequest _ r) as [[ri r'] err]. simpl.
  destruct (Check (wafEngine p) r') as [d reason].
  unfold admits.
  destruct err as [msg|], d; simpl; try reflexivity;
    destruct (Interactive (config p)), (DryRun (config p)); simpl;
    try reflexivity;
    destruct (String.eqb (GoFmt.Scanln stdin) "a"
              || String.eqb (GoFmt.Scanln stdin) "A");
    reflexivity.
Qed.



Section Forwarding.
Context `{GoTransport}.

(** The director leaves the URL alone. *)
Lemma Director_keeps_scheme (req : Request) :
  URLScheme (Director req) = URLScheme req.
Proof. reflexivity. Qed.

Lemma copyBody_trace (rw : responseWriter) (chunks : list string) :
  written rw = true -> trace (copyBody rw chunks) = map Write chunks.
Proof.
  revert rw. induction chunks as [|chunk rest IH]; intros rw Hw; [reflexivity|].
  cbn [copyBody map]. unfold responseWriter_Write. rewrite Hw. cbn [negb].
  specialize (IH {| statusCode := statusCode rw; body := body rw +:+ chunk;
                    written := written rw |} Hw).
  unfold trace in *. cbn. destruct (copyBody _ rest) as [t x]. cbn in *.
  rewrite IH. reflexivity.
Qed.

(** What the reverse proxy does with a request: it copies the response
    of the origin, or passes the error to the error handler, which
    answers 502. *)
Lemma forward_trace (p : Proxy) (r : Request) :
  reverseProxy p = reverseProxy (NewProxy (config p)) ->
  trace (forward p r) =
  match http_RoundTrip (outgoing (reverseProxy p) r) with
  | Ok res => WriteHeader (StatusCode res) :: map Write (BodyChunks res)
  | Err err => [LogError ("Proxy error: " +:+ err);
                WriteHeader 502; Write "Bad Gateway"]
  end.
Proof.
  intros Hrp. unfold forward, ServeHTTP. rewrite Hrp.
  cbn [reverseProxy NewProxy ReverseProxy.ErrorHandler].
  destruct (http_RoundTrip _) as [res|err]; [|reflexivity].
  unfold trace. cbn.
  pose proof (copyBody_trace
                {| statusCode := StatusCode res; body := EmptyString;
                   written := true |} (BodyChunks res) eq_refl) as Hc.
  unfold trace in Hc. destruct (copyBody _ _) as [t x]. cbn in *.
  rewrite Hc. reflexivity.
Qed.

(** The request that goes out has the URL scheme the request came with:
    nothing points it to the target. *)
Lemma outgoing_scheme (p : Proxy) (r : Request) :
  reverseProxy p = reverseProxy (NewProxy (config p)) ->
  URLScheme (outgoing (reverseProxy p) r) = URLScheme r.
Proof.
  intros ->. unfold outgoing. cbn [reverseProxy NewProxy ReverseProxy.Director].
  rewrite Director_keeps_scheme. destruct (ContentLength r =? 0); reflexivity.
Qed.

Lemma intercepted_scheme (r : Request) : URLScheme (intercepted r) = URLScheme r.
Proof.
  unfold intercepted, InterceptRequest.
  destruct (Body r) as [[data|data err]|]; [| |reflexivity];
    destruct (ContentLength r >? 0); reflexivity.
Qed.

(** A request whose URL has no scheme, as every request for a path has,
    does not reach the origin: the transport refuses it and the client
    gets 502. *)
Lemma forward_bad_gateway (p : Proxy) (r : Request) :
  reverseProxy p = reverseProxy (NewProxy (config p)) ->
  refusesOtherSchemes ->
  URLScheme r <> "http" -> URLScheme r <> "https" ->
  exists err,
    http_RoundTrip (outgoing (reverseProxy p) (intercepted r)) = Err err /\
    trace (forward p (intercepted r)) =
    [LogError ("Proxy error: " +:+ err); WriteHeader 502; Write "Bad Gateway"].
Proof.
  intros Hrp Hlaw Hh Hs.
  destruct (Hlaw (outgoing (reverseProxy p) (intercepted r))) as [err Herr].
  - rewrite (outgoing_scheme p _ Hrp), intercepted_scheme. exact Hh.
  - rewrite (outgoing_scheme p _ Hrp), intercepted_scheme. exact Hs.
  - exists err. split; [exact Herr|].
    rewrite (forward_trace p _ Hrp), Herr. reflexivity.
Qed.


End Forwarding.

End ProxyProperties.

(** ** The default rule set and rule admission *)

Section EngineProperties.
Import GoStrings Http Waf Spec Examples.
Context `{GoRuntime}.

(** [Compile] changes nothing but the compiled expression. *)
Lemma Compile_keeps_fields (rule rule' : Rule) :
  Compile rule = Ok rule' ->
  ID rule' = ID rule /\ Name rule' = Name rule /\ Phase rule' = Phase rule /\
  Target rule' = Target rule /\ Action rule' = Action rule /\
  Operator rule' = Operator rule /\ Enabled rule' = Enabled rule.
Proof.
  unfold Compile. destruct (_ || _).
  - destruct (regexp_Compile _); [|discriminate].
    intros [= <-]. repeat split.
  - intros [= <-]. repeat split.
Qed.

Lemma admitDefault_ids (rs : list Rule) (rule : Rule) :
  map ID (admitDefault rs rule) = map ID rs \/
  map ID (admitDefault rs rule) = map ID rs ++ [ID rule].
Proof.
  unfold admitDefault. destruct (Compile rule) as [rule'|msg] eqn:E; [|auto].
  right. rewrite map_app. simpl.
  apply Compile_keeps_fields in E as [-> _]. reflexivity.
Qed.

(** The identifiers of the default engine: those of [defaultRules], in
    order, less the rules that did not compile. *)
Lemma default_ids_sublist : sublist (map ID (rules NewEngine)) (map ID defaultRules).
Proof.
  unfold NewEngine, addDefaultRules. simpl rules.
  assert (Hgen : forall l rs pre,
    sublist (map ID rs) pre ->
    sublist (map ID (foldl admitDefault rs l)) (pre ++ map ID l)).
  { induction l as [|rule l IH]; intros rs pre Hs; simpl.
    - rewrite app_nil_r. exact Hs.
    - replace (pre ++ ID rule :: map ID l) with ((pre ++ [ID rule]) ++ map ID l)
        by (rewrite <- app_assoc; reflexivity).
      apply IH. destruct (admitDefault_ids rs rule) as [-> | ->].
      + apply sublist_inserts_r. exact Hs.
      + apply sublist_app; [exact Hs|reflexivity]. }
  apply (Hgen defaultRules [] []). constructor.
Qed.

Lemma default_ids_unique : uniqueIDs (rules NewEngine).
Proof.
  unfold uniqueIDs. eapply sublist_NoDup; [|apply default_ids_sublist].
  apply NoDup_ListNoDup. vm_compute.
  repeat (constructor; [simpl; intuition discriminate|]). constructor.
Qed.

Lemma AddRule_ids (e : Engine) (rule : Rule) :
  map ID (rules (fst (AddRule e rule))) =
  map ID (rules e) ++ (if compiles rule then [ID rule] else []).
Proof.
  unfold AddRule, compiles.
  destruct (Compile rule) as [rule'|msg] eqn:E; simpl.
  - apply Compile_keeps_fields in E as [Hid _].
    rewrite map_app. simpl. rewrite Hid. reflexivity.
  - rewrite app_nil_r. reflexivity.
Qed.

(** After a sequence of admissions the engine holds the identifiers it
    held before, followed by those of the rules that compiled. *)
Lemma admitAll_ids (l : list Rule) (e : Engine) :
  map ID (rules (admitAll e l)) =
  map ID (rules e) ++ map ID (List.filter compiles l).
Proof.
  unfold admitAll. revert e. induction l as [|rule l IH]; intros e; simpl.
  - rewrite app_nil_r. reflexivity.
  - rewrite IH, AddRule_ids. destruct (compiles rule); simpl.
    + rewrite <- app_assoc. reflexivity.
    + rewrite app_nil_r. reflexivity.
Qed.

(** C9, as the code has it.  The identifiers of the default engine are
    pairwise distinct.  [AddRule] does not look at identifiers: on an
    engine whose identifiers are distinct, they are still distinct after
    the call exactly when the rule was refused by the compiler or its
    identifier was not held before.  After a sequence of admissions the
    identifiers are those held before and those of the rules that
    compiled, with their repetitions. *)
Theorem unique_ids_iff_fresh :
  uniqueIDs (rules NewEngine) /\
  (forall (e : Engine) (rule : Rule),
     uniqueIDs (rules e) ->
     (uniqueIDs (rules (fst (AddRule e rule))) <->
      snd (AddRule e rule) <> None \/ ~ In (ID rule) (map ID (rules e)))) /\
  (forall (e : Engine) (l : list Rule),
     uniqueIDs (rules (admitAll e l)) <->
     NoDup (map ID (rules e) ++ map ID (List.filter compiles l))).
Proof.
  split; [apply default_ids_unique|]. split.
  - intros e rule Hu. unfold AddRule.
    destruct (Compile rule) as [rule'|msg] eqn:E; simpl.
    + apply Compile_keeps_fields in E as [Hid _].
      unfold uniqueIDs. rewrite map_app. simpl. rewrite Hid. split.
      * intros Hnd. right.
        apply NoDup_app in Hnd as (_ & Hdis & _).
        intros Hin. apply list_elem_of_In in Hin.
        apply (Hdis _ Hin). constructor.
      * intros [Hcontra|Hfresh]; [congruence|].
        apply NoDup_app. split; [|split].
        -- exact Hu.
        -- intros x Hx Hx'. apply list_elem_of_In in Hx.
           apply list_elem_of_singleton in Hx'. subst x. contradiction.
        -- apply NoDup_singleton.
    + split; [intros _; left; discriminate|intros _; exact Hu].
  - intros e l. unfold uniqueIDs. rewrite admitAll_ids. reflexivity.
Qed.

End EngineProperties.

(** ** The default engine on the documented attack requests *)

Section BodyTarget.
Import GoStrings Http Waf Spec Examples.
Context `{GoRuntime}.

(** A rule that fires does not have the target [REQUEST_BODY]. *)
Lemma checkRule_not_body (rule : Rule) (r : Request) :
  checkRule rule r && String.eqb (Target rule) "REQUEST_BODY" = false.
Proof.
  unfold checkRule.
  destruct (String.eqb (Target rule) "REQUEST_BODY") eqn:E.
  - apply String.eqb_eq in E. rewrite E. simpl.
    destruct (Enabled rule); reflexivity.
  - apply andb_false_r.
Qed.

(** Whatever the request and the library, the default engine allows the
    request or blocks it by the path traversal or the user agent rule. *)
Lemma default_engine_outcomes (r : Request) :
  Check NewEngine r = (DecisionAllow, EmptyString) \/
  Check NewEngine r = (DecisionBlock, "Rule 1003: Path Traversal") \/
  Check NewEngine r = (DecisionBlock, "Rule 1005: Suspicious User-Agent").
Proof.
  unfold NewEngine, addDefaultRules, defaultRules, admitDefault, Compile.
  cbn -[regexp_Compile pathTraversalPattern commandInjectionPattern Check].
  destruct (regexp_Compile pathTraversalPattern) as [re1|e1];
    destruct (regexp_Compile commandInjectionPattern) as [re2|e2];
    cbn -[Check]; unfold Check; cbn -[matchNonEmpty];
    repeat match goal with
    | |- context [matchNonEmpty ?a ?b] => destruct (matchNonEmpty a b); cbn -[matchNonEmpty]
    end; auto.
Qed.

End BodyTarget.

(** ** The SQLi and XSS operators *)

Section Detectors.
Import GoStrings Http Waf Spec.
Context `{GoRuntime}.

Lemma prefix_iff (p s : string) :
  String.prefix p s = true <-> exists post, s = p +:+ post.
Proof.
  revert s. induction p as [|c p IH]; intros s; simpl.
  - split; [intros _; exists s; reflexivity|destruct s; reflexivity].
  - destruct s as [|d s]; simpl; [split; [discriminate|intros [post [=]]]|].
    destruct (ascii_dec c d) as [->|Hne].
    + rewrite IH. split; intros [post Hp]; exists post.
      * rewrite Hp. reflexivity.
      * injection Hp as ->. reflexivity.
    + split; [discriminate|]. intros [post [= Hcd _]]. congruence.
Qed.

Lemma Contains_iff (s sub : string) :
  Contains s sub = true <-> exists pre post, s = pre +:+ sub +:+ post.
Proof.
  induction s as [|c s IH]; cbn [Contains].
  - rewrite orb_false_r, prefix_iff. split.
    + intros [post Hp]. exists EmptyString, post. exact Hp.
    + intros [pre [post Hp]]. destruct pre; [exists post; exact Hp|discriminate].
  - rewrite orb_true_iff, IH, prefix_iff. split.
    + intros [[post Hp]|[pre [post Hp]]].
      * exists EmptyString, post. exact Hp.
      * exists (String c pre), post. simpl. rewrite Hp. reflexivity.
    + intros [[|d pre] [post Hp]].
      * left. exists post. exact Hp.
      * right. injection Hp as -> ->. exists pre, post. reflexivity.
Qed.

Lemma map_bytes_app (f : ascii -> ascii) (a b : string) :
  map_bytes f (a +:+ b) = map_bytes f a +:+ map_bytes f b.
Proof. induction a as [|c a IH]; simpl; [reflexivity|rewrite IH; reflexivity]. Qed.

Lemma map_bytes_split (f : ascii -> ascii) (s a b : string) :
  map_bytes f s = a +:+ b ->
  exists s1 s2, s = s1 +:+ s2 /\ map_bytes f s1 = a /\ map_bytes f s2 = b.
Proof.
  revert s. induction a as [|c a IH]; intros s Hs; simpl in Hs.
  - exists EmptyString, s. auto.
  - destruct s as [|d s]; [discriminate|]. simpl in Hs. injection Hs as Hc Hs.
    destruct (IH _ Hs) as (s1 & s2 & -> & H1 & H2).
    exists (String d s1), s2. simpl. rewrite Hc, H1. auto.
Qed.

Lemma in_allBytes (a : ascii) : In a allBytes.
Proof.
  rewrite <- (ascii_nat_embedding a). apply in_map, in_seq.
  pose proof (nat_ascii_bounded a). lia.
Qed.

(** Two bytes have the same upper case exactly when they have the same
    lower case: checked on all pairs of bytes. *)
Lemma fold_byte_agree (a b : ascii) :
  upper_byte a = upper_byte b <-> lower_byte a = lower_byte b.
Proof.
  assert (Hall : forallb (fun a => forallb (fun b =>
            Bool.eqb (Ascii.eqb (upper_byte a) (upper_byte b))
                     (Ascii.eqb (lower_byte a) (lower_byte b))) allBytes)
            allBytes = true) by (vm_compute; reflexivity).
  rewrite forallb_forall in Hall. specialize (Hall a (in_allBytes a)).
  rewrite forallb_forall in Hall. specialize (Hall b (in_allBytes b)).
  apply Bool.eqb_prop in Hall. rewrite <- !Ascii.eqb_eq, Hall. reflexivity.
Qed.

Lemma fold_agree (u t : string) :
  map_bytes upper_byte u = map_bytes upper_byte t <-> equalFold u t.
Proof.
  unfold equalFold. revert t.
  induction u as [|c u IH]; intros [|d t]; simpl; try (split; congruence).
  split; intros [= Hc Hu]; f_equal;
    solve [apply fold_byte_agree; exact Hc | apply IH; exact Hu].
Qed.

(** Containment after upper-casing byte by byte is containment up to
    letter case; likewise after lower-casing. *)
Lemma Contains_upper_iff (s t : string) :
  Contains (map_bytes upper_byte s) (map_bytes upper_byte t) = true
  <-> containsFold s t.
Proof.
  rewrite Contains_iff. unfold containsFold. split.
  - intros (pre & post & Hs).
    apply map_bytes_split in Hs as (s1 & s23 & -> & _ & H23).
    apply map_bytes_split in H23 as (s2 & s3 & -> & H2 & _).
    exists s1, s2, s3. split; [reflexivity|]. apply fold_agree. exact H2.
  - intros (pre & u & post & -> & Hf). apply fold_agree in Hf.
    exists (map_bytes upper_byte pre), (map_bytes upper_byte post).
    rewrite !map_bytes_app, Hf. reflexivity.
Qed.

Lemma Contains_lower_iff (s t : string) :
  Contains (map_bytes lower_byte s) (map_bytes lower_byte t) = true
  <-> containsFold s t.
Proof.
  rewrite Contains_iff. unfold containsFold, equalFold. split.
  - intros (pre & post & Hs).
    apply map_bytes_split in Hs as (s1 & s23 & -> & _ & H23).
    apply map_bytes_split in H23 as (s2 & s3 & -> & H2 & _).
    exists s1, s2, s3. split; [reflexivity|exact H2].
  - intros (pre & u & post & -> & Hf).
    exists (map_bytes lower_byte pre), (map_bytes lower_byte post).
    rewrite !map_bytes_app, Hf. reflexivity.
Qed.

Lemma ToUpper_ascii (s : string) :
  isASCII s = true -> ToUpper s = map_bytes upper_byte s.
Proof. intros Hs. unfold ToUpper. rewrite Hs. reflexivity. Qed.

Lemma ToLower_ascii (s : string) :
  isASCII s = true -> ToLower s = map_bytes lower_byte s.
Proof. intros Hs. unfold ToLower. rewrite Hs. reflexivity. Qed.

Lemma sqlPatterns_ascii (t : string) : In t sqlPatterns -> isASCII t = true.
Proof.
  assert (Hall : forallb isASCII sqlPatterns = true) by reflexivity.
  rewrite forallb_forall in Hall. apply Hall.
Qed.

(** The XSS patterns are ASCII and already in lower case. *)
Lemma xssPatterns_lower (t : string) :
  In t xssPatterns -> isASCII t = true /\ map_bytes lower_byte t = t.
Proof.
  assert (Hall : forallb (fun t => isASCII t && String.eqb (map_bytes lower_byte t) t)
                   xssPatterns = true) by reflexivity.
  rewrite forallb_forall in Hall. intros Hin.
  apply Hall, andb_true_iff in Hin as [H1 H2].
  apply String.eqb_eq in H2. auto.
Qed.

Lemma detectSQLi_iff (s : string) :
  detectSQLi s = true <->
  exists t, In t sqlPatterns /\ Contains (ToUpper s) (ToUpper t) = true.
Proof. unfold detectSQLi. apply existsb_exists. Qed.

Lemma detectXSS_iff (s : string) :
  detectXSS s = true <->
  exists t, In t xssPatterns /\ Contains (ToLower s) (ToLower t) = true.
Proof.
  unfold detectXSS. rewrite existsb_exists.
  split; intros (t & Hin & Hc); exists t; (split; [exact Hin|]);
    destruct (xssPatterns_lower t Hin) as [Ha Hl];
    rewrite (ToLower_ascii t Ha), Hl in *; exact Hc.
Qed.

(** *** Case mapping of a string that is not ASCII *)














End Detectors.

(** ** Entropy *)

Section Entropy.
Import GoStrings Waf Spec Examples.
Context `{GoRuntime}.

Lemma entropy_empty : calculateEntropy EmptyString = 0%float.
Proof. reflexivity. Qed.

(** C6, at the three bytes C3 C3 BF.  The string has two distinct code
    units, so the claimed bound is log2 2 = 1.  The loop counts runes,
    here U+FFFD for the stray lead byte and U+00FF, once each, and divides
    each count by the length in bytes, 3: both frequencies are 1/3 and the
    result is -2 (1/3) log2 (1/3), about 1.0566, above the bound, for
    every [math.Log2] that is exact at 2 and accurate at 1/3.  The empty
    string gives 0. *)
Theorem entropy_exceeds_alphabet_bound :
  math_Log2 2%float = 1%float ->
  In (math_Log2 third) nearLog2Third ->
  calculateEntropy EmptyString = 0%float /\
  length (alphabet strayLead) = 2%nat /\
  String.length strayLead = 3%nat /\
  runes strayLead = [65533; 255] /\
  PrimFloat.ltb
    (math_Log2 (float_of_len (Z.of_nat (length (alphabet strayLead)))))
    (calculateEntropy strayLead) = true.
Proof.
  intros H2 HL. split; [reflexivity|]. split; [reflexivity|].
  split; [reflexivity|]. split; [reflexivity|].
  replace (float_of_len (Z.of_nat (length (alphabet strayLead))))
    with 2%float by reflexivity.
  rewrite H2.
  assert (Hfreq : exists a b,
            map_to_list (rune_freq strayLead) = [(a, 1%float); (b, 1%float)]).
  { eexists _, _. vm_compute. reflexivity. }
  destruct Hfreq as (a & b & Hfreq).
  unfold calculateEntropy. rewrite Hfreq.
  change (String.length strayLead) with 3%nat.
  cbn [Nat.eqb foldl snd].
  change (PrimFloat.div 1 (float_of_len (Z.of_nat 3))) with third.
  unfold nearLog2Third in HL. cbn [In] in HL.
  repeat (destruct HL as [HL | HL]; [rewrite <- HL; reflexivity|]).
  destruct HL.
Qed.

End Entropy.

(** ** The efficacy analyser *)

Section AnalysisProperties.
Import Analysis SpecAnalysis.

Lemma count_cons (f : Event -> bool) (ev : Event) (evs : list Event) :
  count f (ev :: evs) = (if f ev then 1 else 0) + count f evs.
Proof. unfold count. simpl. destruct (f ev); simpl length; lia. Qed.

(** The loop counts blocked events in [tp] and all others in [fp]. *)
Lemma tally_counts (evs : list Event) (t : Tally) :
  tp (foldl tallyEvent t evs) = tp t + count blocked evs /\
  fp (foldl tallyEvent t evs) = fp t + count (fun ev => negb (blocked ev)) evs.
Proof.
  revert t. induction evs as [|ev evs IH]; intros t.
  - unfold count. simpl. lia.
  - cbn [foldl]. destruct (IH (tallyEvent t ev)) as [-> ->].
    rewrite !count_cons. unfold blocked. cbn [tallyEvent tp fp].
    destruct (isTrue ev "blocked"); simpl negb; cbv iota; lia.
Qed.

Lemma count_split (f : Event -> bool) (evs : list Event) :
  count f evs + count (fun ev => negb (f ev)) evs = Z.of_nat (length evs).
Proof.
  induction evs as [|ev evs IH]; [reflexivity|].
  rewrite !count_cons. cbn [length]. destruct (f ev); simpl negb; cbv iota; lia.
Qed.

(** The metrics of a list of events. *)
Lemma metrics_counts (ruleID : string) (evs : list Event) :
  let m := calculateRuleMetrics ruleID evs in
  TotalTriggers m = Z.of_nat (length evs) /\
  TruePositives m = count blocked evs /\
  FalsePositives m = count (fun ev => negb (blocked ev)) evs /\
  TruePositives m + FalsePositives m = TotalTriggers m /\
  Precision m = ratio (TruePositives m) (TruePositives m + FalsePositives m).
Proof.
  intros m. subst m. unfold calculateRuleMetrics.
  cbn [TotalTriggers TruePositives FalsePositives Precision].
  destruct (tally_counts evs tally0) as [Htp Hfp]. cbn [tally0 tp fp] in Htp, Hfp.
  rewrite Htp, Hfp, !Z.add_0_l.
  split; [reflexivity|]. split; [reflexivity|]. split; [reflexivity|].
  split; [apply count_split|reflexivity].
Qed.

(** The first loop of [AnalyzeRules] collects the batch of each rule. *)
Lemma groupEvent_lookup (g : gmap string (list Event)) (ev : Event) (ruleID : string) :
  ruleID <> EmptyString ->
  groupEvent g ev !! ruleID =
  if attributedTo ruleID ev then Some (default [] (g !! ruleID) ++ [ev])
  else g !! ruleID.
Proof.
  intros Hne. unfold groupEvent, attributedTo.
  destruct (asString ev "rule_id") as [id|]; [|reflexivity].
  destruct (String.eqb id EmptyString) eqn:Eid.
  - apply String.eqb_eq in Eid. subst id.
    destruct (String.eqb EmptyString ruleID) eqn:E; [|reflexivity].
    apply String.eqb_eq in E. congruence.
  - destruct (String.eqb id ruleID) eqn:E.
    + apply String.eqb_eq in E. subst id. apply lookup_insert_eq.
    + apply String.eqb_neq in E. apply lookup_insert_ne. exact E.
Qed.

Lemma group_lookup (evs : list Event) (g : gmap string (list Event)) (ruleID : string) :
  ruleID <> EmptyString ->
  foldl groupEvent g evs !! ruleID =
  match batch ruleID evs with
  | [] => g !! ruleID
  | l => Some (default [] (g !! ruleID) ++ l)
  end.
Proof.
  intros Hne. revert g. induction evs as [|ev evs IH]; intros g; [reflexivity|].
  cbn [foldl]. rewrite IH, (groupEvent_lookup g ev ruleID Hne).
  unfold batch. cbn [List.filter].
  destruct (attributedTo ruleID ev); [|reflexivity].
  destruct (List.filter (attributedTo ruleID) evs) as [|e l]; [reflexivity|].
  simpl. rewrite <- app_assoc. reflexivity.
Qed.

(** The second loop stores the metrics of each batch under its rule. *)
Lemma analyze_lookup (l : list (string * list Event))
    (rm : gmap string RuleMetrics) (ruleID : string) :
  NoDup l.*1 ->
  foldl analyzeGroup rm l !! ruleID =
  match (list_to_map l : gmap string (list Event)) !! ruleID with
  | Some evs =>
    let m := calculateRuleMetrics ruleID evs in
    Some (withRecommendations m (generateRecommendations m))
  | None => rm !! ruleID
  end.
Proof.
  revert rm. induction l as [|[k v] l IH]; intros rm Hnd; [reflexivity|].
  cbn [foldl]. apply NoDup_cons in Hnd as [Hk Hnd]. rewrite (IH _ Hnd).
  cbn [list_to_map foldr uncurry fst snd]. unfold analyzeGroup. cbn [fst snd].
  destruct (decide (k = ruleID)) as [->|Hne].
  - rewrite (not_elem_of_list_to_map_1 _ _ Hk), !lookup_insert_eq. reflexivity.
  - rewrite !lookup_insert_ne by exact Hne. reflexivity.
Qed.

Lemma AnalyzeRules_lookup (ea : EfficacyAnalyzer) (ruleID : string) :
  ruleID <> EmptyString ->
  GetRuleMetrics (AnalyzeRules ea) ruleID =
  match batch ruleID (events ea) with
  | [] => ruleMetrics ea !! ruleID
  | evs =>
    let m := calculateRuleMetrics ruleID evs in
    Some (withRecommendations m (generateRecommendations m))
  end.
Proof.
  intros Hne. unfold GetRuleMetrics, AnalyzeRules. cbn [ruleMetrics].
  rewrite analyze_lookup by apply NoDup_fst_map_to_list.
  rewrite list_to_map_to_list. unfold groupByRule.
  rewrite (group_lookup _ _ _ Hne), lookup_empty.
  destruct (batch ruleID (events ea)); reflexivity.
Qed.

(** C7. For a rule with a non-empty batch, the analyser's metrics count
    the events whose blocked flag is true as true positives and all the
    others as false positives; the two add up to the total triggers, the
    size of the batch; and the precision is TP / (TP + FP), or 0 when
    that sum is 0. *)
Theorem confusion_counts (ea : EfficacyAnalyzer) (ruleID : string) :
  ruleID <> EmptyString ->
  batch ruleID (events ea) <> [] ->
  exists m, GetRuleMetrics (AnalyzeRules ea) ruleID = Some m /\
    TruePositives m = count blocked (batch ruleID (events ea)) /\
    FalsePositives m =
      count (fun ev => negb (blocked ev)) (batch ruleID (events ea)) /\
    TotalTriggers m = Z.of_nat (length (batch ruleID (events ea))) /\
    TruePositives m + FalsePositives m = TotalTriggers m /\
    Precision m = ratio (TruePositives m) (TruePositives m + FalsePositives m).
Proof.
  intros Hne Hbatch. rewrite (AnalyzeRules_lookup ea ruleID Hne).
  destruct (batch ruleID (events ea)) as [|ev evs] eqn:E; [congruence|].
  eexists. split; [reflexivity|].
  destruct (metrics_counts ruleID (ev :: evs)) as (Ht & Htp & Hfp & Hsum & Hp).
  cbv zeta in *. unfold withRecommendations.
  cbn [TruePositives FalsePositives TotalTriggers Precision].
  auto 10.
Qed.

(** ** Recommendations *)

Lemma in_appendIf (c : bool) (r x : Recommendation) (recs : list Recommendation) :
  In x (appendIf c r recs) <-> In x recs \/ (c = true /\ x = r).
Proof.
  unfold appendIf. destruct c.
  - rewrite in_app_iff. simpl. intuition congruence.
  - intuition congruence.
Qed.

Lemma warns_iff (m : RuleMetrics) :
  warnsFalsePositives (generateRecommendations m) <->
  FalsePositives m > 0 /\ PrimFloat.ltb (Precision m) c0_8 = true.
Proof.
  unfold warnsFalsePositives, generateRecommendations. split.
  - intros [pct Hin]. rewrite !in_appendIf in Hin. simpl in Hin.
    destruct Hin as [[[[[[]|[Hc _]]|[_ [=]]]|[_ [=]]]|[_ [=]]]|[_ [=]]].
    apply andb_true_iff in Hc as [Hfp Hp]. split; [lia|exact Hp].
  - intros [Hfp Hp]. eexists. rewrite !in_appendIf.
    do 4 left. right. split; [|reflexivity].
    apply andb_true_iff. split; [lia|exact Hp].
Qed.

(** Events without a numeric response time add nothing to the latency. *)
Lemma tally_no_latency (evs : list Event) (t : Tally) :
  (forall ev, In ev evs -> asFloat ev "response_time_ms" = None) ->
  totalLatency (foldl tallyEvent t evs) = totalLatency t.
Proof.
  revert t. induction evs as [|ev evs IH]; intros t Hno; [reflexivity|].
  cbn [foldl]. rewrite IH by (intros e He; apply Hno; right; exact He).
  cbn [tallyEvent totalLatency]. rewrite (Hno ev) by (left; reflexivity).
  reflexivity.
Qed.

(** C8, as the code has it.  The high false positive rate sentence is
    emitted exactly when FP > 0 and the precision is strictly below 0.80.
    For five events of a rule, four of them blocked, the precision is
    exactly 0.80 and the block rate exactly 80, that sentence is not
    emitted, and the list of recommendations is empty unless the average
    response time of the events exceeds 5 ms; it is empty when no event
    carries a response time. *)
Theorem false_positive_recommendation :
  (forall m : RuleMetrics,
     warnsFalsePositives (generateRecommendations m) <->
     FalsePositives m > 0 /\ PrimFloat.ltb (Precision m) c0_8 = true) /\
  (forall (ruleID : string) (evs : list Event),
     length evs = 5%nat -> count blocked evs = 4 ->
     let m := calculateRuleMetrics ruleID evs in
     TruePositives m = 4 /\ FalsePositives m = 1 /\
     Precision m = c0_8 /\ BlockRate m = 80%float /\
     ~ warnsFalsePositives (generateRecommendations m) /\
     (generateRecommendations m = [] <->
      PrimFloat.ltb 5%float (AvgLatencyMs m) = false) /\
     ((forall ev, In ev evs -> asFloat ev "response_time_ms" = None) ->
      generateRecommendations m = [])).
Proof.
  split; [exact warns_iff|].
  intros ruleID evs Hlen Hblocked m.
  destruct (tally_counts evs tally0) as [Htp Hfp]. cbn [tally0 tp fp] in Htp, Hfp.
  pose proof (count_split blocked evs) as Hsplit.
  rewrite Hlen, Hblocked in Hsplit.
  assert (Hfp' : count (fun ev => negb (blocked ev)) evs = 1) by lia.
  rewrite Hblocked in Htp. rewrite Hfp' in Hfp. simpl in Htp, Hfp.
  assert (HTP : TruePositives m = 4) by exact Htp.
  assert (HFP : FalsePositives m = 1) by exact Hfp.
  assert (HT : TotalTriggers m = 5)
    by (subst m; unfold calculateRuleMetrics; cbn [TotalTriggers];
        rewrite Hlen; reflexivity).
  assert (HP : Precision m = c0_8)
    by (subst m; unfold calculateRuleMetrics; cbn [Precision];
        rewrite Htp, Hfp; reflexivity).
  assert (HR : Recall m = 1%float)
    by (subst m; unfold calculateRuleMetrics; cbn [Recall];
        rewrite Htp; reflexivity).
  assert (HB : BlockRate m = 80%float)
    by (subst m; unfold calculateRuleMetrics; cbn [BlockRate];
        rewrite Htp, Hlen; reflexivity).
  assert (HA : AvgLatencyMs m =
               PrimFloat.div (totalLatency (foldl tallyEvent tally0 evs)) 5%float)
    by (subst m; unfold calculateRuleMetrics; cbn [AvgLatencyMs];
        rewrite Hlen; reflexivity).
  assert (Hrecs : generateRecommendations m =
                  if PrimFloat.ltb 5%float (AvgLatencyMs m)
                  then [HighLatency (AvgLatencyMs m)] else []).
  { unfold generateRecommendations. rewrite HFP, HP, HR, HB, HT.
    clearbody m. reflexivity. }
  split; [exact HTP|]. split; [exact HFP|]. split; [exact HP|].
  split; [exact HB|]. split; [|split].
  - rewrite warns_iff, HP. intros [_ Hlt]. discriminate Hlt.
  - rewrite Hrecs. destruct (PrimFloat.ltb 5%float (AvgLatencyMs m));
      split; congruence.
  - intros Hno. rewrite Hrecs, HA, (tally_no_latency evs tally0 Hno).
    reflexivity.
Qed.

End AnalysisProperties.

(** ** Closed instances on the reference runtime *)

Section Instances.
Import GoStrings Http Waf Config Proxy Spec Examples.

(** C1, at the documented form post: the body is buffered and rule 1001
    matches it, but [checkRule] answers false for the target
    [REQUEST_BODY] without reading it, so the engine allows the request
    and the handler forwards it.  No rule with this target fires on any
    request. *)
Theorem body_rule_skips_buffered_body :
  (forall (H : GoRuntime) (rule : Rule) (r : Request),
     checkRule rule r && String.eqb (Target rule) "REQUEST_BODY" = false) /\
  GetBody (fst (fst (InterceptRequest {| originalBody := EmptyString |} sqliInBody)))
    = sqliBody /\
  Body (intercepted sqliInBody) = Some (Reader sqliBody) /\
  @Match rt rule1001 sqliBody = true /\
  @checkRule rt rule1001 (intercepted sqliInBody) = false /\
  @Check rt (@NewEngine rt) (intercepted sqliInBody) = (DecisionAllow, EmptyString) /\
  trace (@handleRequest rt (@NewProxy rt enforce) sqliInBody EmptyString)
    = [ServeUpstream (intercepted sqliInBody)].
Proof.
  split; [intros; apply checkRule_not_body|].
  repeat split; vm_compute; reflexivity.
Qed.

(** C2, at the documented request: the injection is in the query string,
    rule 1001 reads only the body (and that never), so in enforce mode
    the engine allows the request and the handler forwards it.  The
    default engine reports rule 1001 on no request. *)
Theorem sqli_in_query_not_blocked :
  (forall (H : GoRuntime) (r : Request),
     HasPrefix (snd (Check NewEngine r)) "Rule 1001:" = false) /\
  Interactive enforce = false /\ DryRun enforce = false /\
  @detectSQLi rt (RequestURI sqliInQuery) = true /\
  @Check rt (@NewEngine rt) sqliInQuery = (DecisionAllow, EmptyString) /\
  trace (@handleRequest rt (@NewProxy rt enforce) sqliInQuery EmptyString)
    = [ServeUpstream sqliInQuery].
Proof.
  split.
  - intros H r.
    destruct (default_engine_outcomes r) as [-> | [-> | ->]]; reflexivity.
  - repeat split; vm_compute; reflexivity.
Qed.

(** C3.  [Check] runs the three passes in the order headers, URI, body
    and goes through the rules in insertion order within a pass; it
    reports the first rule whose target yields data that its matcher
    matches and whose action is block, with the reason
    [Rule <id>: <name>], and allows the request with an empty reason when
    there is none; the rule it reports is in a phase no later than that
    of any rule that blocks.  But the data it extracts are those of the
    request without its body: the selector [REQUEST_BODY] yields nothing.
    So [Check] agrees with the procedure of the specification on every
    request with no buffered body and differs from it on the documented
    form post, where the first rule of the specification's procedure is
    rule 1001 and [Check] allows the request.  On the BadBot request both
    the path traversal rule, inserted first, and the user agent rule
    block; the user agent rule is reported, because its phase comes
    first. *)
Theorem Check_phase_ordered :
  (forall (H : GoRuntime) (e : Engine) (r : Request),
     Check e r = Check_spec e (withoutBody r) /\
     (bufferedBody r = EmptyString -> Check e r = Check_spec e r) /\
     (forall w, firstBlock (rules e) (withoutBody r) = Some w ->
        Check e r = (DecisionBlock, blockReason w) /\
        In w (rules e) /\ blocksRequest (withoutBody r) w = true /\
        forall q, In q (rules e) -> blocksRequest (withoutBody r) q = true ->
          In (Phase q) phaseOrder ->
          (phaseRank (Phase w) <= phaseRank (Phase q))%nat) /\
     (firstBlock (rules e) (withoutBody r) = None ->
        Check e r = (DecisionAllow, EmptyString) /\
        forall q, In q (rules e) -> In (Phase q) phaseOrder ->
          blocksRequest (withoutBody r) q = false)) /\
  bufferedBody (intercepted sqliInBody) = sqliBody /\
  @firstBlock rt (rules (@NewEngine rt)) (intercepted sqliInBody)
    = Some rule1001 /\
  @Check_spec rt (@NewEngine rt) (intercepted sqliInBody)
    = (DecisionBlock, "Rule 1001: SQL Injection - Common Patterns") /\
  @Check rt (@NewEngine rt) (intercepted sqliInBody)
    = (DecisionAllow, EmptyString) /\
  @Check rt (@NewEngine rt) badBotTraversal
    = (DecisionBlock, "Rule 1005: Suspicious User-Agent") /\
  (exists q, nth_error (rules (@NewEngine rt)) 2 = Some q /\ ID q = 1003 /\
             @blocksRequest rt (withoutBody badBotTraversal) q = true) /\
  (exists w, nth_error (rules (@NewEngine rt)) 4 = Some w /\ ID w = 1005 /\
             @firstBlock rt (rules (@NewEngine rt)) (withoutBody badBotTraversal)
             = Some w).
Proof.
  split.
  - intros H e r. split; [apply Check_eq_spec|].
    split; [intros Hb; rewrite Check_eq_spec; apply Check_spec_withoutBody, Hb|].
    rewrite Check_eq_spec. apply firstBlock_ordered.
  - split; [reflexivity|]. split; [vm_compute; reflexivity|].
    split; [vm_compute; reflexivity|]. split; [vm_compute; reflexivity|].
    split; [vm_compute; reflexivity|].
    split; eexists; (split; [reflexivity|]); split; vm_compute; reflexivity.
Qed.

Lemma helloOrigin_refuses : @refusesOtherSchemes helloOrigin.
Proof.
  intros outreq Hh Hs. cbn [http_RoundTrip helloOrigin].
  apply String.eqb_neq in Hh, Hs. rewrite Hh, Hs. cbn [orb].
  eexists. reflexivity.
Qed.



(** C9 refuted: [AddRule] admits a custom rule that carries the
    identifier of a default rule. *)
Lemma AddRule_admits_duplicate_id :
  snd (@AddRule rt (@NewEngine rt) customRule1001) = None /\
  ~ uniqueIDs (rules (fst (@AddRule rt (@NewEngine rt) customRule1001))).
Proof.
  split; [reflexivity|].
  unfold uniqueIDs. intros Hnd.
  replace (map ID (rules (fst (@AddRule rt (@NewEngine rt) customRule1001))))
    with ([1001] ++ [1002; 1003; 1004; 1005; 1006] ++ [1001]) in Hnd
    by (vm_compute; reflexivity).
  apply NoDup_app in Hnd as (_ & Hdis & _).
  apply (Hdis 1001); [constructor|].
  apply list_elem_of_In. simpl. auto 10.
Qed.

(** C9 as amended, on the default engine: a rule with a new identifier
    keeps the identifiers distinct. *)
Lemma unique_ids_iff_fresh_witness :
  let rule := mkRule 9001 "Test Rule" EmptyString PhaseRequestURI OpContains
                "test" "REQUEST_URI" ActionBlock "medium" in
  uniqueIDs (rules (fst (@AddRule rt (@NewEngine rt) rule))).
Proof.
  intros rule.
  destruct (@unique_ids_iff_fresh rt) as (Hdef & Hadd & _).
  apply (Hadd _ rule Hdef). right.
  vm_compute. intuition discriminate.
Defined.

(** C10 on a not-regex rule that was never compiled. *)
Lemma Match_regex_absent_witness :
  let r := mkRule 7 "no admin" EmptyString PhaseRequestURI
             OpNotRegex "admin" "REQUEST_URI" ActionBlock "low" in
  (Operator r = OpRegex \/ Operator r = OpNotRegex) /\
  regex r = None /\
  @Match rt r "/index.html" = false.
Proof.
  intros r. split; [right; reflexivity|]. split; [reflexivity|].
  apply (@Match_regex_absent rt r "/index.html");
    [right; reflexivity | reflexivity].
Defined.

(** C6 on the reference runtime, whose logarithm is the library's: the
    result is 1.0566416671474375. *)
Lemma entropy_exceeds_alphabet_bound_witness :
  @math_Log2 rt 2%float = 1%float /\
  In (@math_Log2 rt third) nearLog2Third /\
  @calculateEntropy rt strayLead = 0x1.0e80117bfd39bp+0%float /\
  PrimFloat.ltb
    (@math_Log2 rt (float_of_len (Z.of_nat (length (Spec.alphabet strayLead)))))
    (@calculateEntropy rt strayLead) = true.
Proof.
  assert (H2 : @math_Log2 rt 2%float = 1%float) by reflexivity.
  assert (HL : In (@math_Log2 rt third) nearLog2Third).
  { do 4 right. left. vm_compute. reflexivity. }
  split; [exact H2|]. split; [exact HL|]. split; [vm_compute; reflexivity|].
  exact (proj2 (proj2 (proj2 (proj2
           (@entropy_exceeds_alphabet_bound rt H2 HL))))).
Defined.

(** On ASCII strings of equally frequent symbols the reference runtime
    gives the textbook values. *)
Example entropy_examples :
  @calculateEntropy rt "aaaa" = 0%float /\
  @calculateEntropy rt "abab" = 1%float /\
  @calculateEntropy rt "abcd" = 2%float.
Proof. repeat split. Qed.




(** What [Scanln] stores of some lines: the first word, and nothing of
    an empty line or at the end of the input. *)
Example Scanln_examples :
  GoFmt.Scanln (line "a") = "a" /\ GoFmt.Scanln (line "  A") = "A" /\
  GoFmt.Scanln (line "a d") = "a" /\ GoFmt.Scanln (line "ad") = "ad" /\
  GoFmt.Scanln (line EmptyString) = EmptyString /\
  GoFmt.Scanln EmptyString = EmptyString.
Proof. repeat split. Qed.

(** The case mappings off ASCII: code point by code point, a byte that
    belongs to no code point becoming U+FFFD. *)
Example ToUpper_examples :
  @ToUpper rt "abc" = "ABC" /\
  @ToUpper rt eAcute
    = String (ascii_of_nat 195) (String (ascii_of_nat 137) EmptyString) /\
  @ToLower rt eAcute = eAcute /\
  @ToUpper rt strayLead
    = String (ascii_of_nat 239) (String (ascii_of_nat 191)
        (String (ascii_of_nat 189)
           (String (ascii_of_nat 197) (String (ascii_of_nat 184) EmptyString)))).
Proof. repeat split; vm_compute; reflexivity. Qed.

(** The dot of the path traversal expression matches one code point, of
    one byte or of more. *)
Example dot_matches_a_code_point :
  exists re, @regexp_Compile rt pathTraversalPattern = Ok re /\
    re "/..a%2f" = true /\ re ("/.." +:+ eAcute +:+ "%2f") = true /\
    re ("/.." +:+ eAcute +:+ eAcute +:+ "%2f") = false /\
    re "/../" = true /\ re "/index.html" = false.
Proof.
  eexists. split; [reflexivity|]. repeat split; vm_compute; reflexivity.
Qed.

End Instances.

Section AnalysisInstances.
Import Analysis SpecAnalysis Examples.

(** C7 on four blocked events and one that was let through. *)
Lemma confusion_counts_witness :
  exists m, GetRuleMetrics (fed fiveEvents) "1001" = Some m /\
    TruePositives m = 4 /\ FalsePositives m = 1 /\ TotalTriggers m = 5 /\
    Precision m = c0_8.
Proof.
  assert (Hne : "1001" <> EmptyString) by discriminate.
  assert (Hb : batch "1001" (events (foldl AddEvent NewEfficacyAnalyzer fiveEvents))
               <> []).
  { intros Hnil. apply (f_equal (@length _)) in Hnil.
    vm_compute in Hnil. discriminate Hnil. }
  destruct (confusion_counts (foldl AddEvent NewEfficacyAnalyzer fiveEvents)
              "1001" Hne Hb) as (m & Hm & Htp & Hfp & Ht & _ & Hp).
  exists m. split; [exact Hm|].
  rewrite Hp, Htp, Hfp, Ht. repeat split.
Defined.

(** C8 on the same five events: no recommendation. *)
Lemma false_positive_recommendation_witness :
  let m := calculateRuleMetrics "1001" fiveEvents in
  Precision m = c0_8 /\ BlockRate m = 80%float /\
  generateRecommendations m = [].
Proof.
  destruct false_positive_recommendation as [_ Hfive].
  destruct (Hfive "1001" fiveEvents eq_refl eq_refl)
    as (_ & _ & HP & HB & _ & _ & Hno).
  split; [exact HP|]. split; [exact HB|].
  apply Hno. intros ev Hin. simpl in Hin.
  repeat (destruct Hin as [<-|Hin]; [vm_compute; reflexivity|]).
  destruct Hin.
Defined.

(** C8 refuted as stated: five events of rule 1001, four of them
    blocked, each with a response time of 10 ms; the precision is 0.80
    and the block rate 80, and the analyser recommends to look at the
    latency. *)
Lemma slow_batch_gets_recommendation :
  let m := GetRuleMetrics (fed fiveSlowEvents) "1001" in
  length fiveSlowEvents = 5%nat /\
  length (batch "1001" fiveSlowEvents) = 5%nat /\
  count blocked fiveSlowEvents = 4 /\
  count (fun ev => negb (blocked ev)) fiveSlowEvents = 1 /\
  Precision <$> m = Some c0_8 /\
  BlockRate <$> m = Some 80%float /\
  Recommendations <$> m = Some [HighLatency 10%float] /\
  Recommendations <$> m <> Some [].
Proof.
  assert (Hrecs : Recommendations <$> GetRuleMetrics (fed fiveSlowEvents) "1001"
                  = Some [HighLatency 10%float]) by (vm_compute; reflexivity).
  cbv zeta. rewrite Hrecs.
  split; [reflexivity|]. split; [vm_compute; reflexivity|].
  split; [vm_compute; reflexivity|]. split; [vm_compute; reflexivity|].
  split; [vm_compute; reflexivity|]. split; [vm_compute; reflexivity|].
  split; [reflexivity|discriminate].
Qed.

End AnalysisInstances.

(** * Further properties of the code *)

(** ** The engine: rules that cannot decide, and rule admission *)

Section EngineFacts.
Import GoStrings Http Waf Spec EngineNotions.
Context `{GoRuntime}.

Lemma checkRule_enabled (rule : Rule) (r : Request) :
  checkRule rule r = true -> Enabled rule = true.
Proof.
  unfold checkRule. destruct (Enabled rule); [reflexivity|discriminate].
Qed.

Lemma checkPhase_prune (ph : RulePhase) (rs : list Rule) (r : Request) :
  In ph phaseOrder ->
  checkPhase ph (List.filter decisive rs) r = checkPhase ph rs r.
Proof.
  intros Hph. induction rs as [|rule rest IH]; [reflexivity|].
  cbn [List.filter]. destruct (decisive rule) eqn:Hd; cbn [checkPhase].
  - rewrite IH. reflexivity.
  - rewrite IH.
    destruct (String.eqb (Phase rule) ph) eqn:Eph; cbn [negb]; [|reflexivity].
    destruct (checkRule rule r) eqn:Ec; [|reflexivity].
    destruct (String.eqb (Action rule) ActionBlock) eqn:Ea; [|reflexivity].
    exfalso. unfold decisive in Hd.
    rewrite (checkRule_enabled rule r Ec), Ea in Hd. cbn [andb] in Hd.
    apply String.eqb_eq in Eph. unfold inRequestPhase, inPhase in Hd.
    rewrite Eph in Hd.
    destruct Hph as [<-|[<-|[<-|[]]]]; discriminate Hd.
Qed.

(** Disabled rules, rules whose action is not block and rules of another
    phase than the three request phases can be removed from the engine
    without changing the outcome of [Check] on any request. *)
Theorem Check_ignores_inert_rules (e : Engine) (r : Request) :
  Check (prune e) r = Check e r.
Proof.
  unfold Check, prune. cbn [rules].
  rewrite !checkPhase_prune by (unfold phaseOrder; simpl; auto).
  reflexivity.
Qed.

Lemma checkPhase_app (ph : RulePhase) (rs1 rs2 : list Rule) (r : Request) :
  checkPhase ph (rs1 ++ rs2) r =
  match checkPhase ph rs1 r with
  | Some d => Some d
  | None => checkPhase ph rs2 r
  end.
Proof.
  induction rs1 as [|rule rest IH]; [reflexivity|]. cbn [app checkPhase].
  destruct (negb (String.eqb (Phase rule) ph)); [exact IH|].
  destruct (checkRule rule r); [|exact IH].
  destruct (String.eqb (Action rule) ActionBlock); [reflexivity|exact IH].
Qed.

Lemma checkPhase_blocks (ph : RulePhase) (rs : list Rule) (r : Request) d :
  checkPhase ph rs r = Some d -> fst d = DecisionBlock.
Proof.
  induction rs as [|rule rest IH]; [discriminate|]. cbn [checkPhase].
  destruct (negb (String.eqb (Phase rule) ph)); [exact IH|].
  destruct (checkRule rule r); [|exact IH].
  destruct (String.eqb (Action rule) ActionBlock); [|exact IH].
  intros [= <-]. reflexivity.
Qed.

Lemma checkPhase_single_inert (ph : RulePhase) (rule : Rule) (r : Request) :
  checkRule rule r && String.eqb (Action rule) ActionBlock = false ->
  checkPhase ph [rule] r = None.
Proof.
  intros Hb.
  cbn [checkPhase]. destruct (negb (String.eqb (Phase rule) ph)); [reflexivity|].
  destruct (checkRule rule r); [|reflexivity].
  destruct (String.eqb (Action rule) ActionBlock); [discriminate|reflexivity].
Qed.

(** [AddRule] compiles the rule first.  A rule that does not compile is
    rejected: the call returns the error of the regexp library behind
    [failed to compile rule: ] and the engine stays as it was; an error
    is returned in no other case.  A rule that compiles is put last,
    behind the rules held before, in their order, and no error is
    returned.  A request that was blocked is still blocked afterwards
    (possibly by the new rule), and a request on which the new rule does
    not fire, or fires with another action than block, gets the outcome
    it had. *)
Theorem AddRule_extends (e : Engine) (rule : Rule) (r : Request) :
  let e' := fst (AddRule e rule) in
  (fst (Check e r) = DecisionBlock -> fst (Check e' r) = DecisionBlock) /\
  (forall msg, Compile rule = Err msg ->
     snd (AddRule e rule) = Some ("failed to compile rule: " +:+ msg) /\
     e' = e) /\
  (snd (AddRule e rule) <> None -> exists msg, Compile rule = Err msg) /\
  (forall rule', Compile rule = Ok rule' ->
     snd (AddRule e rule) = None /\
     rules e' = rules e ++ [rule'] /\
     (checkRule rule' r && String.eqb (Action rule') ActionBlock = false ->
      Check e' r = Check e r)).
Proof.
  cbv zeta. unfold AddRule.
  destruct (Compile rule) as [rule'|msg] eqn:E; cbn [fst snd].
  - split; [|split; [discriminate|split; [congruence|]]].
    + unfold Check. cbn [rules]. rewrite !checkPhase_app.
      destruct (checkPhase PhaseRequestHeaders (rules e) r) as [d|]; [auto|].
      destruct (checkPhase PhaseRequestHeaders [rule'] r) as [d|] eqn:E1;
        [intros _; exact (checkPhase_blocks _ _ _ _ E1)|].
      destruct (checkPhase PhaseRequestURI (rules e) r) as [d|]; [auto|].
      destruct (checkPhase PhaseRequestURI [rule'] r) as [d|] eqn:E2;
        [intros _; exact (checkPhase_blocks _ _ _ _ E2)|].
      destruct (checkPhase PhaseRequestBody (rules e) r) as [d|]; [auto|].
      discriminate.
    + intros rule'' [= <-]. split; [reflexivity|]. split; [reflexivity|].
      intros Hb. unfold Check. cbn [rules].
      rewrite !checkPhase_app, !(checkPhase_single_inert _ _ _ Hb).
      destruct (checkPhase PhaseRequestHeaders (rules e) r); [reflexivity|].
      destruct (checkPhase PhaseRequestURI (rules e) r); [reflexivity|].
      destruct (checkPhase PhaseRequestBody (rules e) r); reflexivity.
  - split; [auto|]. split; [intros msg' [= <-]; split; reflexivity|].
    split; [intros _; exists msg; reflexivity|]. intros rule' [=].
Qed.

(** ** Targets with one value and targets with many *)

Lemma prefixed_target_is_no_other (target : string) :
  HasPrefix target "REQUEST_HEADERS:" = true ->
  String.eqb target "REQUEST_URI" = false /\
  String.eqb target "REQUEST_BODY" = false.
Proof.
  unfold HasPrefix. intros Hp. apply prefix_iff in Hp as [post ->].
  split; reflexivity.
Qed.

(** A rule on the request URI or on a named header does not fire when
    that URI or header value is empty (a missing header reads as empty),
    whatever its operator.  A rule on all headers fires exactly when some
    stored value, empty or not, is matched. *)
Theorem empty_value_never_fires (rule : Rule) (r : Request) :
  (Target rule = "REQUEST_URI" -> RequestURI r = EmptyString ->
     checkRule rule r = false) /\
  (HasPrefix (Target rule) "REQUEST_HEADERS:" = true ->
     Header_Get (Header r) (TrimPrefix (Target rule) "REQUEST_HEADERS:")
       = EmptyString ->
     checkRule rule r = false) /\
  (Target rule = "REQUEST_HEADERS" ->
     (checkRule rule r = true <->
      exists name vs v, Header r !! name = Some vs /\ In v vs /\
                        Match rule v = true)).
Proof.
  split; [|split].
  - intros Ht Hu. unfold checkRule, matchNonEmpty. rewrite Ht, Hu. cbn.
    destruct (Enabled rule); reflexivity.
  - intros Hp Hg. unfold checkRule, matchNonEmpty.
    destruct (prefixed_target_is_no_other _ Hp) as [-> ->]. rewrite Hp, Hg. cbn.
    destruct (Enabled rule); reflexivity.
  - intros Ht. rewrite checkRule_targetData. unfold targetData, values.
    rewrite Ht. cbn. rewrite existsb_exists. split.
    + intros (v & Hin & HM). apply in_flat_map in Hin as ([name vs] & Hkv & Hv).
      apply list_elem_of_In, elem_of_map_to_list in Hkv.
      exists name, vs, v. auto.
    + intros (name & vs & v & Hl & Hv & HM). exists v. split; [|exact HM].
      apply in_flat_map. exists (name, vs). split; [|exact Hv].
      apply list_elem_of_In, elem_of_map_to_list. exact Hl.
Qed.

End EngineFacts.

(** ** Operators *)

Section OperatorFacts.
Import GoStrings Http Waf Spec EngineNotions.
Context `{GoRuntime}.

Lemma append_empty_r (s : string) : s +:+ EmptyString = s.
Proof.
  induction s as [|c s IH]; [reflexivity|].
  change (String c (s +:+ EmptyString) = String c s). f_equal. exact IH.
Qed.

Lemma append_assoc (a b c : string) : (a +:+ b) +:+ c = a +:+ (b +:+ c).
Proof.
  induction a as [|x a IH]; [reflexivity|].
  change (String x ((a +:+ b) +:+ c) = String x (a +:+ (b +:+ c))).
  f_equal. exact IH.
Qed.

Lemma prefix_refl (s : string) : String.prefix s s = true.
Proof. apply prefix_iff. exists EmptyString. symmetry. apply append_empty_r. Qed.

Lemma Contains_refl (s : string) : Contains s s = true.
Proof.
  destruct s; cbn [Contains]; rewrite prefix_refl; reflexivity.
Qed.

Lemma HasSuffix_refl (s : string) : HasSuffix s s = true.
Proof.
  unfold HasSuffix. rewrite Nat.leb_refl, Nat.sub_diag. cbn [drop_bytes andb].
  destruct s; apply String.eqb_refl.
Qed.

(** The operators on one pattern.  Where an enabled rule with operator
    equals matches, the same rule with contains, startswith or endswith
    matches as well; and not-contains is the negation of contains. *)
Theorem operators_on_one_pattern (rule : Rule) (data : string) :
  Enabled rule = true ->
  (Match (withOperator rule OpEquals) data = true ->
     data = Pattern rule /\
     Match (withOperator rule OpContains) data = true /\
     Match (withOperator rule OpStartsWith) data = true /\
     Match (withOperator rule OpEndsWith) data = true) /\
  Match (withOperator rule OpNotContains) data
    = negb (Match (withOperator rule OpContains) data).
Proof.
  intros Hen. unfold Match, withOperator. cbn. rewrite Hen. cbn. split.
  - intros Heq. apply String.eqb_eq in Heq. subst data.
    unfold HasPrefix. rewrite Contains_refl, prefix_refl, HasSuffix_refl.
    auto.
  - reflexivity.
Qed.

(** [Compile] fails only for a regex or not-regex rule whose pattern the
    regexp library refuses, and then with that library's error.  It
    returns every other rule unchanged.  A regex rule that compiled
    matches, when enabled, exactly the strings its compiled expression
    matches, and a not-regex rule exactly the others. *)
Theorem Compile_then_Match (rule : Rule) :
  (forall msg, Compile rule = Err msg ->
     (Operator rule = OpRegex \/ Operator rule = OpNotRegex) /\
     regexp_Compile (Pattern rule) = Err msg) /\
  (Operator rule <> OpRegex -> Operator rule <> OpNotRegex ->
     Compile rule = Ok rule) /\
  (forall rule', Compile rule = Ok rule' -> Enabled rule = true ->
     (Operator rule = OpRegex ->
        exists re, regexp_Compile (Pattern rule) = Ok re /\
                   forall data, Match rule' data = re data) /\
     (Operator rule = OpNotRegex ->
        exists re, regexp_Compile (Pattern rule) = Ok re /\
                   forall data, Match rule' data = negb (re data))).
Proof.
  unfold Compile. split; [|split].
  - intros msg.
    destruct (String.eqb (Operator rule) OpRegex) eqn:E1;
      [apply String.eqb_eq in E1|];
      (destruct (String.eqb (Operator rule) OpNotRegex) eqn:E2;
       [apply String.eqb_eq in E2|]); cbn [orb];
      try discriminate;
      destruct (regexp_Compile (Pattern rule)); try discriminate;
      intros [= <-]; auto.
  - intros H1 H2. apply String.eqb_neq in H1, H2. rewrite H1, H2. reflexivity.
  - intros rule' HC Hen. split; intros Hop; rewrite Hop in HC; cbn in HC;
      destruct (regexp_Compile (Pattern rule)) as [re|msg]; try discriminate;
      injection HC as <-; exists re; (split; [reflexivity|]); intros data;
      unfold Match, with_regex; cbn; rewrite Hen, Hop; reflexivity.
Qed.

(** ** The detectors on ASCII input *)

Lemma upper_lower_bytes (c : ascii) :
  lower_byte (upper_byte c) = lower_byte c /\
  lower_byte (lower_byte c) = lower_byte c /\
  isASCIIbyte (upper_byte c) = isASCIIbyte c /\
  isASCIIbyte (lower_byte c) = isASCIIbyte c.
Proof.
  assert (Hall : forallb (fun c =>
            Ascii.eqb (lower_byte (upper_byte c)) (lower_byte c)
            && Ascii.eqb (lower_byte (lower_byte c)) (lower_byte c)
            && Bool.eqb (isASCIIbyte (upper_byte c)) (isASCIIbyte c)
            && Bool.eqb (isASCIIbyte (lower_byte c)) (isASCIIbyte c))
            allBytes = true) by (vm_compute; reflexivity).
  rewrite forallb_forall in Hall. specialize (Hall c (in_allBytes c)).
  rewrite !andb_true_iff, !Ascii.eqb_eq in Hall.
  destruct Hall as [[[H1 H2] H3] H4].
  apply Bool.eqb_prop in H3, H4. auto.
Qed.

Lemma map_bytes_fold (f : ascii -> ascii) (s : string) :
  (forall c, lower_byte (f c) = lower_byte c) ->
  map_bytes lower_byte (map_bytes f s) = map_bytes lower_byte s.
Proof.
  intros Hf. induction s as [|c s IH]; cbn [map_bytes]; [reflexivity|].
  rewrite Hf, IH. reflexivity.
Qed.

Lemma isASCII_map_bytes (f : ascii -> ascii) (s : string) :
  (forall c, isASCIIbyte (f c) = isASCIIbyte c) ->
  isASCII (map_bytes f s) = isASCII s.
Proof.
  intros Hf. induction s as [|c s IH]; cbn [map_bytes isASCII]; [reflexivity|].
  rewrite Hf, IH. reflexivity.
Qed.

Lemma isASCII_app (a b : string) :
  isASCII (a +:+ b) = isASCII a && isASCII b.
Proof.
  induction a as [|c a IH]; [reflexivity|].
  change (isASCIIbyte c && isASCII (a +:+ b)
          = isASCIIbyte c && isASCII a && isASCII b).
  rewrite IH, andb_assoc. reflexivity.
Qed.

Lemma detectSQLi_ascii (s : string) :
  isASCII s = true ->
  (detectSQLi s = true <-> exists t, In t sqlPatterns /\ containsFold s t).
Proof.
  intros Hs. rewrite detectSQLi_iff.
  split; intros (t & Hin & Hc); exists t; (split; [exact Hin|]);
    rewrite (ToUpper_ascii s Hs), (ToUpper_ascii t (sqlPatterns_ascii t Hin)) in *;
    apply Contains_upper_iff; exact Hc.
Qed.

Lemma detectXSS_ascii (s : string) :
  isASCII s = true ->
  (detectXSS s = true <-> exists t, In t xssPatterns /\ containsFold s t).
Proof.
  intros Hs. rewrite detectXSS_iff.
  split; intros (t & Hin & Hc); exists t; (split; [exact Hin|]);
    destruct (xssPatterns_lower t Hin) as [Ha _];
    rewrite (ToLower_ascii s Hs), (ToLower_ascii t Ha) in *;
    apply Contains_lower_iff; exact Hc.
Qed.

Lemma containsFold_map (f : ascii -> ascii) (s t : string) :
  (forall c, lower_byte (f c) = lower_byte c) ->
  containsFold (map_bytes f s) t <-> containsFold s t.
Proof.
  intros Hf. rewrite <- !Contains_lower_iff, (map_bytes_fold f s Hf).
  reflexivity.
Qed.

Lemma containsFold_embed (pre s post t : string) :
  containsFold s t -> containsFold (pre +:+ s +:+ post) t.
Proof.
  intros (a & u & b & -> & Hf). exists (pre +:+ a), u, (b +:+ post).
  split; [|exact Hf].
  rewrite !append_assoc. reflexivity.
Qed.

Lemma bool_eq_iff (a b : bool) : (a = true <-> b = true) -> a = b.
Proof. destruct a, b; intuition congruence. Qed.

(** On ASCII input the SQLi and XSS detectors do not see letter case:
    they answer on a string as on its upper-cased and its lower-cased
    form.  And what they flag they still flag inside a longer string. *)
Theorem detectors_case_and_context (s : string) :
  isASCII s = true ->
  detectSQLi (map_bytes upper_byte s) = detectSQLi s /\
  detectSQLi (map_bytes lower_byte s) = detectSQLi s /\
  detectXSS (map_bytes upper_byte s) = detectXSS s /\
  detectXSS (map_bytes lower_byte s) = detectXSS s /\
  (forall pre post, isASCII pre = true -> isASCII post = true ->
     (detectSQLi s = true -> detectSQLi (pre +:+ s +:+ post) = true) /\
     (detectXSS s = true -> detectXSS (pre +:+ s +:+ post) = true)).
Proof.
  intros Hs.
  assert (Hu : forall c, lower_byte (upper_byte c) = lower_byte c)
    by (intros c; apply upper_lower_bytes).
  assert (Hl : forall c, lower_byte (lower_byte c) = lower_byte c)
    by (intros c; apply upper_lower_bytes).
  assert (Hsu : isASCII (map_bytes upper_byte s) = true)
    by (rewrite isASCII_map_bytes; [exact Hs|intros c; apply upper_lower_bytes]).
  assert (Hsl : isASCII (map_bytes lower_byte s) = true)
    by (rewrite isASCII_map_bytes; [exact Hs|intros c; apply upper_lower_bytes]).
  repeat apply conj.
  - apply bool_eq_iff. rewrite (detectSQLi_ascii _ Hsu), (detectSQLi_ascii _ Hs).
    split; intros (t & Hin & Hc); exists t; (split; [exact Hin|]);
      apply (containsFold_map upper_byte s t Hu); exact Hc.
  - apply bool_eq_iff. rewrite (detectSQLi_ascii _ Hsl), (detectSQLi_ascii _ Hs).
    split; intros (t & Hin & Hc); exists t; (split; [exact Hin|]);
      apply (containsFold_map lower_byte s t Hl); exact Hc.
  - apply bool_eq_iff. rewrite (detectXSS_ascii _ Hsu), (detectXSS_ascii _ Hs).
    split; intros (t & Hin & Hc); exists t; (split; [exact Hin|]);
      apply (containsFold_map upper_byte s t Hu); exact Hc.
  - apply bool_eq_iff. rewrite (detectXSS_ascii _ Hsl), (detectXSS_ascii _ Hs).
    split; intros (t & Hin & Hc); exists t; (split; [exact Hin|]);
      apply (containsFold_map lower_byte s t Hl); exact Hc.
  - intros pre post Hpre Hpost.
    assert (Ha : isASCII (pre +:+ s +:+ post) = true)
      by (rewrite !isASCII_app, Hpre, Hs, Hpost; reflexivity).
    split; intros Hd.
    + apply (detectSQLi_ascii _ Ha). apply (detectSQLi_ascii _ Hs) in Hd.
      destruct Hd as (t & Hin & Hc). exists t. split; [exact Hin|].
      apply containsFold_embed. exact Hc.
    + apply (detectXSS_ascii _ Ha). apply (detectXSS_ascii _ Hs) in Hd.
      destruct Hd as (t & Hin & Hc). exists t. split; [exact Hin|].
      apply containsFold_embed. exact Hc.
Qed.

End OperatorFacts.

(** ** The proxy: body interception, outcomes, response writer *)

Section ProxyFacts.
Import GoStrings Http Waf Config Proxy Spec ProxyWriter.
Context `{GoRuntime}.

(** [InterceptRequest] touches nothing of the request but its body.  A
    body that was read to its end is replaced by a reader of the same
    bytes, so a second reader gets what the first got, and intercepting
    again changes nothing.  The body is captured only when the declared
    length is positive: with a length of zero or an unknown length (-1,
    as for a chunked body) nothing is read and nothing captured.  A read
    that fails is reported and the interceptor keeps what it held, but
    the bytes delivered before the failure are lost: they are not
    captured, and the request is left with a reader that has nothing
    more to give. *)
Theorem InterceptRequest_preserves (ri : RequestInterceptor) (r : Request) :
  let '(ri', r', err) := InterceptRequest ri r in
  (Method r' = Method r /\ RequestURI r' = RequestURI r /\
   RemoteAddr r' = RemoteAddr r /\ Header r' = Header r /\
   URLQuery r' = URLQuery r /\ ContentLength r' = ContentLength r) /\
  (forall data, Body r = Some (Reader data) -> ContentLength r > 0 ->
     GetBody ri' = data /\ err = None /\ Body r' = Some (Reader data) /\
     InterceptRequest ri' r' = (ri', r', None)) /\
  (ContentLength r <= 0 \/ Body r = None -> ri' = ri /\ r' = r /\ err = None) /\
  (forall data e, Body r = Some (FailingReader data e) -> ContentLength r > 0 ->
     ri' = ri /\ err = Some e /\
     Body r' = Some (FailingReader EmptyString e) /\
     fst (io_ReadAll (FailingReader EmptyString e)) = (EmptyString, Some e)).
Proof.
  unfold InterceptRequest.
  destruct r as [m u a h q sch b cl]. cbn [Http.Body Http.ContentLength].
  destruct b as [[data|data e]|]; destruct (cl >? 0) eqn:Ecl; cbn;
    rewrite ?Ecl; cbn;
    (split; [repeat split|]);
    (split; [intros ? [=]; subst; try lia; auto|]);
    (split; [intros [?|[=]]; try lia; auto|]);
    intros ? ? [=]; subst; try lia; auto.
Qed.

Lemma interceptLog_logs (r : Request) : forallb isLogEffect (interceptLog r) = true.
Proof. unfold interceptLog. destruct (snd _); reflexivity. Qed.

Lemma delivered_log `{GoTransport} (p : Proxy) (log : list effect) :
  forallb isLogEffect log = true -> delivered p log = log.
Proof.
  induction log as [|e log IH]; [reflexivity|]. cbn [forallb].
  intros [He Hl]%andb_true_iff. unfold delivered in *. cbn [flat_map].
  rewrite (IH Hl). destruct e; try discriminate He; reflexivity.
Qed.

(** Every request has exactly one of two outcomes.  Either the handler
    writes 403 and [Forbidden] and does not call the reverse proxy, or it
    calls the reverse proxy once, with the intercepted request, and
    writes nothing itself.  It refuses exactly when the engine's decision
    is block and neither mode is set, or interactive is set and the first
    word of the answer is neither [a] nor [A]; what precedes the outcome
    are log lines and, at most, the prompt.  The reverse proxy, as
    [NewProxy] sets it up, sends the request with the URL scheme it came
    with; it copies the response of the origin to the client, and on an
    error of the transport it logs the error and answers 502 and
    [Bad Gateway].  So a request whose URL has no scheme, as every
    request for a path has, ends in 403 or in 502 and never in a response
    of the origin. *)
Theorem handleRequest_outcome `{GoTransport} (p : Proxy) (r : Request)
    (stdin : string) :
  (exists log,
     forallb isLogEffect log = true /\
     trace (handleRequest p r stdin) =
     log ++ (if refuses p r stdin then refusal
             else [ServeUpstream (intercepted r)])) /\
  (reverseProxy p = reverseProxy (NewProxy (config p)) ->
   (forall req,
      URLScheme (outgoing (reverseProxy p) req) = URLScheme req /\
      trace (forward p req) =
      match http_RoundTrip (outgoing (reverseProxy p) req) with
      | Ok res => WriteHeader (StatusCode res) :: map Write (BodyChunks res)
      | Err err => [LogError ("Proxy error: " +:+ err);
                    WriteHeader 502; Write "Bad Gateway"]
      end) /\
   (refusesOtherSchemes ->
    URLScheme r <> "http" -> URLScheme r <> "https" ->
    exists log err,
      forallb isLogEffect log = true /\
      delivered p (trace (handleRequest p r stdin)) =
      log ++ (if refuses p r stdin then refusal
              else [LogError ("Proxy error: " +:+ err);
                    WriteHeader 502; Write "Bad Gateway"]))).
Proof.
  assert (Hout : exists log,
            forallb isLogEffect log = true /\
            trace (handleRequest p r stdin) =
            log ++ (if refuses p r stdin then refusal
                    else [ServeUpstream (intercepted r)])).
  { rewrite handleRequest_trace. unfold refuses.
    pose proof (interceptLog_logs r) as HL.
    destruct (Check (wafEngine p) r) as [[] reason]; cbn [fst].
    - exists (interceptLog r). auto.
    - destruct (Interactive (config p)).
      + exists (interceptLog r ++ [LogBlock ("Request blocked: " +:+ reason);
                                  Prompt reason]).
        split; [rewrite forallb_app, HL; reflexivity|].
        rewrite <- app_assoc. destruct (admits (GoFmt.Scanln stdin)); reflexivity.
      + exists (interceptLog r ++ [LogBlock ("Request blocked: " +:+ reason)]).
        split; [rewrite forallb_app, HL; reflexivity|].
        rewrite <- app_assoc. destruct (DryRun (config p)); reflexivity.
    - exists (interceptLog r). auto. }
  split; [exact Hout|]. intros Hrp.
  split; [intros req; split;
          [apply (outgoing_scheme p req Hrp)|apply (forward_trace p req Hrp)]|].
  intros Hlaw Hh Hs. destruct Hout as (log & Hlog & ->).
  destruct (forward_bad_gateway p r Hrp Hlaw Hh Hs) as (err & _ & Ht).
  exists log, err. split; [exact Hlog|].
  unfold delivered at 1. rewrite flat_map_app.
  fold (delivered p log). rewrite (delivered_log p log Hlog).
  destruct (refuses p r stdin); cbn [flat_map refusal]; [reflexivity|].
  rewrite Ht. reflexivity.
Qed.

(** *** The response writer wrapper *)

Lemma performAll_written (calls : list call) (rw : responseWriter) :
  written rw = true ->
  performAll rw calls =
  (map Write (chunks calls),
   {| statusCode := statusCode rw;
      body := body rw +:+ joined (chunks calls);
      written := true |}).
Proof.
  revert rw. induction calls as [|c calls IH]; intros rw Hw.
  - cbn. rewrite append_empty_r. destruct rw; cbn in *; subst; reflexivity.
  - destruct c as [code|b]; cbn [performAll perform].
    + unfold responseWriter_WriteHeader. rewrite Hw. cbn.
      rewrite (IH rw Hw). reflexivity.
    + unfold responseWriter_Write. rewrite Hw. cbn.
      rewrite IH by exact Hw. cbn. rewrite append_assoc. reflexivity.
Qed.

(** Whatever a handler calls on a fresh wrapper, the wrapped writer gets
    one header, the one of the first call (200 if that is a write),
    followed by the chunks written, in order; later [WriteHeader] calls
    are dropped.  The wrapper has captured that status and the
    concatenation of the chunks. *)
Theorem responseWriter_first_status_wins (calls : list call) :
  calls <> [] ->
  performAll newResponseWriter calls =
  (WriteHeader (firstStatus calls) :: map Write (chunks calls),
   {| statusCode := firstStatus calls;
      body := joined (chunks calls);
      written := true |}).
Proof.
  intros Hne. destruct calls as [|[code|b] calls]; [congruence| |].
  - cbn [performAll perform]. unfold responseWriter_WriteHeader. cbn.
    rewrite performAll_written by reflexivity. reflexivity.
  - cbn [performAll perform]. unfold responseWriter_Write, responseWriter_WriteHeader.
    cbn. rewrite performAll_written by reflexivity. reflexivity.
Qed.

(** *** The director *)

Lemma Header_Add_lookup (h : gmap string (list string)) (key value k : string) :
  Header_Add h key value !! k =
  if decide (textproto_CanonicalMIMEHeaderKey key = k)
  then Some (default [] (h !! k) ++ [value])
  else h !! k.
Proof.
  unfold Header_Add. destruct (decide _) as [<-|Hne].
  - apply lookup_insert_eq.
  - apply lookup_insert_ne. exact Hne.
Qed.

(** The director appends and never replaces: under each of the three
    forwarding headers the values the client sent stay in front of the
    one the proxy adds, so a forwarding header sent by the client is
    still the first value, and every other header is untouched.  (The
    library is asked to leave these four keys, which are in canonical
    form, as they are.) *)
Theorem Director_appends (req : Request) :
  textproto_CanonicalMIMEHeaderKey "X-Forwarded-For" = "X-Forwarded-For" ->
  textproto_CanonicalMIMEHeaderKey "X-Forwarded-Proto" = "X-Forwarded-Proto" ->
  textproto_CanonicalMIMEHeaderKey "X-Forwarded-Host" = "X-Forwarded-Host" ->
  textproto_CanonicalMIMEHeaderKey "Host" = "Host" ->
  let old k := default [] (Header req !! k) in
  let h' := Header (Director req) in
  h' !! "X-Forwarded-For" = Some (old "X-Forwarded-For" ++ [RemoteAddr req]) /\
  h' !! "X-Forwarded-Proto" = Some (old "X-Forwarded-Proto" ++ ["http"]) /\
  h' !! "X-Forwarded-Host"
    = Some (old "X-Forwarded-Host" ++ [Header_Get (Header req) "Host"]) /\
  (forall k, k <> "X-Forwarded-For" -> k <> "X-Forwarded-Proto" ->
     k <> "X-Forwarded-Host" -> h' !! k = Header req !! k) /\
  Method (Director req) = Method req /\
  RequestURI (Director req) = RequestURI req /\
  Body (Director req) = Body req.
Proof.
  intros HF HP HH HHost old h'. subst old h'. unfold Director.
  cbn [Header withHeader RemoteAddr Method RequestURI Body].
  assert (HG : Header_Get
                 (Header_Add (Header_Add (Header req) "X-Forwarded-For" (RemoteAddr req))
                    "X-Forwarded-Proto" "http") "Host"
               = Header_Get (Header req) "Host").
  { unfold Header_Get. rewrite HHost, !Header_Add_lookup, HF, HP.
    repeat (destruct (decide _) as [Heq|_]; [discriminate Heq|]). reflexivity. }
  rewrite HG, !Header_Add_lookup, HF, HP, HH.
  repeat split;
    repeat (destruct (decide _) as [Heq|Hne];
            try discriminate Heq; try congruence); try reflexivity.
  intros k H1 H2 H3. rewrite !Header_Add_lookup, HF, HP, HH.
  repeat (destruct (decide _) as [Heq|_]; [congruence|]). reflexivity.
Qed.

End ProxyFacts.

(** ** The analyser: counters, groups and queries *)

Section AnalyserFacts.
Import Analysis SpecAnalysis AnalysisQueries.

(** Adding events appends them in order, counts each one in
    [totalRequests] and the blocked ones in [totalBlocked], and leaves
    the metrics alone; so on an analyser built from a new one the blocked
    count never exceeds the request count, which is the number of events
    held. *)
Theorem AddEvent_counts (evs : list Event) :
  (forall ea,
     events (addAll ea evs) = events ea ++ evs /\
     totalRequests (addAll ea evs) = totalRequests ea + Z.of_nat (length evs) /\
     totalBlocked (addAll ea evs) = totalBlocked ea + count blocked evs /\
     ruleMetrics (addAll ea evs) = ruleMetrics ea) /\
  let ea := addAll NewEfficacyAnalyzer evs in
  events ea = evs /\
  totalRequests ea = Z.of_nat (length (events ea)) /\
  0 <= totalBlocked ea <= totalRequests ea.
Proof.
  assert (Hgen : forall ea,
     events (addAll ea evs) = events ea ++ evs /\
     totalRequests (addAll ea evs) = totalRequests ea + Z.of_nat (length evs) /\
     totalBlocked (addAll ea evs) = totalBlocked ea + count blocked evs /\
     ruleMetrics (addAll ea evs) = ruleMetrics ea).
  { unfold addAll. induction evs as [|ev evs IH]; intros ea.
    - unfold count. cbn. rewrite app_nil_r. repeat split; lia.
    - cbn [foldl]. destruct (IH (AddEvent ea ev)) as (He & Hr & Hb & Hm).
      rewrite He, Hr, Hb, Hm. unfold AddEvent at 1 2 3 4.
      cbn [events totalRequests totalBlocked ruleMetrics].
      rewrite count_cons, <- app_assoc. unfold blocked. cbn [length].
      destruct (isTrue ev "blocked"); repeat split; lia. }
  split; [exact Hgen|]. cbv zeta.
  destruct (Hgen NewEfficacyAnalyzer) as (He & Hr & Hb & _).
  cbn in He, Hr, Hb. rewrite He, Hr, Hb.
  pose proof (count_split blocked evs) as Hs.
  assert (0 <= count blocked evs) by (unfold count; lia).
  assert (0 <= count (fun ev => negb (blocked ev)) evs) by (unfold count; lia).
  repeat split; lia.
Qed.

(** *** Which entries an analysis writes *)

Lemma attributedTo_filed (ruleID : string) (ev : Event) :
  ruleID <> EmptyString ->
  attributedTo ruleID ev = bool_decide (filedUnder ev = Some ruleID).
Proof.
  intros Hne. unfold attributedTo, filedUnder.
  destruct (asString ev "rule_id") as [id|]; [|reflexivity].
  destruct (String.eqb id EmptyString) eqn:E.
  - apply String.eqb_eq in E. subst id.
    destruct (String.eqb EmptyString ruleID) eqn:E'.
    + apply String.eqb_eq in E'. congruence.
    + symmetry. apply bool_decide_eq_false. discriminate.
  - destruct (String.eqb id ruleID) eqn:E'.
    + apply String.eqb_eq in E'. subst. symmetry. apply bool_decide_eq_true.
      reflexivity.
    + apply String.eqb_neq in E'. symmetry. apply bool_decide_eq_false.
      congruence.
Qed.

Lemma group_lookup_empty (evs : list Event) (g : gmap string (list Event)) :
  foldl groupEvent g evs !! EmptyString = g !! EmptyString.
Proof.
  revert g. induction evs as [|ev evs IH]; intros g; [reflexivity|].
  cbn [foldl]. rewrite IH. unfold groupEvent.
  destruct (asString ev "rule_id") as [id|]; [|reflexivity].
  destruct (String.eqb id EmptyString) eqn:E; [reflexivity|].
  apply String.eqb_neq in E. apply lookup_insert_ne. exact E.
Qed.

(** The metrics under any identifier after an analysis. *)
Lemma AnalyzeRules_lookup_any (ea : EfficacyAnalyzer) (ruleID : string) :
  ruleMetrics (AnalyzeRules ea) !! ruleID =
  match groupByRule (events ea) !! ruleID with
  | Some evs =>
    let m := calculateRuleMetrics ruleID evs in
    Some (withRecommendations m (generateRecommendations m))
  | None => ruleMetrics ea !! ruleID
  end.
Proof.
  unfold AnalyzeRules. cbn [ruleMetrics].
  rewrite analyze_lookup by apply NoDup_fst_map_to_list.
  rewrite list_to_map_to_list. reflexivity.
Qed.

Lemma groupByRule_lookup (evs : list Event) (ruleID : string) :
  groupByRule evs !! ruleID =
  if String.eqb ruleID EmptyString then None
  else match batch ruleID evs with [] => None | l => Some l end.
Proof.
  unfold groupByRule. destruct (String.eqb ruleID EmptyString) eqn:E.
  - apply String.eqb_eq in E. subst. rewrite group_lookup_empty. apply lookup_empty.
  - apply String.eqb_neq in E. rewrite (group_lookup _ _ _ E), lookup_empty.
    destruct (batch ruleID evs); reflexivity.
Qed.

Lemma generateRecommendations_with (m : RuleMetrics) recs :
  generateRecommendations (withRecommendations m recs) = generateRecommendations m.
Proof. reflexivity. Qed.


End AnalyserFacts.

(** *** Every filed event is counted once *)

Section GroupSums.
Import Analysis SpecAnalysis AnalysisQueries.

Lemma foldr_add_perm (l l' : list Z) :
  l ≡ₚ l' -> foldr Z.add 0 l = foldr Z.add 0 l'.
Proof. induction 1; cbn; lia. Qed.

Lemma sumValues_insert_fresh (m : gmap string Z) (k : string) (v : Z) :
  m !! k = None -> sumValues (<[k:=v]> m) = v + sumValues m.
Proof.
  intros Hk. unfold sumValues.
  rewrite (foldr_add_perm _ ((k, v) :: map_to_list m).*2); [reflexivity|].
  apply fmap_Permutation, map_to_list_insert. exact Hk.
Qed.

Lemma sumValues_insert (m : gmap string Z) (k : string) (v : Z) :
  sumValues (<[k:=v]> m) = v + sumValues m - default 0 (m !! k).
Proof.
  destruct (m !! k) as [old|] eqn:Hk; cbn [default from_option].
  - rewrite <- (insert_delete_eq m k v).
    rewrite sumValues_insert_fresh by apply lookup_delete_eq.
    rewrite <- (insert_id m k old Hk) at 2.
    rewrite <- (insert_delete_eq m k old).
    rewrite sumValues_insert_fresh by apply lookup_delete_eq. unfold id. lia.
  - rewrite sumValues_insert_fresh by exact Hk. unfold id. lia.
Qed.

Lemma weight_snoc (w : Event -> Z) (evs : list Event) (ev : Event) :
  weight w (evs ++ [ev]) = weight w evs + w ev.
Proof.
  unfold weight. induction evs as [|e evs IH]; cbn; [lia|].
  cbn in IH. rewrite IH. lia.
Qed.

Lemma groupEvent_weight (w : Event -> Z) (g : gmap string (list Event)) (ev : Event) :
  sumValues (weight w <$> groupEvent g ev) =
  sumValues (weight w <$> g) + (if isFiled ev then w ev else 0).
Proof.
  unfold groupEvent, isFiled, filedUnder.
  destruct (asString ev "rule_id") as [id|]; [|lia].
  destruct (String.eqb id EmptyString); [lia|].
  rewrite fmap_insert, sumValues_insert, lookup_fmap, weight_snoc.
  destruct (g !! id); cbn; unfold weight; lia.
Qed.

Lemma groups_weight (w : Event -> Z) (evs : list Event) (g : gmap string (list Event)) :
  sumValues (weight w <$> foldl groupEvent g evs) =
  sumValues (weight w <$> g) + weight w (List.filter isFiled evs).
Proof.
  revert g. induction evs as [|ev evs IH]; intros g.
  - unfold weight. cbn. lia.
  - cbn [foldl List.filter]. rewrite IH, groupEvent_weight.
    destruct (isFiled ev); unfold weight; cbn; lia.
Qed.

Lemma weight_one (evs : list Event) : weight one evs = Z.of_nat (length evs).
Proof. unfold weight, one. induction evs as [|e evs IH]; cbn in *; lia. Qed.

Lemma weight_blocked (evs : list Event) : weight oneIfBlocked evs = count blocked evs.
Proof.
  unfold weight, oneIfBlocked. induction evs as [|e evs IH]; [reflexivity|].
  rewrite count_cons. cbn in *. rewrite IH. reflexivity.
Qed.

Lemma weight_allowed (evs : list Event) :
  weight oneIfAllowed evs = count (fun ev => negb (blocked ev)) evs.
Proof.
  unfold weight, oneIfAllowed. induction evs as [|e evs IH]; [reflexivity|].
  rewrite count_cons. cbn in *. rewrite IH. destruct (blocked e); reflexivity.
Qed.

Lemma fresh_metrics_field (ea : EfficacyAnalyzer) (field : RuleMetrics -> Z)
    (w : Event -> Z) :
  ruleMetrics ea = ∅ ->
  (forall id evs recs,
     field (withRecommendations (calculateRuleMetrics id evs) recs)
     = weight w evs) ->
  field <$> ruleMetrics (AnalyzeRules ea) = weight w <$> groupByRule (events ea).
Proof.
  intros Hfresh Hfield. apply map_eq. intros id.
  rewrite !lookup_fmap, AnalyzeRules_lookup_any, Hfresh, lookup_empty.
  destruct (groupByRule (events ea) !! id) as [evs|]; [|reflexivity].
  cbn -[calculateRuleMetrics generateRecommendations withRecommendations].
  f_equal. apply Hfield.
Qed.

(** On a new analyser, an analysis files every event that carries a
    non-empty string as rule identifier under exactly one rule: over all
    rules the total triggers add up to the number of such events, the
    true positives to the number of those that were blocked, the false
    positives to the number of the others. *)
Theorem every_filed_event_counted_once (ea : EfficacyAnalyzer) :
  ruleMetrics ea = ∅ ->
  let rm := ruleMetrics (AnalyzeRules ea) in
  let filed := List.filter isFiled (events ea) in
  sumValues (TotalTriggers <$> rm) = Z.of_nat (length filed) /\
  sumValues (TruePositives <$> rm) = count blocked filed /\
  sumValues (FalsePositives <$> rm) = count (fun ev => negb (blocked ev)) filed.
Proof.
  intros Hfresh rm filed. subst rm filed.
  assert (Hsum : forall w, sumValues (weight w <$> groupByRule (events ea))
                           = weight w (List.filter isFiled (events ea))).
  { intros w. unfold groupByRule. rewrite groups_weight, fmap_empty.
    unfold sumValues. rewrite map_to_list_empty. reflexivity. }
  split; [|split].
  - rewrite (fresh_metrics_field ea TotalTriggers one Hfresh), Hsum;
      [apply weight_one|].
    intros id evs recs. rewrite weight_one. reflexivity.
  - rewrite (fresh_metrics_field ea TruePositives oneIfBlocked Hfresh), Hsum;
      [apply weight_blocked|].
    intros id evs recs. rewrite weight_blocked.
    apply (metrics_counts id evs).
  - rewrite (fresh_metrics_field ea FalsePositives oneIfAllowed Hfresh), Hsum;
      [apply weight_allowed|].
    intros id evs recs. rewrite weight_allowed.
    apply (metrics_counts id evs).
Qed.

End GroupSums.

(** *** The queries on the metrics *)

Section QueryFacts.
Import Analysis SpecAnalysis AnalysisQueries.
Context `{GoSort}.

Lemma in_allMetrics (ea : EfficacyAnalyzer) (m : RuleMetrics) :
  In m (allMetrics ea) <-> exists id, ruleMetrics ea !! id = Some m.
Proof.
  unfold allMetrics. rewrite <- list_elem_of_In, list_elem_of_fmap. split.
  - intros ([id m'] & -> & Hin). exists id.
    apply elem_of_map_to_list. exact Hin.
  - intros (id & Hl). exists (id, m). split; [reflexivity|].
    apply elem_of_map_to_list. exact Hl.
Qed.

Lemma consistent_new : consistent NewEfficacyAnalyzer.
Proof. intros id m Hl. cbn in Hl. rewrite lookup_empty in Hl. discriminate. Qed.

Lemma consistent_AddEvent (ea : EfficacyAnalyzer) (ev : Event) :
  consistent ea -> consistent (AddEvent ea ev).
Proof. intros Hc id m Hl. exact (Hc id m Hl). Qed.

Lemma consistent_AnalyzeRules (ea : EfficacyAnalyzer) :
  consistent ea -> consistent (AnalyzeRules ea).
Proof.
  intros Hc id m Hl. rewrite AnalyzeRules_lookup_any in Hl.
  destruct (groupByRule (events ea) !! id) as [evs|]; [|exact (Hc id m Hl)].
  cbv zeta in Hl. injection Hl as <-. split; reflexivity.
Qed.

(** [GetProblematicRules] returns, in some order, the stored records
    with FP > 0 and a precision below 0.80.  On an analyser that was
    built from a new one by adding events and analysing, these are
    exactly the records whose recommendations hold the high false
    positive rate sentence, each stored under its own identifier. *)
Theorem problematic_rules_are_the_warned (ea : EfficacyAnalyzer) :
  sortPermutes ->
  (forall m, In m (GetProblematicRules ea) <->
     (exists id, ruleMetrics ea !! id = Some m) /\
     FalsePositives m > 0 /\ PrimFloat.ltb (Precision m) c0_8 = true) /\
  (consistent ea ->
   forall m, In m (GetProblematicRules ea) <->
     ruleMetrics ea !! RuleID m = Some m /\
     warnsFalsePositives (Recommendations m)) /\
  consistent NewEfficacyAnalyzer /\
  (consistent ea ->
   consistent (AnalyzeRules ea) /\ forall ev, consistent (AddEvent ea ev)).
Proof.
  intros Hsort.
  assert (Hin : forall m, In m (GetProblematicRules ea) <->
     (exists id, ruleMetrics ea !! id = Some m) /\
     FalsePositives m > 0 /\ PrimFloat.ltb (Precision m) c0_8 = true).
  { intros m. unfold GetProblematicRules.
    rewrite <- list_elem_of_In, (Hsort _ _ _), list_elem_of_In, filter_In,
      in_allMetrics.
    unfold isProblematic. rewrite andb_true_iff, Z.gtb_lt. intuition lia. }
  split; [exact Hin|]. split; [|split; [exact consistent_new|]].
  - intros Hc m. rewrite Hin. split.
    + intros ((id & Hl) & Hfp & Hp). destruct (Hc id m Hl) as [Hid Hrec].
      rewrite Hid, Hrec. split; [exact Hl|]. apply warns_iff. auto.
    + intros (Hl & Hw). destruct (Hc _ m Hl) as [_ Hrec].
      rewrite Hrec in Hw. apply warns_iff in Hw. split; [eauto|exact Hw].
  - intros Hc. split; [apply consistent_AnalyzeRules; exact Hc|].
    intros ev. apply consistent_AddEvent. exact Hc.
Qed.

(** [GetTopRules] with a negative count stops the program: the slice
    expression is out of range whatever the analyser holds.  With a
    count of zero or more it returns that many stored records, or all of
    them when there are fewer. *)
Theorem GetTopRules_count (ea : EfficacyAnalyzer) (n : Z) :
  sortPermutes ->
  (n < 0 -> GetTopRules ea n = None) /\
  (0 <= n ->
   exists l, GetTopRules ea n = Some l /\
     Z.of_nat (length l) = Z.min n (Z.of_nat (size (ruleMetrics ea))) /\
     forall m, In m l -> exists id, ruleMetrics ea !! id = Some m).
Proof.
  intros Hsort. unfold GetTopRules.
  set (rules := sort_Slice _ (allMetrics ea)).
  assert (Hperm : rules ≡ₚ allMetrics ea) by apply Hsort.
  assert (Hlen : length rules = size (ruleMetrics ea)).
  { rewrite Hperm. unfold allMetrics. rewrite length_fmap.
    apply length_map_to_list. }
  assert (Hstored : forall m, In m rules -> exists id, ruleMetrics ea !! id = Some m).
  { intros m Hm. apply in_allMetrics.
    apply list_elem_of_In. rewrite <- Hperm. apply list_elem_of_In. exact Hm. }
  split.
  - intros Hn. destruct (Z.gtb_spec (Z.of_nat (length rules)) n); [|lia].
    destruct (Z.ltb_spec n 0); [reflexivity|lia].
  - intros Hn. destruct (Z.gtb_spec (Z.of_nat (length rules)) n).
    + destruct (Z.ltb_spec n 0); [lia|].
      exists (take (Z.to_nat n) rules). split; [reflexivity|]. split.
      * rewrite length_take. lia.
      * intros m Hm. apply Hstored.
        apply list_elem_of_In. apply list_elem_of_In in Hm.
        apply elem_of_take in Hm as (i & Hi & _).
        eapply list_elem_of_lookup_2. exact Hi.
    + exists rules. split; [reflexivity|]. split; [lia|exact Hstored].
Qed.

End QueryFacts.

(** *** What the metrics of a rule say of its events *)

Section MetricsFacts.
Import Analysis SpecAnalysis AnalysisQueries.

Lemma omap_step {A B} (f : A -> option B) (x : A) (l : list A) :
  omap f (x :: l) = match f x with Some y => y :: omap f l | None => omap f l end.
Proof. reflexivity. Qed.

Lemma tally_patterns (evs : list Event) (t : Tally) (reason : string) :
  reason ∈ patternMap (foldl tallyEvent t evs) <->
  reason ∈ patternMap t \/ In reason (reasons evs).
Proof.
  revert t. induction evs as [|ev evs IH]; intros t.
  - cbn. intuition.
  - cbn [foldl]. rewrite IH. unfold reasons. rewrite omap_step.
    cbn [tallyEvent patternMap].
    destruct (asString ev "reason") as [s|]; [|reflexivity].
    destruct (String.eqb s EmptyString); [reflexivity|].
    cbn [In]. rewrite elem_of_union, elem_of_singleton.
    intuition (subst; auto).
Qed.

Lemma tally_name (evs : list Event) (t : Tally) :
  ruleName (foldl tallyEvent t evs) =
  default (ruleName t)
    (last (omap (fun ev => asString ev "rule_name") evs)).
Proof.
  revert t. induction evs as [|ev evs IH]; intros t; [reflexivity|].
  cbn [foldl]. rewrite IH, omap_step. cbn [tallyEvent ruleName].
  destruct (asString ev "rule_name") as [name|]; [|reflexivity].
  rewrite last_cons.
  destruct (last (omap (fun ev0 => asString ev0 "rule_name") evs));
    reflexivity.
Qed.

Lemma tally_latency (evs : list Event) (t : Tally) :
  totalLatency (foldl tallyEvent t evs)
  = foldl PrimFloat.add (totalLatency t) (latencies evs).
Proof.
  revert t. induction evs as [|ev evs IH]; intros t; [reflexivity|].
  cbn [foldl]. rewrite IH. unfold latencies. rewrite omap_step.
  cbn [tallyEvent totalLatency].
  destruct (asFloat ev "response_time_ms"); reflexivity.
Qed.

Lemma tally_no_extremes (evs : list Event) (t : Tally) :
  latencies evs = [] ->
  minLatency (foldl tallyEvent t evs) = minLatency t /\
  maxLatency (foldl tallyEvent t evs) = maxLatency t.
Proof.
  revert t. induction evs as [|ev evs IH]; intros t Hno; [auto|].
  unfold latencies in Hno. rewrite omap_step in Hno.
  destruct (asFloat ev "response_time_ms") as [f|] eqn:E; [discriminate|].
  cbn [foldl]. destruct (IH (tallyEvent t ev) Hno) as [-> ->].
  cbn [tallyEvent minLatency maxLatency]. rewrite E. auto.
Qed.

(** The attack patterns of a rule are the distinct non-empty reasons of
    its events, each once; its name is the rule name of the last event
    that carries one, and empty when none does. *)
Theorem metrics_patterns_and_name (ruleID : string) (evs : list Event) :
  let m := calculateRuleMetrics ruleID evs in
  NoDup (AttackPatterns m) /\
  (forall reason, In reason (AttackPatterns m) <-> In reason (reasons evs)) /\
  ~ In EmptyString (AttackPatterns m) /\
  RuleName m
    = default EmptyString (last (omap (fun ev => asString ev "rule_name") evs)) /\
  RuleID m = ruleID.
Proof.
  cbv zeta. unfold calculateRuleMetrics. cbn [AttackPatterns RuleName RuleID].
  assert (Hin : forall reason,
            In reason (elements (patternMap (foldl tallyEvent tally0 evs)))
            <-> In reason (reasons evs)).
  { intros reason. rewrite <- list_elem_of_In, elem_of_elements, tally_patterns.
    cbn [tally0 patternMap]. rewrite elem_of_empty. intuition. }
  split; [apply NoDup_elements|]. split; [exact Hin|]. split.
  - rewrite Hin. unfold reasons. rewrite <- list_elem_of_In, list_elem_of_omap.
    intros (ev & _ & Hev). destruct (asString ev "reason") as [s|]; [|discriminate].
    destruct (String.eqb s EmptyString) eqn:E; [discriminate|].
    injection Hev as ->. discriminate.
  - split; [|reflexivity]. rewrite tally_name. reflexivity.
Qed.

(** The average latency of a rule is the sum of the response times its
    events carry divided by the number of all its events: an event
    without a response time adds nothing to the sum and one to the
    divisor.  When no event carries a response time the sum is 0, and
    the minimum and the maximum are reported as 0. *)
Theorem latency_averages_over_all_events (ruleID : string) (evs : list Event) :
  evs <> [] ->
  let m := calculateRuleMetrics ruleID evs in
  AvgLatencyMs m
    = PrimFloat.div (foldl PrimFloat.add 0%float (latencies evs))
        (float_of_int64 (Z.of_nat (length evs))) /\
  (latencies evs = [] ->
     AvgLatencyMs m = PrimFloat.div 0%float (float_of_int64 (Z.of_nat (length evs)))
     /\ MinLatencyMs m = 0%float /\ MaxLatencyMs m = 0%float).
Proof.
  intros Hne. cbv zeta. unfold calculateRuleMetrics.
  cbn [AvgLatencyMs MinLatencyMs MaxLatencyMs].
  assert (Hpos : (Z.of_nat (length evs) >? 0) = true)
    by (destruct evs; [congruence|reflexivity]).
  rewrite Hpos, tally_latency. cbn [tally0 totalLatency]. split; [reflexivity|].
  intros Hno. rewrite Hno. destruct (tally_no_extremes evs tally0 Hno) as [-> ->].
  cbn. auto.
Qed.

End MetricsFacts.


(** ** The further properties at concrete inputs *)

Section FurtherInstances.
Import GoStrings Http Waf Config Proxy Spec Examples EngineNotions ProxyWriter.
#[local] Existing Instance rt.

(** The rule on [/admin] matches the path [/admin] under equals, hence
    under contains, and so not under not-contains. *)
Lemma operators_on_one_pattern_witness :
  Match (withOperator adminRule OpEquals) "/admin" = true /\
  Match (withOperator adminRule OpContains) "/admin" = true /\
  Match (withOperator adminRule OpNotContains) "/admin" = false.
Proof.
  destruct (operators_on_one_pattern adminRule "/admin" eq_refl) as [Heq Hnot].
  assert (He : Match (withOperator adminRule OpEquals) "/admin" = true)
    by reflexivity.
  destruct (Heq He) as (_ & Hc & _).
  split; [exact He|]. split; [exact Hc|]. rewrite Hnot, Hc. reflexivity.
Defined.

(** A union select in mixed case is flagged, in upper case as well, and
    inside a request URI. *)
Lemma detectors_case_and_context_witness :
  detectSQLi "Union Select" = true /\
  detectSQLi (map_bytes upper_byte "Union Select") = true /\
  detectSQLi ("/q?x=1 " +:+ "Union Select" +:+ " 2") = true.
Proof.
  destruct (detectors_case_and_context "Union Select" eq_refl)
    as (Hup & _ & _ & _ & Hctx).
  assert (Hd : detectSQLi "Union Select" = true) by (vm_compute; reflexivity).
  split; [exact Hd|]. split; [rewrite Hup; exact Hd|].
  destruct (Hctx "/q?x=1 " " 2" eq_refl eq_refl) as [Hs _]. exact (Hs Hd).
Defined.

(** A handler that writes, then sets 404, then writes again: the client
    gets 200 and both chunks. *)
Lemma responseWriter_first_status_wins_witness :
  performAll newResponseWriter [CallWrite "a"; CallWriteHeader 404; CallWrite "b"]
  = ([WriteHeader 200; Write "a"; Write "b"],
     {| statusCode := 200; body := "ab"; written := true |}).
Proof.
  exact (responseWriter_first_status_wins
           [CallWrite "a"; CallWriteHeader 404; CallWrite "b"]
           ltac:(discriminate)).
Defined.

(** A client that sends its own [X-Forwarded-For] keeps it in front of
    the address the proxy adds. *)
Lemma Director_appends_witness :
  Header (Director forwardedOnce) !! "X-Forwarded-For"
    = Some ["203.0.113.9"; "10.0.0.7:5555"] /\
  Header (Director forwardedOnce) !! "X-Forwarded-Host" = Some ["shop.example"].
Proof.
  pose proof (@Director_appends rt forwardedOnce
                ltac:(vm_compute; reflexivity) ltac:(vm_compute; reflexivity)
                ltac:(vm_compute; reflexivity) ltac:(vm_compute; reflexivity))
    as Hd.
  cbv zeta in Hd. destruct Hd as (Hfor & _ & Hhost & _).
  split; [rewrite Hfor|rewrite Hhost]; vm_compute; reflexivity.
Defined.

(** With a header whose value is empty, a not-contains rule on that
    header does not fire, and the same rule on all headers does. *)
Lemma empty_value_never_fires_witness :
  checkRule (noSecretRule "REQUEST_HEADERS:X-Token") emptyHeaderRequest = false /\
  checkRule (noSecretRule "REQUEST_HEADERS") emptyHeaderRequest = true.
Proof.
  split.
  - apply (empty_value_never_fires (noSecretRule "REQUEST_HEADERS:X-Token")
             emptyHeaderRequest); vm_compute; reflexivity.
  - apply (empty_value_never_fires (noSecretRule "REQUEST_HEADERS")
             emptyHeaderRequest); [reflexivity|].
    exists "X-Token", [EmptyString], EmptyString.
    split; [vm_compute; reflexivity|]. split; [left; reflexivity|reflexivity].
Defined.

(** The rule on [/admin] joins the default engine as its last rule and
    leaves the outcome of the BadBot request as it was; the rule with the
    unclosed bracket is rejected and the engine keeps its six rules. *)
Lemma AddRule_extends_witness :
  snd (AddRule NewEngine adminRule) = None /\
  rules (fst (AddRule NewEngine adminRule)) = rules NewEngine ++ [adminRule] /\
  Check (fst (AddRule NewEngine adminRule)) badBotTraversal
    = Check NewEngine badBotTraversal /\
  (exists msg,
     snd (AddRule NewEngine unclosedRule)
     = Some ("failed to compile rule: " +:+ msg)) /\
  fst (AddRule NewEngine unclosedRule) = NewEngine /\
  length (rules (fst (AddRule NewEngine unclosedRule))) = 6%nat.
Proof.
  destruct (AddRule_extends NewEngine adminRule badBotTraversal)
    as (_ & _ & _ & Hok).
  destruct (Hok adminRule eq_refl) as (Herr & Hrules & Hsame).
  split; [exact Herr|]. split; [exact Hrules|].
  split; [apply Hsame; vm_compute; reflexivity|].
  destruct (AddRule_extends NewEngine unclosedRule badBotTraversal)
    as (_ & Hbad & _).
  destruct (Hbad "unsupported pattern" eq_refl) as (Hmsg & Hsame').
  split; [eexists; exact Hmsg|]. split; [exact Hsame'|].
  rewrite Hsame'. vm_compute. reflexivity.
Defined.

(** The traversal expression as a not-regex rule compiles; it matches a
    plain path and not a path with a traversal. *)
Lemma Compile_then_Match_witness :
  exists rule', Compile notTraversalRule = Ok rule' /\
    Match rule' "/index.html" = true /\ Match rule' "/../etc/passwd" = false.
Proof.
  pose (rule' := with_regex notTraversalRule
                   (RefRuntime.matchString RefRuntime.pathTraversalRe)).
  assert (E : Compile notTraversalRule = Ok rule') by reflexivity.
  destruct (Compile_then_Match notTraversalRule) as (_ & _ & Hok).
  destruct (Hok rule' E eq_refl) as [_ Hnot].
  destruct (Hnot eq_refl) as (re & Hre & Hm).
  exists rule'. split; [exact E|].
  rewrite !Hm.
  assert (Hc : regexp_Compile (Pattern notTraversalRule)
               = Ok (RefRuntime.matchString RefRuntime.pathTraversalRe))
    by reflexivity.
  rewrite Hc in Hre. injection Hre as <-.
  split; vm_compute; reflexivity.
Defined.

(** The documented form post, which the engine allows, ends in 502 on a
    transport whose origin answers whatever reaches it, and a request
    that names a full URL is sent there and gets the answer of that
    host. *)
Lemma handleRequest_outcome_witness :
  refuses (NewProxy enforce) sqliInBody EmptyString = false /\
  (exists log err,
     forallb isLogEffect log = true /\
     @delivered helloOrigin (NewProxy enforce)
       (trace (handleRequest (NewProxy enforce) sqliInBody EmptyString))
     = log ++ [LogError ("Proxy error: " +:+ err);
               WriteHeader 502; Write "Bad Gateway"]) /\
  trace (@forward helloOrigin (NewProxy enforce) absoluteForm)
    = [WriteHeader 200; Write "hello"].
Proof.
  assert (Hr : refuses (NewProxy enforce) sqliInBody EmptyString = false)
    by (vm_compute; reflexivity).
  split; [exact Hr|].
  destruct (@handleRequest_outcome rt helloOrigin (NewProxy enforce) sqliInBody
              EmptyString) as (_ & Hrp).
  destruct (Hrp eq_refl) as (Hfw & Hbad). split.
  - destruct (Hbad helloOrigin_refuses) as (log & err & Hlog & Hd);
      [discriminate|discriminate|].
    exists log, err. split; [exact Hlog|]. rewrite Hd, Hr. reflexivity.
  - rewrite (proj2 (Hfw absoluteForm)). reflexivity.
Defined.

(** A chunked upload, whose length is unknown, is not captured; and of
    an upload that breaks after eight bytes nothing is captured and
    nothing is left to forward. *)
Lemma InterceptRequest_preserves_witness :
  InterceptRequest {| originalBody := EmptyString |} chunkedUpload
  = ({| originalBody := EmptyString |}, chunkedUpload, None) /\
  Body brokenUpload = Some (FailingReader "username" "unexpected EOF") /\
  let '(ri', r', err) :=
    InterceptRequest {| originalBody := EmptyString |} brokenUpload in
  GetBody ri' = EmptyString /\ err = Some "unexpected EOF" /\
  Body r' = Some (FailingReader EmptyString "unexpected EOF").
Proof.
  split.
  - pose proof (InterceptRequest_preserves {| originalBody := EmptyString |}
                  chunkedUpload) as Hp.
    destruct (InterceptRequest {| originalBody := EmptyString |} chunkedUpload)
      as [[ri' r'] err].
    destruct Hp as (_ & _ & Hskip & _).
    destruct Hskip as (-> & -> & ->); [left; cbn; lia|reflexivity].
  - split; [reflexivity|].
    pose proof (InterceptRequest_preserves {| originalBody := EmptyString |}
                  brokenUpload) as Hp.
    destruct (InterceptRequest {| originalBody := EmptyString |} brokenUpload)
      as [[ri' r'] err].
    destruct Hp as (_ & _ & _ & Hfail).
    destruct (Hfail "username" "unexpected EOF" eq_refl) as (-> & -> & -> & _);
      [cbn; lia|].
    split; [reflexivity|]. split; reflexivity.
Defined.

End FurtherInstances.

Section FurtherAnalysisInstances.
Import Analysis SpecAnalysis AnalysisQueries QueryExamples Examples.

Lemma insertSorted_perm {A} (less : A -> A -> bool) (x : A) (l : list A) :
  insertSorted less x l ≡ₚ x :: l.
Proof.
  induction l as [|y l IH]; [reflexivity|]. cbn [insertSorted].
  destruct (less y x); [|reflexivity].
  rewrite IH. apply Permutation_swap.
Qed.

Lemma refSort_permutes : @sortPermutes refSort.
Proof.
  intros A less l. cbn. unfold insertionSort.
  induction l as [|x l IH]; [reflexivity|]. cbn [foldr].
  rewrite insertSorted_perm, IH. reflexivity.
Qed.

(** Of the five mixed events four are filed, two of them blocked. *)
Lemma every_filed_event_counted_once_witness :
  let rm := ruleMetrics (fed mixedEvents) in
  sumValues (TotalTriggers <$> rm) = 4 /\
  sumValues (TruePositives <$> rm) = 2 /\
  sumValues (FalsePositives <$> rm) = 2.
Proof.
  pose proof (every_filed_event_counted_once
                (addAll NewEfficacyAnalyzer mixedEvents) eq_refl) as Hs.
  cbv zeta in Hs. destruct Hs as (Ht & Hb & Ha).
  cbv zeta. unfold fed. fold (addAll NewEfficacyAnalyzer mixedEvents).
  rewrite Ht, Hb, Ha. vm_compute. auto.
Defined.

(** Rule 2001, with two of three events let through, is problematic with
    insertion sort as the sort. *)
Lemma problematic_rules_are_the_warned_witness :
  In metrics2001 (@GetProblematicRules refSort (fed mixedEvents)) /\
  warnsFalsePositives (Recommendations metrics2001).
Proof.
  destruct (@problematic_rules_are_the_warned refSort (fed mixedEvents)
              refSort_permutes) as (Hin & Hwarn & Hnew & _).
  assert (Hl : ruleMetrics (fed mixedEvents) !! "2001" = Some metrics2001).
  { unfold fed. fold (addAll NewEfficacyAnalyzer mixedEvents).
    rewrite AnalyzeRules_lookup_any, groupByRule_lookup. reflexivity. }
  assert (Hp : In metrics2001 (@GetProblematicRules refSort (fed mixedEvents))).
  { apply Hin. split; [exists "2001"; exact Hl|].
    split; [reflexivity|vm_compute; reflexivity]. }
  split; [exact Hp|].
  assert (Hc : consistent (fed mixedEvents)).
  { intros id m Hm. unfold fed, GetRuleMetrics in Hm.
    fold (addAll NewEfficacyAnalyzer mixedEvents) in Hm.
    rewrite AnalyzeRules_lookup_any in Hm.
    destruct (groupByRule _ !! id); [injection Hm as <-; split; reflexivity|].
    cbn in Hm. rewrite lookup_empty in Hm. discriminate Hm. }
  destruct (Hwarn Hc metrics2001) as [Hto _]. exact (proj2 (Hto Hp)).
Defined.

(** Asking for the top -1 rules stops the program; asking for the top
    one of two gives one. *)
Lemma GetTopRules_count_witness :
  @GetTopRules refSort (fed mixedEvents) (-1) = None /\
  exists l, @GetTopRules refSort (fed mixedEvents) 1 = Some l /\ length l = 1%nat.
Proof.
  destruct (@GetTopRules_count refSort (fed mixedEvents) (-1) refSort_permutes)
    as [Hneg _].
  destruct (@GetTopRules_count refSort (fed mixedEvents) 1 refSort_permutes)
    as [_ Hpos].
  split; [apply Hneg; lia|].
  destruct (Hpos ltac:(lia)) as (l & Hl & Hlen & _).
  exists l. split; [exact Hl|].
  assert (Hsz : size (ruleMetrics (fed mixedEvents)) = 2%nat)
    by (vm_compute; reflexivity).
  rewrite Hsz in Hlen. lia.
Defined.

(** One event of 10 ms and one without a response time average 5 ms. *)
Lemma latency_averages_over_all_events_witness :
  AvgLatencyMs (calculateRuleMetrics "2001" [timed 10%float; logged "2001" true])
  = 5%float.
Proof.
  pose proof (latency_averages_over_all_events "2001"
                [timed 10%float; logged "2001" true] ltac:(discriminate)) as Hl.
  cbv zeta in Hl. destruct Hl as [Havg _].
  rewrite Havg. vm_compute. reflexivity.
Defined.

(** Two events with the same reason give one attack pattern; the name is
    that of the later event. *)
Lemma metrics_patterns_and_name_witness :
  let m := calculateRuleMetrics "2001"
             [reasoned "sqli" "SQL injection"; reasoned "sqli" "SQLi";
              logged "2001" true] in
  (forall reason, In reason (AttackPatterns m) <-> reason = "sqli") /\
  RuleName m = "SQLi".
Proof.
  cbv zeta.
  pose proof (metrics_patterns_and_name "2001"
                [reasoned "sqli" "SQL injection"; reasoned "sqli" "SQLi";
                 logged "2001" true]) as Hm.
  cbv zeta in Hm. destruct Hm as (_ & Hin & _ & Hname & _).
  split.
  - intros reason. rewrite Hin.
    assert (Hr : reasons [reasoned "sqli" "SQL injection"; reasoned "sqli" "SQLi";
                          logged "2001" true] = ["sqli"; "sqli"])
      by (vm_compute; reflexivity).
    rewrite Hr. cbn [In]. intuition.
  - rewrite Hname. vm_compute. reflexivity.
Defined.

End FurtherAnalysisInstances.

(** ** The traffic recorder and the replayer *)

Section RecorderFacts.
Import Http Replay.
Context `{GoRuntime}.

Lemma lastn_push {A} (max : Z) (all : list A) (x : A) :
  (if Z.of_nat (length (lastn (Z.to_nat max) all ++ [x])) >? max
   then drop 1 (lastn (Z.to_nat max) all ++ [x])
   else lastn (Z.to_nat max) all ++ [x])
  = lastn (Z.to_nat max) (all ++ [x]).
Proof.
  unfold lastn. rewrite !length_app, length_drop. cbn [length].
  destruct (Z.gtb_spec
              (Z.of_nat (length all - (length all - Z.to_nat max) + 1)) max)
    as [Hgt|Hle].
  - assert (Hk : (Z.to_nat max <= length all)%nat) by lia.
    rewrite <- (drop_app_le all [x]) by lia.
    rewrite drop_drop. f_equal. lia.
  - assert (Hk : (length all < Z.to_nat max)%nat) by lia.
    replace (length all - Z.to_nat max)%nat with 0%nat by lia.
    replace (length all + 1 - Z.to_nat max)%nat with 0%nat by lia.
    reflexivity.
Qed.

Lemma recordAll_records (r : Recorder) (all : list TrafficRecord.t)
    (calls : list Recording) :
  records r = lastn (Z.to_nat (maxRecords r)) all ->
  records (recordAll r calls)
  = lastn (Z.to_nat (maxRecords r)) (all ++ (recordOf <$> calls)) /\
  maxRecords (recordAll r calls) = maxRecords r.
Proof.
  revert r all. induction calls as [|c calls IH]; intros r all Hr.
  - cbn. rewrite app_nil_r. auto.
  - cbn [recordAll foldl]. fold (recordAll).
    set (r1 := fst (RecordTraffic r (clock c) (req c) (statusCode c)
                      (responseBody c) (blocked c) (reason c))).
    assert (Hm : maxRecords r1 = maxRecords r) by reflexivity.
    assert (H1 : records r1
                 = lastn (Z.to_nat (maxRecords r1)) (all ++ [recordOf c])).
    { rewrite Hm, <- lastn_push, <- Hr. reflexivity. }
    destruct (IH r1 _ H1) as [Hrec Hmax]. fold (recordAll r1 calls).
    rewrite Hrec, Hmax, Hm, <- app_assoc. auto.
Qed.

Lemma filter_eqb_split {A} (f : A -> bool) (l : list A) :
  (length (List.filter (fun x => Bool.eqb (f x) true) l)
   + length (List.filter (fun x => Bool.eqb (f x) false) l))%nat = length l.
Proof.
  induction l as [|x l IH]; [reflexivity|]. cbn [List.filter].
  destruct (f x); cbn [Bool.eqb length]; lia.
Qed.

(** A recorder created with [NewRecorder] holds the latest [maxRecords]
    records made, in the order they were made, and none when
    [maxRecords] is zero or negative; the blocked and the other records
    it holds add up to its count. *)
Theorem RecordTraffic_keeps_latest (path : string) (max : Z)
    (calls : list Recording) :
  let r := recordAll (NewRecorder path max) calls in
  GetRecords r = lastn (Z.to_nat max) (recordOf <$> calls) /\
  GetRecordCount r = Z.min (Z.of_nat (length calls)) (Z.max 0 max) /\
  (max <= 0 -> GetRecords r = []) /\
  Z.of_nat (length (FilterRecordsByBlocked r true))
  + Z.of_nat (length (FilterRecordsByBlocked r false)) = GetRecordCount r.
Proof.
  cbv zeta.
  destruct (recordAll_records (NewRecorder path max) [] calls eq_refl)
    as [Hrec _].
  cbn [maxRecords NewRecorder app] in Hrec.
  unfold GetRecords, GetRecordCount. rewrite Hrec.
  split; [reflexivity|]. split; [|split].
  - unfold lastn. rewrite length_drop, length_fmap. lia.
  - intros Hmax. unfold lastn.
    replace (Z.to_nat max) with 0%nat by lia.
    rewrite Nat.sub_0_r. apply drop_all.
  - unfold FilterRecordsByBlocked. rewrite Hrec.
    pose proof (filter_eqb_split TrafficRecord.Blocked
                  (lastn (Z.to_nat max) (recordOf <$> calls))). lia.
Qed.

Lemma extract_lookup (l : list (string * list string))
    (m : gmap string string) (k : string) :
  NoDup l.*1 ->
  foldl firstValue m l !! k =
  match (list_to_map l : gmap string (list string)) !! k with
  | Some (v :: _) => Some v
  | Some [] => m !! k
  | None => m !! k
  end.
Proof.
  revert m. induction l as [|[key values] l IH]; intros m Hnd; [reflexivity|].
  cbn [foldl]. apply NoDup_cons in Hnd as [Hk Hnd]. rewrite (IH _ Hnd).
  cbn [list_to_map foldr uncurry fst snd]. unfold firstValue. cbn [fst snd].
  destruct (decide (key = k)) as [->|Hne].
  - rewrite (not_elem_of_list_to_map_1 _ _ Hk), lookup_insert_eq.
    destruct values; [reflexivity|]. rewrite lookup_insert_eq. reflexivity.
  - rewrite lookup_insert_ne by exact Hne.
    destruct (list_to_map l !! k) as [[|v vs]|];
      destruct values; try reflexivity;
      rewrite lookup_insert_ne by exact Hne; reflexivity.
Qed.

Lemma extractHeaders_lookup (h : gmap string (list string)) (k : string) :
  extractHeaders h !! k = h !! k ≫= head.
Proof.
  unfold extractHeaders.
  rewrite extract_lookup by apply NoDup_fst_map_to_list.
  rewrite list_to_map_to_list, lookup_empty.
  destruct (h !! k) as [[|v vs]|]; reflexivity.
Qed.

(** What [RecordTraffic] takes from a request: method, URI and address as
    they are, of every header its first value only, and the body it can
    read.  Reading uses the body up: the request is left with an empty
    body, so recording it again, or forwarding it afterwards, finds
    nothing. *)
Theorem RecordTraffic_consumes_body (r : Recorder) (c : Recording) :
  let record := TrafficRecord.Request (recordOf c) in
  let req' := snd (RecordTraffic r (clock c) (req c) (statusCode c)
                     (responseBody c) (blocked c) (reason c)) in
  RecordedRequest.Method record = Method (req c) /\
  RecordedRequest.URL record = RequestURI (req c) /\
  RecordedRequest.RemoteAddr record = RemoteAddr (req c) /\
  (forall k, RecordedRequest.Headers record !! k = Header (req c) !! k ≫= head) /\
  (forall data, Body (req c) = Some (Reader data) ->
     RecordedRequest.Body record = data /\
     Body req' = Some (Reader EmptyString)) /\
  (Body (req c) <> None ->
   forall clock' status' body' blocked' reason',
     RecordedRequest.Body
       (TrafficRecord.Request
          (makeRecord clock' req' status' body' blocked' reason'))
     = EmptyString) /\
  Header req' = Header (req c) /\ RequestURI req' = RequestURI (req c).
Proof.
  cbv zeta. unfold recordOf, makeRecord, RecordTraffic.
  cbn [TrafficRecord.Request RecordedRequest.Method RecordedRequest.URL
       RecordedRequest.RemoteAddr RecordedRequest.Headers RecordedRequest.Body
       snd Proxy.withBody Body Header RequestURI].
  split; [reflexivity|]. split; [reflexivity|]. split; [reflexivity|].
  split; [intros k; apply extractHeaders_lookup|].
  split; [intros data ->; split; reflexivity|].
  split; [|split; reflexivity].
  intros Hb clock' status' body' blocked' reason'.
  destruct (Body (req c)) as [[data|err]|]; [reflexivity|reflexivity|congruence].
Qed.

End RecorderFacts.

Section ReplayerFacts.
Import Http Replay.
Context `{GoRuntime} {World : Type} `{Network World}.

(** [ReplayRequest] returns an error, and changes nothing, exactly when
    the URL of the record does not parse or no request can be made of
    it.  Otherwise it appends one result and returns no error, whatever
    the network does.  A result of a failed exchange has status 0 and an
    empty body, and these are compared like any other: it is a status
    match when the recorded status is 0 and a body match when the
    recorded body is empty.  A successful exchange carries no error, also
    when its body could not be read. *)
Theorem ReplayRequest_appends_one (w : World) (r : Replayer)
    (record : TrafficRecord.t) :
  let '(w', r', err) := ReplayRequest w r record in
  let recorded := TrafficRecord.Response record in
  (sendable (targetURL r) record = false -> err <> None /\ r' = r /\ w' = w) /\
  (sendable (targetURL r) record = true ->
   err = None /\
   targetURL r' = targetURL r /\ replayRecords r' = replayRecords r /\
   exists result,
     results r' = results r ++ [result] /\
     ReplayResult.OriginalRequest result = TrafficRecord.Request record /\
     ReplayResult.OriginalResponse result = recorded /\
     (ReplayResult.Success result = false ->
        ReplayedResponse.StatusCode (ReplayResult.ReplayedResponse result) = 0 /\
        ReplayedResponse.Body (ReplayResult.ReplayedResponse result) = EmptyString /\
        ReplayResult.StatusMatch result
          = (0 =? RecordedResponse.StatusCode recorded) /\
        ReplayResult.BodyMatch result
          = String.eqb EmptyString (RecordedResponse.Body recorded)) /\
     (ReplayResult.Success result = true ->
        ReplayResult.Error result = EmptyString)).
Proof.
  unfold ReplayRequest, sendable.
  destruct (url_Parse _) as [url|err]; [|split; [intros _|]; [|discriminate]].
  - destruct (http_NewRequest _ url) as [err|];
      [split; [intros _|]; [|discriminate]|].
    + split; [discriminate|auto].
    + destruct (client_Do w (outgoing record url)) as [[w' outcome] duration].
      cbv zeta. split; [discriminate|]. intros _.
      split; [reflexivity|]. split; [reflexivity|]. split; [reflexivity|].
      exists (replayResult record outcome duration).
      split; [reflexivity|]. split; [reflexivity|]. split; [reflexivity|].
      destruct outcome as [e|status body]; cbn; split; try discriminate; auto.
  - split; [discriminate|auto].
Qed.

Lemma ReplayRequest_sent (w : World) (r : Replayer) (record : TrafficRecord.t) :
  let '(w', r', err) := ReplayRequest w r record in
  if sendable (targetURL r) record then
    err = None /\ targetURL r' = targetURL r /\
    replayRecords r' = replayRecords r /\
    exists result,
      results r' = results r ++ [result] /\
      ReplayResult.OriginalRequest result = TrafficRecord.Request record /\
      ReplayResult.OriginalResponse result = TrafficRecord.Response record
  else err <> None /\ r' = r /\ w' = w.
Proof.
  unfold ReplayRequest, sendable.
  destruct (url_Parse _) as [url|err]; [|split; [discriminate|auto]].
  destruct (http_NewRequest _ url) as [err|]; [split; [discriminate|auto]|].
  destruct (client_Do w (outgoing record url)) as [[w' outcome] duration].
  split; [reflexivity|]. split; [reflexivity|]. split; [reflexivity|].
  exists (replayResult record outcome duration). auto.
Qed.

Lemma replayEach_sent (records : list TrafficRecord.t) (w : World) (r : Replayer) :
  let '(w', r', err) := replayEach w r records in
  let sent := sendablePrefix (targetURL r) records in
  ReplayResult.OriginalRequest <$> results r'
  = (ReplayResult.OriginalRequest <$> results r) ++ (TrafficRecord.Request <$> sent) /\
  ReplayResult.OriginalResponse <$> results r'
  = (ReplayResult.OriginalResponse <$> results r) ++ (TrafficRecord.Response <$> sent) /\
  (err = None <-> sent = records) /\
  targetURL r' = targetURL r /\ replayRecords r' = replayRecords r.
Proof.
  revert w r. induction records as [|record rest IH]; intros w r.
  - cbn. rewrite !app_nil_r. intuition.
  - cbn [replayEach sendablePrefix].
    pose proof (ReplayRequest_sent w r record) as Hone.
    destruct (ReplayRequest w r record) as [[w1 r1] err1].
    destruct (sendable (targetURL r) record) eqn:Es.
    + destruct Hone as (-> & Ht & Hr & result & Hres & Hreq & Hresp).
      specialize (IH w1 r1).
      destruct (replayEach w1 r1 rest) as [[w' r'] err]. cbv zeta in IH |- *.
      destruct IH as (IHreq & IHresp & IHerr & IHt & IHr).
      rewrite Ht in IHreq, IHresp, IHerr.
      rewrite IHreq, IHresp, Hres, !fmap_app, <- !app_assoc. cbn [fmap list_fmap app].
      rewrite Hreq, Hresp.
      split; [reflexivity|]. split; [reflexivity|]. split; [|split; congruence].
      rewrite IHerr. split; [intros ->; reflexivity|intros [= Heq]; exact Heq].
    + destruct Hone as (Herr & -> & ->).
      destruct err1 as [e|]; [|congruence]. cbv zeta. cbn. rewrite !app_nil_r.
      split; [reflexivity|]. split; [reflexivity|].
      split; [split; discriminate|]. auto.
Qed.

(** [ReplayAll] replays the loaded records in order until one cannot be
    sent: it appends one result for each record before that one, for
    that record and the later ones none, and returns an error exactly
    when there is such a record.  An unreachable server stops nothing.
    From a new replayer, the summary then counts as many requests as
    were sent. *)
Theorem ReplayAll_stops_at_first_unsendable (w : World) (r : Replayer) :
  let '(w', r', err) := ReplayAll w r in
  let sent := sendablePrefix (targetURL r) (replayRecords r) in
  ReplayResult.OriginalRequest <$> GetResults r'
  = (ReplayResult.OriginalRequest <$> GetResults r)
    ++ (TrafficRecord.Request <$> sent) /\
  ReplayResult.OriginalResponse <$> GetResults r'
  = (ReplayResult.OriginalResponse <$> GetResults r)
    ++ (TrafficRecord.Response <$> sent) /\
  (err = None <-> sent = replayRecords r) /\
  (results r = [] ->
   total_requests (GetResultSummary r') = Z.of_nat (length sent)).
Proof.
  unfold ReplayAll, GetResults.
  pose proof (replayEach_sent (replayRecords r) w r) as Hs.
  destruct (replayEach w r (replayRecords r)) as [[w' r'] err]. cbv zeta in Hs |- *.
  destruct Hs as (Hreq & Hresp & Herr & _).
  split; [exact Hreq|]. split; [exact Hresp|]. split; [exact Herr|].
  intros Hnil. rewrite Hnil in Hreq. cbn in Hreq.
  unfold GetResultSummary. cbn [total_requests].
  rewrite <- (length_fmap ReplayResult.OriginalRequest (results r')), Hreq.
  rewrite length_fmap. reflexivity.
Qed.

End ReplayerFacts.

Section SummaryFacts.
Import Replay.

Lemma countResult_counts (l : list ReplayResult.t) (c : Counters) :
  let c' := foldl countResult c l in
  successfulRequests c'
  = successfulRequests c + Z.of_nat (length (List.filter ReplayResult.Success l)) /\
  statusMatches c'
  = statusMatches c + Z.of_nat (length (List.filter ReplayResult.StatusMatch l)) /\
  bodyMatches c'
  = bodyMatches c + Z.of_nat (length (List.filter ReplayResult.BodyMatch l)).
Proof.
  revert c. induction l as [|x l IH]; intros c.
  - cbn. lia.
  - cbn [foldl List.filter]. cbv zeta in IH |- *.
    destruct (IH (countResult c x)) as (-> & -> & ->).
    unfold countResult.
    cbn [successfulRequests statusMatches bodyMatches].
    destruct (ReplayResult.Success x), (ReplayResult.StatusMatch x),
      (ReplayResult.BodyMatch x); cbn [length]; lia.
Qed.

Lemma countResult_duration (l : list ReplayResult.t) (c : Counters) :
  (forall result, In result l ->
     0 <= ReplayedResponse.Duration (ReplayResult.ReplayedResponse result)) ->
  0 <= totalDuration c ->
  totalDuration c + foldr Z.add 0 (durationOf <$> l) < 2 ^ 63 ->
  totalDuration (foldl countResult c l)
  = totalDuration c + foldr Z.add 0 (durationOf <$> l).
Proof.
  revert c. induction l as [|x l IH]; intros c Hpos Hc Hsum.
  - cbn. lia.
  - cbn [foldl fmap list_fmap foldr] in *.
    assert (Hx : 0 <= durationOf x) by (apply Hpos; left; reflexivity).
    assert (Hl : 0 <= foldr Z.add 0 (durationOf <$> l)).
    { clear -Hpos. induction l as [|y l IH]; cbn; [lia|].
      assert (0 <= durationOf y) by (apply Hpos; right; left; reflexivity).
      assert (0 <= foldr Z.add 0 (durationOf <$> l)); [|lia].
      apply IH. intros result Hin. apply Hpos. destruct Hin; [left|right; right]; auto. }
    assert (Hw : totalDuration (countResult c x) = totalDuration c + durationOf x).
    { unfold countResult. cbn [totalDuration]. fold (durationOf x).
      unfold wrap64. rewrite Z.mod_small by lia. lia. }
    rewrite IH; [lia| |lia|lia].
    intros result Hin. apply Hpos. right. exact Hin.
Qed.

Lemma filter_match_counts (l : list ReplayResult.t) :
  let n s b :=
    Z.of_nat (length (List.filter
      (fun result => Bool.eqb (ReplayResult.StatusMatch result) s
                     && Bool.eqb (ReplayResult.BodyMatch result) b) l)) in
  Z.of_nat (length l) = n true true + n true false + n false true + n false false /\
  Z.of_nat (length (List.filter ReplayResult.StatusMatch l))
  = n true true + n true false /\
  Z.of_nat (length (List.filter ReplayResult.BodyMatch l))
  = n true true + n false true.
Proof.
  cbv zeta. induction l as [|x l IH]; [cbn; lia|].
  cbn [List.filter].
  destruct (ReplayResult.StatusMatch x), (ReplayResult.BodyMatch x);
    cbn [Bool.eqb andb length]; lia.
Qed.

(** The summary against the filters.  The four calls of
    [FilterResultsByMatch] split the results: their sizes add up to the
    total, the two with a status match to the status matches, the two
    with a body match to the body matches; the successful requests are
    the results marked as success, between 0 and the total.  With no
    results the success rate is NaN, not a number, and the average
    duration 0.  When every duration is 0 or more and they add up to
    less than 2^63 ns, the total is their sum and the average its
    quotient by the number of results. *)
Theorem GetResultSummary_counts (r : Replayer) :
  let s := GetResultSummary r in
  let n sm bm := Z.of_nat (length (FilterResultsByMatch r sm bm)) in
  total_requests s = n true true + n true false + n false true + n false false /\
  status_matches s = n true true + n true false /\
  body_matches s = n true true + n false true /\
  successful_requests s
  = Z.of_nat (length (List.filter ReplayResult.Success (GetResults r))) /\
  0 <= successful_requests s <= total_requests s /\
  (GetResults r = [] ->
     PrimFloat.is_nan (success_rate s) = true /\ average_duration s = 0) /\
  ((forall result, In result (GetResults r) -> 0 <= durationOf result) ->
   foldr Z.add 0 (durationOf <$> GetResults r) < 2 ^ 63 ->
   total_duration s = foldr Z.add 0 (durationOf <$> GetResults r) /\
   (GetResults r <> [] ->
    average_duration s = total_duration s / total_requests s)).
Proof.
  cbv zeta. unfold GetResultSummary, FilterResultsByMatch, GetResults.
  cbn [total_requests status_matches body_matches successful_requests
       success_rate average_duration total_duration].
  set (c0 := {| successfulRequests := 0; statusMatches := 0; bodyMatches := 0;
                totalDuration := 0 |}).
  pose proof (countResult_counts (results r) c0) as Hc. cbv zeta in Hc.
  destruct Hc as (Hs & Hst & Hb). rewrite Hs, Hst, Hb.
  pose proof (filter_match_counts (results r)) as Hf. cbv zeta in Hf.
  destruct Hf as (Hall & Hsm & Hbm). cbn [c0 successfulRequests statusMatches bodyMatches].
  split; [exact Hall|]. split; [lia|]. split; [lia|]. split; [reflexivity|].
  split.
  { pose proof (filter_length ReplayResult.Success (results r)). lia. }
  split.
  { intros Hnil. rewrite Hnil. cbn. split; reflexivity. }
  intros Hpos Hsum.
  pose proof (countResult_duration (results r) c0 Hpos) as Hd.
  cbn [c0 totalDuration] in Hd. rewrite Hd by lia. split; [lia|].
  intros Hne.
  assert (Hlen : 0 < Z.of_nat (length (results r)))
    by (destruct (results r); [congruence|cbn; lia]).
  destruct (Z.gtb_spec (Z.of_nat (length (results r))) 0); [|lia].
  apply Z.quot_div_nonneg; [|lia].
  clear -Hpos. induction (results r) as [|y l IH]; cbn; [lia|].
  assert (0 <= durationOf y) by (apply Hpos; left; reflexivity).
  assert (0 <= foldr Z.add 0 (durationOf <$> l)); [|lia].
  apply IH. intros result Hin. apply Hpos. right. exact Hin.
Qed.

End SummaryFacts.

Section ReplayInstances.
Import Http Replay ReplayExamples Examples.

(** With a limit of two, the recorder holds the last two of three
    records. *)
Lemma RecordTraffic_keeps_latest_witness :
  GetRecordCount
    (@recordAll rt (NewRecorder "traffic.json" 2)
       [recording true; recording false; recording true]) = 2 /\
  TrafficRecord.Blocked
    <$> GetRecords (@recordAll rt (NewRecorder "traffic.json" 2)
                      [recording true; recording false; recording true])
  = [false; true].
Proof.
  destruct (@RecordTraffic_keeps_latest rt "traffic.json" 2
              [recording true; recording false; recording true])
    as (Hrec & Hcount & _).
  split; [rewrite Hcount; reflexivity|]. rewrite Hrec. reflexivity.
Defined.

(** Of two cookies the record keeps the first; the body is recorded and
    gone from the request. *)
Lemma RecordTraffic_consumes_body_witness :
  RecordedRequest.Headers (TrafficRecord.Request (@recordOf rt (recording true)))
    !! "Cookie" = Some "a=1" /\
  RecordedRequest.Body (TrafficRecord.Request (@recordOf rt (recording true)))
    = "user=x" /\
  Body (snd (@RecordTraffic rt (NewRecorder "traffic.json" 2)
               (clock (recording true)) twoCookies 200 "ok" true EmptyString))
    = Some (Reader EmptyString).
Proof.
  pose proof (@RecordTraffic_consumes_body rt (NewRecorder "traffic.json" 2)
                (recording true)) as Hc.
  cbv zeta in Hc. destruct Hc as (_ & _ & _ & Hh & Hb & _).
  destruct (Hb "user=x" eq_refl) as [Hbody Hdrained].
  split; [rewrite Hh; reflexivity|]. split; [exact Hbody|exact Hdrained].
Defined.

(** The server is down and the recorded body was empty: the replay is
    filed as a body match. *)
Lemma ReplayRequest_appends_one_witness :
  let '(_, r', err) :=
    @ReplayRequest rt nat downNetwork 0%nat (NewReplayer target)
      (noContent "/items/1") in
  err = None /\
  exists result, results r' = [result] /\
    (ReplayResult.Success result = false -> ReplayResult.BodyMatch result = true).
Proof.
  pose proof (@ReplayRequest_appends_one rt nat downNetwork 0%nat
                (NewReplayer target) (noContent "/items/1")) as Hr.
  destruct (@ReplayRequest rt nat downNetwork 0%nat (NewReplayer target)
              (noContent "/items/1")) as [[w' r'] err].
  cbv zeta in Hr. destruct Hr as [_ Hgood].
  destruct (Hgood eq_refl) as (Herr & _ & _ & result & Hres & _ & _ & Hfail & _).
  split; [exact Herr|]. exists result. split; [exact Hres|].
  intros Hs. destruct (Hfail Hs) as (_ & _ & _ & ->). reflexivity.
Defined.

(** The second of three records has a URL that does not parse: one
    result, and an error. *)
Lemma ReplayAll_stops_at_first_unsendable_witness :
  let '(_, r', err) := @ReplayAll rt nat downNetwork 0%nat loaded in
  ReplayResult.OriginalRequest <$> GetResults r'
    = [TrafficRecord.Request (noContent "/items/1")] /\
  err <> None /\
  total_requests (GetResultSummary r') = 1.
Proof.
  pose proof (@ReplayAll_stops_at_first_unsendable rt nat downNetwork 0%nat loaded)
    as Hr.
  destruct (@ReplayAll rt nat downNetwork 0%nat loaded) as [[w' r'] err].
  cbv zeta in Hr. destruct Hr as (Hreq & _ & Herr & Htotal).
  split; [rewrite Hreq; reflexivity|]. split.
  - intros Hnone. apply Herr in Hnone. discriminate Hnone.
  - rewrite (Htotal eq_refl). reflexivity.
Defined.

(** Two results of 1000 ns and 2001 ns: 3001 ns in all, 1500 ns on
    average. *)
Lemma GetResultSummary_counts_witness :
  total_duration (GetResultSummary replayed) = 3001 /\
  average_duration (GetResultSummary replayed) = 1500 /\
  status_matches (GetResultSummary replayed) = 2.
Proof.
  pose proof (GetResultSummary_counts replayed) as Hs. cbv zeta in Hs.
  destruct Hs as (_ & Hst & _ & _ & _ & _ & Hdur).
  destruct Hdur as [Htot Havg].
  - intros result [<-|[<-|[]]]; cbn; lia.
  - cbn. lia.
  - split; [rewrite Htot; reflexivity|].
    split; [rewrite (Havg ltac:(discriminate)), Htot; reflexivity|].
    rewrite Hst. reflexivity.
Defined.

End ReplayInstances.

(** ** The structured logger *)

Section LoggerFacts.
Import Replay StructuredLogging.
Context `{GoTime}.

(** What [LogEvent] writes for an event, by the switches of the logger. *)
Lemma LogEvent_eq (sl : StructuredLogger) (now : Z) (event : StructuredEvent) :
  LogEvent sl now event =
  ((if enableJSON sl && jsonFile sl then [JSONLine (stamped now event)] else [])
   ++ (if enableCSV sl && csvFile sl then [CSVLine (csvLine (stamped now event))]
       else [])
   ++ (if enableStdout sl then [Stdout (stamped now event)] else []),
   {| jsonFile := jsonFile sl; csvFile := csvFile sl;
      events :=
        (if Z.of_nat (length (events sl ++ [stamped now event])) >? maxEvents sl
         then drop 1 (events sl ++ [stamped now event])
         else events sl ++ [stamped now event]);
      maxEvents := maxEvents sl; enableJSON := enableJSON sl;
      enableCSV := enableCSV sl; enableStdout := enableStdout sl |}).
Proof. reflexivity. Qed.

Lemma logAll_spec (calls : list (Z * StructuredEvent)) (sl : StructuredLogger)
    (prior : list StructuredEvent) :
  events sl = lastn (Z.to_nat (maxEvents sl)) prior ->
  let all := (fun c => stamped (fst c) (snd c)) <$> calls in
  events (snd (logAll sl calls))
  = lastn (Z.to_nat (maxEvents sl)) (prior ++ all) /\
  fst (logAll sl calls)
  = flat_map (fun event =>
      (if enableJSON sl && jsonFile sl then [JSONLine event] else [])
      ++ (if enableCSV sl && csvFile sl then [CSVLine (csvLine event)] else [])
      ++ (if enableStdout sl then [Stdout event] else [])) all.
Proof.
  revert sl prior. induction calls as [|[now event] calls IH]; intros sl prior Hev.
  - cbn. rewrite app_nil_r. auto.
  - cbn [logAll]. rewrite LogEvent_eq.
    set (sl1 := {| jsonFile := jsonFile sl; csvFile := csvFile sl;
                   events := _; maxEvents := maxEvents sl;
                   enableJSON := enableJSON sl; enableCSV := enableCSV sl;
                   enableStdout := enableStdout sl |}).
    assert (H1 : events sl1
                 = lastn (Z.to_nat (maxEvents sl1)) (prior ++ [stamped now event])).
    { cbn [sl1 events maxEvents]. rewrite Hev. apply lastn_push. }
    specialize (IH sl1 _ H1). cbv zeta in IH. destruct IH as [IHe IHo].
    destruct (logAll sl1 calls) as [out' sl'']. cbn [fst snd] in *.
    cbv zeta. cbn [fmap list_fmap flat_map fst snd].
    rewrite IHe, IHo, <- !app_assoc. split; reflexivity.
Qed.

Lemma lastn_fmap {A B} (f : A -> B) (n : nat) (l : list A) :
  f <$> lastn n l = lastn n (f <$> l).
Proof. unfold lastn. rewrite fmap_drop, length_fmap. reflexivity. Qed.

Lemma csvLines_all (json csv : bool) (all : list StructuredEvent) :
  csvLines (flat_map (fun event =>
      (if json then [JSONLine event] else [])
      ++ (if csv then [CSVLine (csvLine event)] else [])
      ++ [Stdout event]) all)
  = if csv then csvLine <$> all else [].
Proof.
  unfold csvLines. induction all as [|e all IH]; [destruct csv; reflexivity|].
  cbn [flat_map]. rewrite !flat_map_app, IH.
  destruct json, csv; reflexivity.
Qed.

(** A logger made by [NewStructuredLogger] writes every event it is given
    to standard output, to the JSON file when a JSON path was given and
    to the CSV file when a CSV path was given, each with the time of the
    call when it came without one.  In memory it holds the latest
    [maxEvents] of them and none for a [maxEvents] of zero or less, so
    [ExportCSV] gives the last [maxEvents] rows of what went to the CSV
    file, not all of them. *)
Theorem LogEvent_keeps_latest (fs : Files) (jsonPath csvPath : string)
    (max : Z) (out0 : list output) (sl : StructuredLogger)
    (calls : list (Z * StructuredEvent)) :
  NewStructuredLogger fs jsonPath csvPath max = Ok (out0, sl) ->
  let all := (fun c => stamped (fst c) (snd c)) <$> calls in
  let out := fst (logAll sl calls) in
  let sl' := snd (logAll sl calls) in
  GetEvents sl' = lastn (Z.to_nat max) all /\
  (max <= 0 -> GetEvents sl' = []) /\
  out = flat_map (fun event =>
          (if nonEmpty jsonPath then [JSONLine event] else [])
          ++ (if nonEmpty csvPath then [CSVLine (csvLine event)] else [])
          ++ [Stdout event]) all /\
  (nonEmpty csvPath = true ->
   ExportCSV sl' = csvHeader :: lastn (Z.to_nat max) (csvLines out)).
Proof.
  unfold NewStructuredLogger. intros Hnew.
  destruct (nonEmpty jsonPath && negb (canOpen fs jsonPath)); [discriminate|].
  destruct (nonEmpty csvPath && negb (canOpen fs csvPath)); [discriminate|].
  injection Hnew as _ <-. cbv zeta.
  match goal with |- context [logAll ?s calls] => set (sl0 := s) end.
  destruct (logAll_spec calls sl0 [] eq_refl) as [He Ho].
  cbn [sl0 maxEvents enableJSON jsonFile enableCSV csvFile enableStdout app] in He, Ho.
  rewrite !andb_diag in Ho.
  unfold GetEvents, ExportCSV. rewrite He, Ho.
  split; [reflexivity|]. split; [|split; [reflexivity|]].
  - intros Hmax. unfold lastn. replace (Z.to_nat max) with 0%nat by lia.
    rewrite Nat.sub_0_r. apply drop_all.
  - intros Hcsv. rewrite Hcsv, (csvLines_all _ true).
    f_equal. apply (lastn_fmap csvLine).
Qed.

Lemma occurrences_app (c : ascii) (a b : string) :
  occurrences c (a +:+ b) = occurrences c a + occurrences c b.
Proof.
  induction a as [|x a IH]; [reflexivity|].
  change (occurrences c (String x (a +:+ b))
          = occurrences c (String x a) + occurrences c b).
  cbn [occurrences]. rewrite IH. lia.
Qed.

Lemma occurrences_join (c : ascii) (sep : string) (fields : list string) :
  occurrences c (joinWith sep fields)
  = foldr Z.add 0 (occurrences c <$> fields)
    + occurrences c sep * (Z.of_nat (length fields) - 1 + match fields with [] => 1 | _ => 0 end).
Proof.
  induction fields as [|f [|g rest] IH]; [cbn; lia|cbn; lia|].
  change (joinWith sep (f :: g :: rest)) with (f +:+ sep +:+ joinWith sep (g :: rest)).
  rewrite !occurrences_app, IH. cbn [fmap list_fmap foldr length].
  lia.
Qed.

(** A CSV line holds the twelve fields byte for byte, with eleven commas
    between them and a line feed at the end: nothing is quoted or
    escaped.  So the line has eleven commas and one line feed exactly
    when no field has either; a comma in a URL or a line feed in a
    reason gives a row with more columns, or more than one row. *)
Theorem csvLine_does_not_escape (event : StructuredEvent) (c : ascii) :
  let inFields := foldr Z.add 0 (occurrences c <$> csvFields event) in
  occurrences c (csvLine event)
  = inFields + (if Ascii.eqb c "," then 11 else 0)
    + (if Ascii.eqb c (ascii_of_nat 10) then 1 else 0) /\
  (occurrences "," (csvLine event) = 11 <->
   foldr Z.add 0 (occurrences "," <$> csvFields event) = 0) /\
  occurrences "," (URL event) <= occurrences "," (csvLine event) - 11 /\
  occurrences (ascii_of_nat 10) (Reason event)
  <= occurrences (ascii_of_nat 10) (csvLine event) - 1.
Proof.
  assert (Hgen : forall c, occurrences c (csvLine event)
            = foldr Z.add 0 (occurrences c <$> csvFields event)
              + (if Ascii.eqb c "," then 11 else 0)
              + (if Ascii.eqb c (ascii_of_nat 10) then 1 else 0)).
  { intros c0. unfold csvLine. rewrite occurrences_app, occurrences_join.
    cbn [csvFields length occurrences newline].
    destruct (Ascii.eqb c0 ","); destruct (Ascii.eqb c0 (ascii_of_nat 10)); lia. }
  assert (Hnn : forall c s, 0 <= occurrences c s).
  { intros c0 s. induction s as [|x s IH]; cbn [occurrences]; [lia|].
    destruct (Ascii.eqb c0 x); lia. }
  cbv zeta. split; [apply Hgen|]. rewrite !Hgen.
  cbn [csvFields fmap list_fmap foldr].
  pose proof (Hnn ","%char) as Hc. pose proof (Hnn (ascii_of_nat 10)) as Hl.
  change (Ascii.eqb "," ",") with true.
  change (Ascii.eqb "," (ascii_of_nat 10)) with false.
  change (Ascii.eqb (ascii_of_nat 10) ",") with false.
  change (Ascii.eqb (ascii_of_nat 10) (ascii_of_nat 10)) with true.
  split; [|split].
  - lia.
  - pose proof (Hc (formatRFC3339 (Timestamp event))). pose proof (Hc (EventID event)).
    pose proof (Hc (EventType event)). pose proof (Hc (Severity event)).
    pose proof (Hc (SourceIP event)). pose proof (Hc (Method event)).
    pose proof (Hc (Waf.itoa (StatusCode event))).
    pose proof (Hc (showBool (Blocked event))). pose proof (Hc (RuleID event)).
    pose proof (Hc (RuleName event)). pose proof (Hc (Reason event)). lia.
  - pose proof (Hl (formatRFC3339 (Timestamp event))). pose proof (Hl (EventID event)).
    pose proof (Hl (EventType event)). pose proof (Hl (Severity event)).
    pose proof (Hl (SourceIP event)). pose proof (Hl (Method event)).
    pose proof (Hl (URL event)).
    pose proof (Hl (Waf.itoa (StatusCode event))).
    pose proof (Hl (showBool (Blocked event))). pose proof (Hl (RuleID event)).
    pose proof (Hl (RuleName event)). lia.
Qed.

End LoggerFacts.

Section StatisticsFacts.
Import StructuredLogging.

Lemma increment_lookup (m : gmap string Z) (key k : string) :
  increment m key !! k =
  if String.eqb key k then Some (default 0 (m !! k) + 1) else m !! k.
Proof.
  unfold increment. destruct (String.eqb key k) eqn:E.
  - apply String.eqb_eq in E. subst. apply lookup_insert_eq.
  - apply String.eqb_neq in E. apply lookup_insert_ne. exact E.
Qed.

Lemma after_succ (old : option Z) (n : nat) :
  after (Some (default 0 old + 1)) n = after old (S n).
Proof.
  destruct n as [|n]; cbn [after default from_option]; f_equal; unfold id; lia.
Qed.

Lemma countEvent_fold (l : list StructuredEvent) (c : Counts) :
  let c' := foldl countEvent c l in
  blockedCount c' = blockedCount c + Z.of_nat (length (List.filter Blocked l)) /\
  blockedCount c' + allowedCount c'
  = blockedCount c + allowedCount c + Z.of_nat (length l) /\
  (forall severity,
     severityCount c' !! severity
     = after (severityCount c !! severity)
         (length (List.filter
                    (fun event => String.eqb (Severity event) severity) l))) /\
  (forall ruleID,
     ruleCount c' !! ruleID
     = if String.eqb ruleID EmptyString then ruleCount c !! ruleID
       else after (ruleCount c !! ruleID)
              (length (List.filter
                         (fun event => String.eqb (RuleID event) ruleID) l))).
Proof.
  revert c. induction l as [|x l IH]; intros c.
  - cbn. repeat split; try lia. intros ruleID.
    destruct (String.eqb ruleID EmptyString); reflexivity.
  - cbn [foldl List.filter]. cbv zeta in IH |- *.
    destruct (IH (countEvent c x)) as (Hb & Hsum & Hsev & Hrule).
    split; [|split; [|split]].
    + rewrite Hb. unfold countEvent. cbn [blockedCount].
      destruct (Blocked x); cbn [length]; lia.
    + rewrite Hsum. unfold countEvent. cbn [blockedCount allowedCount length].
      destruct (Blocked x); lia.
    + intros severity. rewrite Hsev. unfold countEvent at 1.
      cbn [severityCount]. rewrite increment_lookup.
      destruct (String.eqb (Severity x) severity); [|reflexivity].
      cbn [length]. apply after_succ.
    + intros ruleID. rewrite Hrule.
      assert (Hx : forall k, ruleCount (countEvent c x) !! k
                = if String.eqb (RuleID x) EmptyString then ruleCount c !! k
                  else if String.eqb (RuleID x) k
                       then Some (default 0 (ruleCount c !! k) + 1)
                       else ruleCount c !! k).
      { intros k. unfold countEvent. cbn [ruleCount]. unfold nonEmpty.
        destruct (String.eqb (RuleID x) EmptyString); cbn [negb]; [reflexivity|].
        apply increment_lookup. }
      rewrite !Hx. clear Hx.
      destruct (String.eqb ruleID EmptyString) eqn:Eid.
      * apply String.eqb_eq in Eid. subst ruleID.
        destruct (String.eqb (RuleID x) EmptyString); reflexivity.
      * destruct (String.eqb (RuleID x) ruleID) eqn:Ex.
        -- apply String.eqb_eq in Ex. subst ruleID. rewrite Eid.
           cbn [length]. apply after_succ.
        -- destruct (String.eqb (RuleID x) EmptyString); reflexivity.
Qed.

(** The statistics against the queries, for any logger: the total is the
    number of events held, the blocked events are those
    [GetBlockedEvents] returns, blocked and allowed events add up to the
    total; the count of a severity is the number of events
    [GetEventsBySeverity] returns, with no entry when there are none;
    the count of a rule likewise by [GetEventsByRule], but the empty
    rule identifier has no entry however many events carry it.  With no
    events the block rate is NaN. *)
Theorem GetStatistics_agrees_with_queries (sl : StructuredLogger) :
  let st := GetStatistics sl in
  total_events st = Z.of_nat (length (GetEvents sl)) /\
  blocked_events st = Z.of_nat (length (GetBlockedEvents sl)) /\
  blocked_events st + allowed_events st = total_events st /\
  (forall severity,
     severity_count st !! severity
     = counted (length (GetEventsBySeverity sl severity))) /\
  (forall ruleID,
     rule_count st !! ruleID
     = if String.eqb ruleID EmptyString then None
       else counted (length (GetEventsByRule sl ruleID))) /\
  (GetEvents sl = [] -> PrimFloat.is_nan (block_rate st) = true).
Proof.
  cbv zeta.
  unfold GetStatistics, GetEvents, GetBlockedEvents, GetEventsBySeverity,
    GetEventsByRule.
  cbn [total_events blocked_events allowed_events severity_count rule_count
       block_rate].
  set (c0 := {| blockedCount := 0; allowedCount := 0; severityCount := ∅;
                ruleCount := ∅ |}).
  pose proof (countEvent_fold (events sl) c0) as Hc. cbv zeta in Hc.
  destruct Hc as (Hb & Hsum & Hsev & Hrule).
  split; [reflexivity|]. split; [rewrite Hb; reflexivity|].
  split; [rewrite Hsum; reflexivity|]. split; [|split].
  - intros severity. rewrite Hsev. cbn [c0 severityCount]. rewrite lookup_empty.
    destruct (length _); cbn; [reflexivity|]. f_equal.
  - intros ruleID. rewrite Hrule. cbn [c0 ruleCount]. rewrite lookup_empty.
    destruct (String.eqb ruleID EmptyString); [reflexivity|].
    destruct (length _); cbn; [reflexivity|]. f_equal.
  - intros Hnil. rewrite Hnil. cbn. reflexivity.
Qed.

End StatisticsFacts.

Section LoggerInstances.
Import Replay StructuredLogging LoggingExamples.

(** With room for two events, the logger holds the last two of three,
    while all three went to the CSV file. *)
Lemma LogEvent_keeps_latest_witness :
  URL <$> GetEvents (snd (@logAll plainTime (csvOnly 2) threeVisits))
    = ["/../b"; "/c"] /\
  length (csvLines (fst (@logAll plainTime (csvOnly 2) threeVisits))) = 3%nat /\
  length (@ExportCSV plainTime (snd (@logAll plainTime (csvOnly 2) threeVisits)))
    = 3%nat.
Proof.
  pose proof (@LogEvent_keeps_latest plainTime newFiles EmptyString "events.csv"
                2 [CSVLine csvHeader] (csvOnly 2) threeVisits eq_refl) as Hl.
  cbv zeta in Hl. destruct Hl as (Hev & _ & Hout & Hexp).
  split; [rewrite Hev; reflexivity|].
  split; [rewrite Hout; reflexivity|].
  rewrite (Hexp eq_refl), Hout. reflexivity.
Defined.

(** A comma in the URL gives a row of thirteen columns. *)
Lemma csvLine_does_not_escape_witness :
  occurrences "," (@csvLine plainTime (visit "/search?q=a,b")) = 12.
Proof.
  destruct (@csvLine_does_not_escape plainTime (visit "/search?q=a,b") ",")
    as [Hcount _].
  rewrite Hcount. reflexivity.
Defined.

(** Two of three events carry no rule: the rule counts have one entry,
    for rule 1003, and none for the empty identifier. *)
Lemma GetStatistics_agrees_with_queries_witness :
  let sl := snd (@logAll plainTime (csvOnly 10) threeVisits) in
  rule_count (GetStatistics sl) !! "1003" = Some 1 /\
  rule_count (GetStatistics sl) !! EmptyString = None /\
  length (GetEventsByRule sl EmptyString) = 2%nat /\
  blocked_events (GetStatistics sl) = 1.
Proof.
  cbv zeta.
  pose proof (GetStatistics_agrees_with_queries
                (snd (@logAll plainTime (csvOnly 10) threeVisits))) as Hs.
  cbv zeta in Hs. destruct Hs as (_ & Hb & _ & _ & Hrule & _).
  split; [rewrite Hrule; reflexivity|]. split; [rewrite Hrule; reflexivity|].
  split; [reflexivity|]. rewrite Hb. reflexivity.
Defined.

End LoggerInstances.

(** ** The anomaly detector *)

Section DetectorFacts.
Import StructuredLogging Anomaly.

Lemma payload_limit : int64_of_float 10485760%float = 10485760.
Proof. vm_compute. reflexivity. Qed.

Lemma appends_if (ad ad' : AnomalyDetector) (a : Anomaly) (cond : bool) :
  anomalies ad' = anomalies ad ++ (if cond then [a] else []) ->
  appends ad ad' [(Type_ a, cond)].
Proof.
  intros Ha. exists (if cond then [a] else []). split; [exact Ha|].
  destruct cond; (split; [reflexivity|]); intros type; [|reflexivity].
  cbn. destruct (String.eqb (Type_ a) type); reflexivity.
Qed.

Lemma appends_one (ad : AnomalyDetector) (a : Anomaly) (cond : bool) :
  appends ad (if cond then addAnomaly ad a else ad) [(Type_ a, cond)].
Proof.
  apply appends_if. destruct cond; [reflexivity|symmetry; apply app_nil_r].
Qed.

Lemma appends_trans (a b c : AnomalyDetector) (l1 l2 : list (string * bool)) :
  appends a b l1 -> appends b c l2 -> appends a c (l1 ++ l2).
Proof.
  intros (n1 & H1 & L1 & T1) (n2 & H2 & L2 & T2). exists (n1 ++ n2).
  split; [rewrite H2, H1, app_assoc; reflexivity|].
  split; [rewrite List.filter_app, !length_app, L1, L2; reflexivity|].
  intros type. unfold ofType in *.
  rewrite !List.filter_app, !length_app, T1, T2. reflexivity.
Qed.

Lemma keeps_refl (ad : AnomalyDetector) : keeps ad ad.
Proof. repeat split. Qed.

Lemma keeps_trans (a b c : AnomalyDetector) : keeps a b -> keeps b c -> keeps a c.
Proof.
  intros (H1 & H2 & H3 & H4 & H5 & H6) (G1 & G2 & G3 & G4 & G5 & G6).
  repeat split; congruence.
Qed.

Lemma checkRequestRate_spec (ad : AnomalyDetector) (now : Z) :
  let ad' := checkRequestRate ad now in
  appends ad ad' [("request_rate", rateExceeded ad now)] /\
  keeps ad ad' /\ payloadStats ad' = payloadStats ad.
Proof.
  cbv zeta. unfold checkRequestRate, rateExceeded.
  destruct (Z.of_nat (length (RequestTimestamps (requestStats ad))) >? 1);
    cbn [andb].
  - split; [|destruct (PrimFloat.ltb _ _); repeat split].
    apply (appends_one ad
             {| Type_ := "request_rate"; Severity := "high";
                Value := calculateRequestsPerSecond ad now;
                Threshold := requestRateThreshold ad;
                Description := HighRequestRate (calculateRequestsPerSecond ad now) |}).
  - split; [|repeat split].
    apply (appends_if _ _
             {| Type_ := "request_rate"; Severity := "high"; Value := 0%float;
                Threshold := 0%float; Description := HighRequestRate 0%float |}
             false).
    symmetry. apply app_nil_r.
Qed.

Lemma checkPayloadSize_spec (ad : AnomalyDetector) (size : Z) :
  let ad' := checkPayloadSize ad size in
  let cond := size >? int64_of_float (payloadSizeThreshold ad) in
  appends ad ad' [("payload_size", cond)] /\ keeps ad ad' /\
  LargePayloads (payloadStats ad')
    = LargePayloads (payloadStats ad) + (if cond then 1 else 0) /\
  EncodedPayloads (payloadStats ad') = EncodedPayloads (payloadStats ad).
Proof.
  cbv zeta. unfold checkPayloadSize.
  destruct (size >? int64_of_float (payloadSizeThreshold ad)).
  - split; [|repeat split].
    apply (appends_if _ _
             {| Type_ := "payload_size"; Severity := "medium";
                Value := Analysis.float_of_int64 size;
                Threshold := payloadSizeThreshold ad;
                Description := LargePayload size |} true).
    reflexivity.
  - split; [|split; [repeat split|split; [lia|reflexivity]]].
    apply (appends_if _ _
             {| Type_ := "payload_size"; Severity := "medium";
                Value := 0%float; Threshold := 0%float;
                Description := LargePayload size |} false).
    symmetry. apply app_nil_r.
Qed.

Lemma checkEntropy_spec (ad : AnomalyDetector) (entropy : float) :
  let ad' := checkEntropy ad entropy in
  let cond := PrimFloat.ltb (entropyThreshold ad) entropy in
  appends ad ad' [("entropy", cond)] /\ keeps ad ad' /\
  LargePayloads (payloadStats ad') = LargePayloads (payloadStats ad) /\
  EncodedPayloads (payloadStats ad')
    = EncodedPayloads (payloadStats ad) + (if cond then 1 else 0).
Proof.
  cbv zeta. unfold checkEntropy.
  destruct (PrimFloat.ltb (entropyThreshold ad) entropy).
  - split; [|repeat split].
    apply (appends_if _ _
             {| Type_ := "entropy"; Severity := "medium"; Value := entropy;
                Threshold := entropyThreshold ad;
                Description := HighEntropy entropy |} true).
    reflexivity.
  - split; [|split; [repeat split|split; [reflexivity|lia]]].
    apply (appends_if _ _
             {| Type_ := "entropy"; Severity := "medium"; Value := entropy;
                Threshold := 0%float; Description := HighEntropy entropy |} false).
    symmetry. apply app_nil_r.
Qed.

Lemma checkUserAgent_spec (ad : AnomalyDetector) (ua : string) :
  let ad' := checkUserAgent ad ua in
  appends ad ad' [("user_agent", isAnomalousUserAgent ua)] /\
  keeps ad ad' /\ payloadStats ad' = payloadStats ad.
Proof.
  cbv zeta. unfold checkUserAgent. split.
  - apply (appends_one ad
             {| Type_ := "user_agent"; Severity := "low"; Value := 0%float;
                Threshold := 0%float; Description := SuspiciousUserAgent ua |}).
  - destruct (isAnomalousUserAgent ua); repeat split.
Qed.

Lemma checkIP_spec (ad : AnomalyDetector) (ip : string) :
  let ad' := checkIP ad ip in
  appends ad ad'
    [("ip_address", counter (UniqueIPs (requestStats ad)) ip >? 100)] /\
  keeps ad ad' /\ payloadStats ad' = payloadStats ad.
Proof.
  cbv zeta. unfold checkIP. cbv zeta. split.
  - apply (appends_one ad
             {| Type_ := "ip_address"; Severity := "medium";
                Value := Analysis.float_of_int64
                           (counter (UniqueIPs (requestStats ad)) ip);
                Threshold := 0%float;
                Description :=
                  HighVolume ip (counter (UniqueIPs (requestStats ad)) ip) |}).
  - destruct (_ >? 100); repeat split.
Qed.

(** What [detectAnomalies] changes: it appends at most one anomaly of
    each type, in a fixed order, and counts the large and the encoded
    payloads. *)
Lemma detect_step (ad : AnomalyDetector) (now : Z) (ip ua : string)
    (size : Z) (entropy : float) :
  let ad' := detectAnomalies ad now ip ua size entropy in
  let large := size >? int64_of_float (payloadSizeThreshold ad) in
  let encoded := PrimFloat.ltb (entropyThreshold ad) entropy in
  appends ad ad'
    [("request_rate", rateExceeded ad now); ("payload_size", large);
     ("entropy", encoded); ("user_agent", isAnomalousUserAgent ua);
     ("ip_address", counter (UniqueIPs (requestStats ad)) ip >? 100)] /\
  keeps ad ad' /\
  LargePayloads (payloadStats ad')
    = LargePayloads (payloadStats ad) + (if large then 1 else 0) /\
  EncodedPayloads (payloadStats ad')
    = EncodedPayloads (payloadStats ad) + (if encoded then 1 else 0).
Proof.
  cbv zeta. unfold detectAnomalies. cbv zeta.
  set (ad1 := checkRequestRate ad now).
  set (ad2 := checkPayloadSize ad1 size).
  set (ad3 := checkEntropy ad2 entropy).
  set (ad4 := checkUserAgent ad3 ua).
  pose proof (checkRequestRate_spec ad now) as (A1 & K1 & P1).
  pose proof (checkPayloadSize_spec ad1 size) as (A2 & K2 & L2 & E2).
  pose proof (checkEntropy_spec ad2 entropy) as (A3 & K3 & L3 & E3).
  pose proof (checkUserAgent_spec ad3 ua) as (A4 & K4 & P4).
  pose proof (checkIP_spec ad4 ip) as (A5 & K5 & P5).
  fold ad1 in A1, K1, P1. fold ad2 in A2, K2, L2, E2.
  fold ad3 in A3, K3, L3, E3. fold ad4 in A4, K4, P4.
  pose proof (keeps_trans _ _ _ K1 K2) as K12.
  pose proof (keeps_trans _ _ _ K12 K3) as K13.
  pose proof (keeps_trans _ _ _ K13 K4) as K14.
  pose proof (keeps_trans _ _ _ K14 K5) as K15.
  destruct K1 as (_ & _ & _ & Hlim & _).
  destruct K12 as (_ & _ & _ & _ & Hent & _).
  destruct K14 as (Hrs & _).
  rewrite Hlim in A2, L2. rewrite Hent in A3, E3. rewrite Hrs in A5.
  split; [|split; [exact K15|]].
  - exact (appends_trans _ _ _ _ _ A1
             (appends_trans _ _ _ _ _ A2
                (appends_trans _ _ _ _ _ A3
                   (appends_trans _ _ _ _ _ A4 A5)))).
  - rewrite P5, P4, L3, L2, E3, E2, P1. split; reflexivity.
Qed.

Lemma five_checks (b1 b2 b3 b4 b5 : bool) :
  let checks := [("request_rate", b1); ("payload_size", b2); ("entropy", b3);
                 ("user_agent", b4); ("ip_address", b5)] in
  let n type :=
    length (List.filter
              (fun check : string * bool =>
                 snd check && String.eqb (fst check) type) checks) in
  n "request_rate" = (if b1 then 1 else 0)%nat /\
  n "payload_size" = (if b2 then 1 else 0)%nat /\
  n "entropy" = (if b3 then 1 else 0)%nat /\
  n "user_agent" = (if b4 then 1 else 0)%nat /\
  n "ip_address" = (if b5 then 1 else 0)%nat /\
  (length (List.filter snd checks) <= 5)%nat.
Proof.
  destruct b1, b2, b3, b4, b5; cbv; repeat split; repeat constructor.
Qed.

Lemma counter_increment (m : gmap string Z) (key : string) :
  counter (increment m key) key = counter m key + 1.
Proof.
  unfold counter. rewrite increment_lookup, String.eqb_refl. reflexivity.
Qed.

(** One call of [RecordRequest]. *)
Lemma RecordRequest_step (ad : AnomalyDetector) (c : Call) :
  let ad' := RecordRequest ad c in
  let rs := requestStats ad in
  let rs' := requestStats ad' in
  (exists new,
     anomalies ad' = anomalies ad ++ new /\
     (length new <= 5)%nat /\
     length (ofType "ip_address" new)
       = (if counter (UniqueIPs rs) (ip c) + 1 >? 100 then 1 else 0)%nat /\
     length (ofType "payload_size" new)
       = (if payloadSize c >? int64_of_float (payloadSizeThreshold ad)
          then 1 else 0)%nat /\
     length (ofType "user_agent" new)
       = (if isAnomalousUserAgent (userAgent c) then 1 else 0)%nat /\
     length (ofType "entropy" new)
       = (if PrimFloat.ltb (entropyThreshold ad) (entropy c) then 1 else 0)%nat /\
     (ofType "request_rate" new <> [] -> RequestTimestamps rs <> []) /\
     LargePayloads (payloadStats ad')
       = LargePayloads (payloadStats ad)
         + Z.of_nat (length (ofType "payload_size" new)) /\
     EncodedPayloads (payloadStats ad')
       = EncodedPayloads (payloadStats ad)
         + Z.of_nat (length (ofType "entropy" new))) /\
  TotalRequests rs' = TotalRequests rs + 1 /\
  PayloadSizes rs' = PayloadSizes rs ++ [payloadSize c] /\
  RequestTimestamps rs' = RequestTimestamps rs ++ [arrival c] /\
  UniqueIPs rs' = increment (UniqueIPs rs) (ip c) /\
  UniqueUserAgents rs' = increment (UniqueUserAgents rs) (userAgent c) /\
  EntropyValues (payloadStats ad') = EntropyValues (payloadStats ad) ++ [entropy c] /\
  requestRateThreshold ad' = requestRateThreshold ad /\
  payloadSizeThreshold ad' = payloadSizeThreshold ad /\
  entropyThreshold ad' = entropyThreshold ad /\
  timeWindowSize ad' = timeWindowSize ad.
Proof.
  cbv zeta. unfold RecordRequest. cbv zeta.
  match goal with
  | |- context [detectAnomalies ?a _ _ _ _ _] => set (ad1 := a)
  end.
  pose proof (detect_step ad1 (checked c) (ip c) (userAgent c) (payloadSize c)
                (entropy c)) as Hd.
  cbv zeta in Hd. destruct Hd as (Happ & Hkeep & Hlarge & Henc).
  destruct Hkeep as (Hrs & Hev & Hr & Hp & He & Hw).
  rewrite Hrs, Hev, Hr, Hp, He, Hw, Hlarge, Henc.
  cbn [ad1 requestStats payloadStats TotalRequests PayloadSizes
       RequestTimestamps UniqueIPs UniqueUserAgents EntropyValues
       LargePayloads EncodedPayloads requestRateThreshold
       payloadSizeThreshold entropyThreshold timeWindowSize] in *.
  split; [|repeat split].
  destruct Happ as (new & Hnew & Hlen & Htype). exists new.
  rewrite counter_increment in Htype. rewrite counter_increment in Hlen.
  pose proof (five_checks (rateExceeded ad1 (checked c))
                (payloadSize c >? int64_of_float (payloadSizeThreshold ad))
                (PrimFloat.ltb (entropyThreshold ad) (entropy c))
                (isAnomalousUserAgent (userAgent c))
                (counter (UniqueIPs (requestStats ad)) (ip c) + 1 >? 100)) as H5.
  cbv zeta in H5. destruct H5 as (N1 & N2 & N3 & N4 & N5 & Nall).
  split; [exact Hnew|]. split; [rewrite Hlen; exact Nall|].
  split; [rewrite Htype; exact N5|]. split; [rewrite Htype; exact N2|].
  split; [rewrite Htype; exact N4|]. split; [rewrite Htype; exact N3|].
  split; [|split].
  - intros Hrate.
    assert (Hone : length (ofType "request_rate" new) <> 0%nat)
      by (destruct (ofType "request_rate" new); [congruence|discriminate]).
    rewrite Htype, N1 in Hone. unfold rateExceeded in Hone.
    cbn [ad1 requestStats RequestTimestamps] in Hone.
    destruct (RequestTimestamps (requestStats ad)); [|discriminate].
    change (Z.of_nat (length ([] ++ [arrival c])) >? 1) with false in Hone.
    cbn [andb] in Hone. congruence.
  - rewrite Htype, N2. destruct (_ >? _); reflexivity.
  - rewrite Htype, N3. destruct (PrimFloat.ltb _ _); reflexivity.
Qed.

Lemma recordAll_snoc (ad : AnomalyDetector) (calls : list Call) (c : Call) :
  recordAll ad (calls ++ [c]) = RecordRequest (recordAll ad calls) c.
Proof. unfold recordAll. rewrite foldl_app. reflexivity. Qed.

Lemma requestsFrom_snoc (address : string) (calls : list Call) (c : Call) :
  requestsFrom address (calls ++ [c])
  = (requestsFrom address calls
     + if String.eqb (ip c) address then 1 else 0)%nat.
Proof.
  unfold requestsFrom. rewrite List.filter_app, length_app. cbn [List.filter].
  destruct (String.eqb (ip c) address); reflexivity.
Qed.

Lemma counted_default (n : nat) : default 0 (counted n) = Z.of_nat n.
Proof. destruct n; reflexivity. Qed.

Lemma nonempty_iff {A} (l : list A) (b : bool) :
  length l = (if b then 1 else 0)%nat -> (l <> [] <-> b = true).
Proof.
  destruct b, l; cbn; intros Hl; try discriminate; split; congruence.
Qed.

Lemma recordAll_invariant (w : Z) (calls : list Call) :
  let ad := recordAll (NewAnomalyDetector w) calls in
  TotalRequests (requestStats ad) = Z.of_nat (length calls) /\
  PayloadSizes (requestStats ad) = payloadSize <$> calls /\
  RequestTimestamps (requestStats ad) = arrival <$> calls /\
  EntropyValues (payloadStats ad) = entropy <$> calls /\
  (forall address,
     UniqueIPs (requestStats ad) !! address
     = counted (requestsFrom address calls)) /\
  LargePayloads (payloadStats ad)
    = Z.of_nat (length (ofType "payload_size" (anomalies ad))) /\
  EncodedPayloads (payloadStats ad)
    = Z.of_nat (length (ofType "entropy" (anomalies ad))) /\
  (length (anomalies ad) <= 5 * length calls)%nat /\
  requestRateThreshold ad = 1000%float /\
  payloadSizeThreshold ad = 10485760%float /\
  entropyThreshold ad = 4.5%float /\
  timeWindowSize ad = w.
Proof.
  cbv zeta. induction calls as [|c calls IH] using rev_ind.
  - cbn. repeat split; lia.
  - rewrite recordAll_snoc.
    set (ad := recordAll (NewAnomalyDetector w) calls) in *.
    destruct IH as (It & Ip & Its & Ie & Iip & Il & Ien & Ian & Ir & Isz & Ient & Iw).
    pose proof (RecordRequest_step ad c) as Hs. cbv zeta in Hs.
    destruct Hs as ((new & Hnew & Hlen & _ & _ & _ & _ & _ & Hl & Hen)
                    & Ht & Hp & Hts & Hip & _ & He & Hr & Hsz & Hent & Hw).
    rewrite Ht, Hp, Hts, He, Hip, Hl, Hen, Hnew, Hr, Hsz, Hent, Hw.
    rewrite It, Ip, Its, Ie, Il, Ien, !fmap_app, !length_app.
    unfold ofType. rewrite !List.filter_app, !length_app. cbn [length].
    split; [lia|]. split; [reflexivity|]. split; [reflexivity|].
    split; [reflexivity|]. split; [|repeat split; try assumption; lia].
    intros address. rewrite increment_lookup, Iip, requestsFrom_snoc.
    destruct (String.eqb (ip c) address); [|rewrite Nat.add_0_r; reflexivity].
    rewrite counted_default. replace (requestsFrom address calls + 1)%nat
      with (S (requestsFrom address calls)) by lia.
    cbn [counted]. f_equal. lia.
Qed.

(** From a new detector, the counters stay in step with the calls of
    [RecordRequest]: the total is their number, and sizes, times and
    entropies are kept one for each call, in order, however old (the
    window size is not used and nothing is ever dropped).  An address
    has an entry with the number of its requests; the unique addresses
    are the distinct ones.  The large and the encoded payloads are the
    anomalies of type payload_size and entropy, and a request adds at
    most five anomalies. *)
Theorem RecordRequest_counters (w : Z) (calls : list Call) :
  let ad := recordAll (NewAnomalyDetector w) calls in
  let st := GetStatistics ad in
  total_requests st = Z.of_nat (length calls) /\
  PayloadSizes (requestStats ad) = payloadSize <$> calls /\
  RequestTimestamps (requestStats ad) = arrival <$> calls /\
  EntropyValues (payloadStats ad) = entropy <$> calls /\
  (forall address,
     UniqueIPs (requestStats ad) !! address
     = counted (requestsFrom address calls)) /\
  unique_ips st = Z.of_nat (length (remove_dups (ip <$> calls))) /\
  large_payloads st
    = Z.of_nat (length (ofType "payload_size" (GetAnomalies ad))) /\
  encoded_payloads st
    = Z.of_nat (length (ofType "entropy" (GetAnomalies ad))) /\
  total_anomalies st <= 5 * total_requests st /\
  timeWindowSize ad = w.
Proof.
  cbv zeta. pose proof (recordAll_invariant w calls) as Hi. cbv zeta in Hi.
  set (ad := recordAll (NewAnomalyDetector w) calls) in *.
  destruct Hi as (It & Ip & Its & Ie & Iip & Il & Ien & Ian & _ & _ & _ & Iw).
  unfold GetStatistics, GetAnomalies.
  cbn [total_requests unique_ips large_payloads encoded_payloads total_anomalies].
  split; [exact It|]. split; [exact Ip|]. split; [exact Its|].
  split; [exact Ie|]. split; [exact Iip|]. split; [|repeat split; try assumption; lia].
  f_equal. rewrite <- (size_dom (D := gset string)).
  rewrite <- (size_list_to_set (C := gset string)) by apply NoDup_remove_dups.
  f_equal. apply set_eq. intros address.
  rewrite elem_of_dom, elem_of_list_to_set, elem_of_remove_dups, Iip.
  rewrite list_elem_of_fmap. unfold requestsFrom. split.
  - intros [n Hn].
    destruct (List.filter _ calls) as [|c l] eqn:Ef; [discriminate|].
    assert (Hin : In c (List.filter (fun c => String.eqb (ip c) address) calls))
      by (rewrite Ef; left; reflexivity).
    apply filter_In in Hin as [Hin Heq]. apply String.eqb_eq in Heq.
    exists c. split; [symmetry; exact Heq|]. apply list_elem_of_In. exact Hin.
  - intros (c & -> & Hin). apply list_elem_of_In in Hin.
    assert (Hf : In c (List.filter (fun c0 => String.eqb (ip c0) (ip c)) calls))
      by (apply filter_In; split; [exact Hin|apply String.eqb_refl]).
    destruct (List.filter _ calls); [destruct Hf|]. cbn. eauto.
Qed.

Lemma isAnomalousUserAgent_iff (userAgent : string) :
  isAnomalousUserAgent userAgent = true <-> In userAgent suspiciousAgents.
Proof.
  unfold isAnomalousUserAgent. rewrite existsb_exists. split.
  - intros (agent & Hin & Heq). apply String.eqb_eq in Heq. subst. exact Hin.
  - intros Hin. exists userAgent. split; [exact Hin|apply String.eqb_refl].
Qed.

(** What a call of [RecordRequest] flags, on a detector that recorded
    [calls] before.  The anomalies held stay, and at most five are
    added: one for the address exactly when it had sent 100 requests or
    more before this one, whenever those were; one for the size exactly
    when it is above 10485760 bytes; one for the user agent exactly when
    it is one of the twelve listed names; one for the entropy exactly
    when it is above 4.5; and none for the request rate on the first
    request. *)
Theorem RecordRequest_flags (w : Z) (calls : list Call) (c : Call) :
  let ad := recordAll (NewAnomalyDetector w) calls in
  let ad' := RecordRequest ad c in
  let new := added ad ad' in
  GetAnomalies ad' = GetAnomalies ad ++ new /\
  (length new <= 5)%nat /\
  (ofType "ip_address" new <> [] <-> (100 <= requestsFrom (ip c) calls)%nat) /\
  (ofType "payload_size" new <> [] <-> payloadSize c > 10485760) /\
  (ofType "user_agent" new <> [] <-> In (userAgent c) suspiciousAgents) /\
  (ofType "entropy" new <> [] <-> PrimFloat.ltb 4.5%float (entropy c) = true) /\
  (ofType "request_rate" new <> [] -> calls <> []).
Proof.
  cbv zeta. pose proof (recordAll_invariant w calls) as Hi. cbv zeta in Hi.
  set (ad := recordAll (NewAnomalyDetector w) calls) in *.
  destruct Hi as (_ & _ & Its & _ & Iip & _ & _ & _ & _ & Isz & Ient & _).
  pose proof (RecordRequest_step ad c) as Hs. cbv zeta in Hs.
  destruct Hs as ((new & Hnew & Hlen & Hip & Hsize & Hua & Hent & Hrate & _) & _).
  unfold added, GetAnomalies. rewrite Hnew, drop_app_length.
  split; [reflexivity|]. split; [exact Hlen|].
  rewrite Isz, payload_limit in Hsize. rewrite Ient in Hent.
  unfold counter in Hip. rewrite Iip, counted_default in Hip.
  split; [|split; [|split; [|split]]].
  - rewrite (nonempty_iff _ _ Hip). rewrite Z.gtb_lt. lia.
  - rewrite (nonempty_iff _ _ Hsize). rewrite Z.gtb_lt. lia.
  - rewrite (nonempty_iff _ _ Hua). apply isAnomalousUserAgent_iff.
  - apply (nonempty_iff _ _ Hent).
  - intros Hr. apply Hrate in Hr. rewrite Its in Hr.
    destruct calls; [exfalso; apply Hr; reflexivity|discriminate].
Qed.

Lemma length_append (a b : string) :
  String.length (a +:+ b) = (String.length a + String.length b)%nat.
Proof.
  induction a as [|x a IH]; [reflexivity|].
  change (S (String.length (a +:+ b)) = S (String.length a + String.length b)).
  rewrite IH. reflexivity.
Qed.

(** A user agent is flagged exactly when it is, byte for byte, one of
    the twelve listed names.  A listed name followed by anything, such
    as a version, is not flagged, nor is any user agent that has a slash
    or a space in it. *)
Theorem isAnomalousUserAgent_exact (userAgent : string) :
  (isAnomalousUserAgent userAgent = true <-> In userAgent suspiciousAgents) /\
  (forall agent suffix,
     In agent suspiciousAgents -> suffix <> EmptyString ->
     isAnomalousUserAgent (agent +:+ suffix) = false) /\
  (GoStrings.Contains userAgent "/" = true
   \/ GoStrings.Contains userAgent " " = true ->
   isAnomalousUserAgent userAgent = false).
Proof.
  split; [apply isAnomalousUserAgent_iff|]. split.
  - intros agent suffix Hagent Hsuffix.
    destruct (isAnomalousUserAgent (agent +:+ suffix)) eqn:E; [|reflexivity].
    exfalso. apply isAnomalousUserAgent_iff in E.
    assert (Hall : forallb (fun a =>
              forallb (fun b => implb (String.prefix a b) (String.eqb a b))
                suspiciousAgents) suspiciousAgents = true)
      by (vm_compute; reflexivity).
    rewrite forallb_forall in Hall. specialize (Hall agent Hagent).
    rewrite forallb_forall in Hall. specialize (Hall _ E).
    assert (Hp : String.prefix agent (agent +:+ suffix) = true)
      by (apply prefix_iff; exists suffix; reflexivity).
    rewrite Hp in Hall. cbn [implb] in Hall. apply String.eqb_eq in Hall.
    apply (f_equal String.length) in Hall. rewrite length_append in Hall.
    destruct suffix; [congruence|]. cbn [String.length] in Hall. lia.
  - intros Hc.
    destruct (isAnomalousUserAgent userAgent) eqn:E; [|reflexivity].
    exfalso. apply isAnomalousUserAgent_iff in E.
    assert (Hall : forallb (fun a =>
              negb (GoStrings.Contains a "/") && negb (GoStrings.Contains a " "))
              suspiciousAgents = true)
      by (vm_compute; reflexivity).
    rewrite forallb_forall in Hall. specialize (Hall _ E).
    apply andb_true_iff in Hall as [H1 H2].
    destruct Hc as [Hc|Hc]; rewrite Hc in *; discriminate.
Qed.

End DetectorFacts.

Section DetectorInstances.
Import StructuredLogging Anomaly.

(** Three requests from two addresses, one of them by [curl]. *)
Lemma RecordRequest_counters_witness :
  let st := GetStatistics (recordAll (NewAnomalyDetector 3600) threeCalls) in
  total_requests st = 3 /\ unique_ips st = 2 /\
  UniqueIPs (requestStats (recordAll (NewAnomalyDetector 3600) threeCalls))
    !! "203.0.113.9" = Some 2.
Proof.
  cbv zeta. pose proof (RecordRequest_counters 3600 threeCalls) as Hc.
  cbv zeta in Hc. destruct Hc as (Ht & _ & _ & _ & Hip & Hu & _).
  split; [rewrite Ht; reflexivity|]. split; [rewrite Hu; reflexivity|].
  rewrite Hip. reflexivity.
Defined.

(** After a hundred requests, the next one of the same address is
    flagged, a day later as well. *)
Lemma RecordRequest_flags_witness :
  let ad := recordAll (NewAnomalyDetector 3600) hundred in
  exists a rest,
    ofType "ip_address" (added ad (RecordRequest ad aDayLater)) = a :: rest.
Proof.
  cbv zeta. pose proof (RecordRequest_flags 3600 hundred aDayLater) as Hf.
  cbv zeta in Hf. destruct Hf as (_ & _ & Hip & _).
  assert (Hn : (100 <= requestsFrom (ip aDayLater) hundred)%nat)
    by (apply Nat.leb_le; vm_compute; reflexivity).
  apply Hip in Hn.
  destruct (ofType "ip_address" _) as [|a rest]; [congruence|].
  exists a, rest. reflexivity.
Defined.

(** [curl] is flagged; [curl/8.5.0] and [BadBot/1.0] are not. *)
Lemma isAnomalousUserAgent_exact_witness :
  isAnomalousUserAgent "curl" = true /\
  isAnomalousUserAgent "curl/8.5.0" = false /\
  isAnomalousUserAgent "BadBot/1.0" = false.
Proof.
  destruct (isAnomalousUserAgent_exact "curl") as (Hiff & Hsuffix & _).
  destruct (isAnomalousUserAgent_exact "BadBot/1.0") as (_ & _ & Hslash).
  split; [apply Hiff; vm_compute; tauto|]. split.
  - apply (Hsuffix "curl" "/8.5.0"); [vm_compute; tauto|discriminate].
  - apply Hslash. left. reflexivity.
Defined.

End DetectorInstances.
